(** * Dual-track paper/live trading engine (trading-engine.js, breakout FSM variant)

    A shallow embedding of the [TradingEngine] class and the proofs of the
    properties its specification states.

    Conventions of the embedding:
    - JavaScript numbers that carry prices, quantities and PnL are exact
      rationals ([Q]); rounding, NaN and infinities are outside the model.
    - Epoch-millisecond timestamps ([Date.now()]) are naturals ([N]); every
      entry point of the engine receives the clock reading [now] of its
      invocation, and all [Date.now()] calls made while that (synchronous)
      handler runs return it.
    - [null] / [undefined] fields are [option]s; the breakout threshold, which
      the code tests with [=== null] and can also hold [undefined], has its own
      three-valued type.
    - Mutation of [this.longState], [this.shortState] and their nested
      [liveState] is explicit state passing; calls that leave the engine
      (order executor, console, persistence, broadcast, timers) are recorded
      in a list of events returned next to the new state.
    - Display strings ([timeIst], trade ids) are determined by the fields kept
      here (direction, symbol, clock) and are not stored.
    - Symbols and action texts are ASCII: [toUpperCase] maps the letters a-z,
      as [String.prototype.toUpperCase] does on ASCII text.
    - The time-zone offset of the host is the same at the instant of a reset
      check and at the shifted instant whose wall clock it reads (no change
      of daylight saving time in between).
    - A state file is one that [saveState] wrote: the [currentPeakPnl] of a
      track is present in it, as a number or as [null]. *)

From Stdlib Require Import Ascii String QArith NArith ZArith Lia.
From stdpp Require Import gmap strings list.

Local Open Scope Q_scope.

(** ** Numbers and JavaScript truthiness *)

Definition Qltb (x y : Q) : bool := negb (Qle_bool y x).
Definition Qgtb (x y : Q) : bool := Qltb y x.

(** [!!x] for a number: every number but zero is truthy. *)
Definition truthyQ (x : Q) : bool := negb (Qeq_bool x 0).
Definition truthyN (n : N) : bool := negb (n =? 0)%N.

(** A field that holds [null], [undefined] or a number. *)
Inductive JsNum : Type :=
| JNull
| JUndefined
| JNum (q : Q).

Definition isNull (v : JsNum) : bool :=
  match v with JNull => true | _ => false end.

(** [ltp > v] and [ltp < v] as JavaScript evaluates them: [null] converts to
    0 and [undefined] to NaN, against which every comparison is false. *)
Definition gtJs (ltp : Q) (v : JsNum) : bool :=
  match v with
  | JNull => Qgtb ltp 0
  | JUndefined => false
  | JNum t => Qgtb ltp t
  end.

Definition ltJs (ltp : Q) (v : JsNum) : bool :=
  match v with
  | JNull => Qltb ltp 0
  | JUndefined => false
  | JNum t => Qltb ltp t
  end.

(** The result of [Map.get]: [undefined] or the stored number. *)
Definition ofLookup (o : option Q) : JsNum :=
  match o with Some p => JNum p | None => JUndefined end.

(** [stoppx || ltp], with [stoppx] a number or [null] and [ltp] the result of
    a map lookup. *)
Definition orLtp (stoppx ltp : option Q) : JsNum :=
  match stoppx with
  | Some s => if truthyQ s then JNum s else ofLookup ltp
  | None => ofLookup ltp
  end.

(** ** Constants *)

Definition OPEN_THRESHOLD : Q := 0.
Definition CLOSE_THRESHOLD : Q := 0.
Definition POSITION_SIZE : Q := 10.

(** ** Data model *)

Inductive Direction : Type := LONG | SHORT.

Inductive FsmState : Type :=
| NOPOSITION
| NOPOSITION_SIGNAL
| BUYPOSITION
| SELLPOSITION
| NOPOSITION_BLOCKED.

Inductive LivePos : Type := NO_POSITION | POSITION.

Inductive Action : Type := ENTRY | EXIT.

Inductive Side : Type := BUY | SELL.

Definition FsmState_eqb (a b : FsmState) : bool :=
  match a, b with
  | NOPOSITION, NOPOSITION | NOPOSITION_SIGNAL, NOPOSITION_SIGNAL
  | BUYPOSITION, BUYPOSITION | SELLPOSITION, SELLPOSITION
  | NOPOSITION_BLOCKED, NOPOSITION_BLOCKED => true
  | _, _ => false
  end.

Definition Action_eqb (a b : Action) : bool :=
  match a, b with ENTRY, ENTRY | EXIT, EXIT => true | _, _ => false end.

Module PaperTrade.
Record t : Type := mk {
  symbol : string;
  direction : Direction;
  entryPrice : Q;
  currentPrice : Q;
  quantity : Q;
  unrealizedPnl : Q;
  enteredAt : N
}.
End PaperTrade.

(** A row of [paperTrades]: the trade spread into a new object together with
    the exit fields. *)
Module ClosedPaperTrade.
Record t : Type := mk {
  trade : PaperTrade.t;
  exitPrice : Q;
  realizedPnl : Q;
  reason : string;
  closedAt : N
}.
End ClosedPaperTrade.

Module PeakRecord.
Record t : Type := mk {
  pnl : Q;
  timestamp : N
}.
End PeakRecord.

Module Pending.
Record t : Type := mk {
  entryPrice : Q;
  quantity : Q;
  lot : Q;
  openedAt : N
}.
End Pending.

Module OpenTrade.
Record t : Type := mk {
  openedAt : N;
  symbol : string;
  entryPrice : Q;
  quantity : Q;
  lot : Q
}.
End OpenTrade.

Module TradeRow.
Record t : Type := mk {
  action : Action;
  symbol : string;
  entryPrice : Q;
  exitPrice : option Q;
  quantity : Q;
  realizedPnl : option Q;
  cumulativePnl : Q;
  closedAt : option N
}.
End TradeRow.

Module SignalRecord.
Record t : Type := mk {
  intent : Side;
  stoppx : option Q;
  ltp : option Q;
  receivedAt : N
}.
End SignalRecord.

Module Live.
Record t : Type := mk {
  state : LivePos;
  cumulativePnl : Q;
  unrealizedPnl : Q;
  blockedAtMs : option N;
  openTrade : option OpenTrade.t;
  pendingPaperTrade : option Pending.t;
  trades : list TradeRow.t
}.

Definition set_state v (l : t) : t :=
  mk v (cumulativePnl l) (unrealizedPnl l) (blockedAtMs l) (openTrade l)
     (pendingPaperTrade l) (trades l).
Definition set_cumulativePnl v (l : t) : t :=
  mk (state l) v (unrealizedPnl l) (blockedAtMs l) (openTrade l)
     (pendingPaperTrade l) (trades l).
Definition set_unrealizedPnl v (l : t) : t :=
  mk (state l) (cumulativePnl l) v (blockedAtMs l) (openTrade l)
     (pendingPaperTrade l) (trades l).
Definition set_blockedAtMs v (l : t) : t :=
  mk (state l) (cumulativePnl l) (unrealizedPnl l) v (openTrade l)
     (pendingPaperTrade l) (trades l).
Definition set_openTrade v (l : t) : t :=
  mk (state l) (cumulativePnl l) (unrealizedPnl l) (blockedAtMs l) v
     (pendingPaperTrade l) (trades l).
Definition set_pendingPaperTrade v (l : t) : t :=
  mk (state l) (cumulativePnl l) (unrealizedPnl l) (blockedAtMs l)
     (openTrade l) v (trades l).
Definition set_trades v (l : t) : t :=
  mk (state l) (cumulativePnl l) (unrealizedPnl l) (blockedAtMs l)
     (openTrade l) (pendingPaperTrade l) v.
End Live.

Module Track.
Record t : Type := mk {
  fsmState : FsmState;
  threshold : JsNum;
  paperTrade : option PaperTrade.t;
  paperTrades : list ClosedPaperTrade.t;
  peakPnlHistory : list PeakRecord.t;
  currentPeakPnl : option Q;
  liveState : Live.t;
  signals : list SignalRecord.t;
  lastSignalAtMs : option N;
  lastBlockedAtMs : option N
}.

Definition set_fsmState v (s : t) : t :=
  mk v (threshold s) (paperTrade s) (paperTrades s) (peakPnlHistory s)
     (currentPeakPnl s) (liveState s) (signals s) (lastSignalAtMs s)
     (lastBlockedAtMs s).
Definition set_threshold v (s : t) : t :=
  mk (fsmState s) v (paperTrade s) (paperTrades s) (peakPnlHistory s)
     (currentPeakPnl s) (liveState s) (signals s) (lastSignalAtMs s)
     (lastBlockedAtMs s).
Definition set_paperTrade v (s : t) : t :=
  mk (fsmState s) (threshold s) v (paperTrades s) (peakPnlHistory s)
     (currentPeakPnl s) (liveState s) (signals s) (lastSignalAtMs s)
     (lastBlockedAtMs s).
Definition set_paperTrades v (s : t) : t :=
  mk (fsmState s) (threshold s) (paperTrade s) v (peakPnlHistory s)
     (currentPeakPnl s) (liveState s) (signals s) (lastSignalAtMs s)
     (lastBlockedAtMs s).
Definition set_peakPnlHistory v (s : t) : t :=
  mk (fsmState s) (threshold s) (paperTrade s) (paperTrades s) v
     (currentPeakPnl s) (liveState s) (signals s) (lastSignalAtMs s)
     (lastBlockedAtMs s).
Definition set_currentPeakPnl v (s : t) : t :=
  mk (fsmState s) (threshold s) (paperTrade s) (paperTrades s)
     (peakPnlHistory s) v (liveState s) (signals s) (lastSignalAtMs s)
     (lastBlockedAtMs s).
Definition set_liveState v (s : t) : t :=
  mk (fsmState s) (threshold s) (paperTrade s) (paperTrades s)
     (peakPnlHistory s) (currentPeakPnl s) v (signals s) (lastSignalAtMs s)
     (lastBlockedAtMs s).
Definition set_signals v (s : t) : t :=
  mk (fsmState s) (threshold s) (paperTrade s) (paperTrades s)
     (peakPnlHistory s) (currentPeakPnl s) (liveState s) v (lastSignalAtMs s)
     (lastBlockedAtMs s).
Definition set_lastSignalAtMs v (s : t) : t :=
  mk (fsmState s) (threshold s) (paperTrade s) (paperTrades s)
     (peakPnlHistory s) (currentPeakPnl s) (liveState s) (signals s) v
     (lastBlockedAtMs s).
Definition set_lastBlockedAtMs v (s : t) : t :=
  mk (fsmState s) (threshold s) (paperTrade s) (paperTrades s)
     (peakPnlHistory s) (currentPeakPnl s) (liveState s) (signals s)
     (lastSignalAtMs s) v.
End Track.

(** What leaves the engine. [SendLiveSignal] is the call of [sendLiveSignal]
    (the order executor), [LogLiveClosed] the console line of
    [closeLiveTrade], which is the only place the close reason goes. *)
Inductive Event : Type :=
| SendLiveSignal (kind : Action) (symbol : string) (refPrice : Q)
    (direction : Direction)
| LogLiveClosed (direction : Direction) (reason : string) (symbol : string)
    (exitPrice : Q)
| SaveState
| BroadcastState
| ScheduleAutoSignals.

Module Engine.
Record t : Type := mk {
  longState : Track.t;
  shortState : Track.t;
  ltpBySymbol : gmap string Q;
  fsmBySymbol : gmap string (FsmState * JsNum);
  lastResetDate : option Z;
  lastResetTimestamp : N
}.

Definition set_longState v (e : t) : t :=
  mk v (shortState e) (ltpBySymbol e) (fsmBySymbol e) (lastResetDate e)
     (lastResetTimestamp e).
Definition set_shortState v (e : t) : t :=
  mk (longState e) v (ltpBySymbol e) (fsmBySymbol e) (lastResetDate e)
     (lastResetTimestamp e).
Definition set_ltpBySymbol v (e : t) : t :=
  mk (longState e) (shortState e) v (fsmBySymbol e) (lastResetDate e)
     (lastResetTimestamp e).
Definition set_fsmBySymbol v (e : t) : t :=
  mk (longState e) (shortState e) (ltpBySymbol e) v (lastResetDate e)
     (lastResetTimestamp e).
Definition set_lastResetDate v (e : t) : t :=
  mk (longState e) (shortState e) (ltpBySymbol e) (fsmBySymbol e) v
     (lastResetTimestamp e).
Definition set_lastResetTimestamp v (e : t) : t :=
  mk (longState e) (shortState e) (ltpBySymbol e) (fsmBySymbol e)
     (lastResetDate e) v.
End Engine.

(** ** Utility functions *)

(** [Math.floor(tickAtMs / 60000) > Math.floor(anchorAtMs / 60000)] *)
Definition isFirstSecondNextMinute (anchorAtMs tickAtMs : N) : bool :=
  (anchorAtMs / 60000 <? tickAtMs / 60000)%N.

(** [anchor && this.isFirstSecondNextMinute(anchor, now)] for a timestamp
    field that may be [null]. *)
Definition lockExpired (anchor : option N) (now : N) : bool :=
  match anchor with
  | Some a => truthyN a && isFirstSecondNextMinute a now
  | None => false
  end.

(** [!!anchor] for a timestamp field that may be [null]. *)
Definition truthyStamp (anchor : option N) : bool :=
  match anchor with Some a => truthyN a | None => false end.

(** ** Live trade management *)

Definition createLiveState : Live.t :=
  Live.mk NO_POSITION 0 0 None None None [].

Definition openLiveTrade (direction : Direction) (now : N) (state : Track.t)
    (entryPrice : Q) (symbol : string) : Track.t * list Event :=
  let liveState := Track.liveState state in
  match Live.pendingPaperTrade liveState with
  | None => (state, [])
  | Some pending =>
      let liveState :=
        Live.set_openTrade
          (Some (OpenTrade.mk now symbol entryPrice (Pending.quantity pending)
                   (Pending.lot pending))) liveState in
      let liveState := Live.set_state POSITION liveState in
      let tradeRow :=
        TradeRow.mk ENTRY symbol entryPrice None (Pending.quantity pending)
          None (Live.cumulativePnl liveState) None in
      let liveState :=
        Live.set_trades (take 50 (tradeRow :: Live.trades liveState))
          liveState in
      (Track.set_liveState liveState state,
       [SendLiveSignal ENTRY symbol entryPrice direction])
  end.

Definition closeLiveTrade (direction : Direction) (now : N) (state : Track.t)
    (exitPrice : Q) (reason : string) : Track.t * list Event :=
  let liveState := Track.liveState state in
  match Live.openTrade liveState with
  | None => (state, [])
  | Some openTrade =>
      let realizedPnl :=
        match direction with
        | LONG =>
            (exitPrice - OpenTrade.entryPrice openTrade)
            * OpenTrade.quantity openTrade * OpenTrade.lot openTrade
        | SHORT =>
            (OpenTrade.entryPrice openTrade - exitPrice)
            * OpenTrade.quantity openTrade * OpenTrade.lot openTrade
        end in
      let liveState :=
        Live.set_cumulativePnl (Live.cumulativePnl liveState + realizedPnl)
          liveState in
      let exitRow :=
        TradeRow.mk EXIT (OpenTrade.symbol openTrade)
          (OpenTrade.entryPrice openTrade) (Some exitPrice)
          (OpenTrade.quantity openTrade) (Some realizedPnl)
          (Live.cumulativePnl liveState) (Some now) in
      let liveState :=
        Live.set_trades (take 50 (exitRow :: Live.trades liveState))
          liveState in
      let liveState := Live.set_openTrade None liveState in
      let liveState := Live.set_state NO_POSITION liveState in
      let liveState := Live.set_unrealizedPnl 0 liveState in
      (Track.set_liveState liveState state,
       [LogLiveClosed direction reason (OpenTrade.symbol openTrade) exitPrice;
        SendLiveSignal EXIT (OpenTrade.symbol openTrade) exitPrice direction])
  end.

Definition LivePos_eqb (a b : LivePos) : bool :=
  match a, b with
  | NO_POSITION, NO_POSITION | POSITION, POSITION => true
  | _, _ => false
  end.

Definition isSome {A : Type} (o : option A) : bool :=
  match o with Some _ => true | None => false end.

(** [liveState.unrealizedPnl] of an open live trade at [currentPrice]. *)
Definition liveUnrealized (direction : Direction) (currentPrice : Q)
    (openTrade : OpenTrade.t) : Q :=
  match direction with
  | LONG =>
      (currentPrice - OpenTrade.entryPrice openTrade)
      * OpenTrade.quantity openTrade * OpenTrade.lot openTrade
  | SHORT =>
      (OpenTrade.entryPrice openTrade - currentPrice)
      * OpenTrade.quantity openTrade * OpenTrade.lot openTrade
  end.

Definition checkLiveTrade (direction : Direction) (now : N) (state : Track.t)
    (totalPnl currentPrice : Q) (symbol : string) : Track.t * list Event :=
  (* Check if block expired (1-minute lock) *)
  let state :=
    if lockExpired (Live.blockedAtMs (Track.liveState state)) now
    then Track.set_liveState
           (Live.set_blockedAtMs None (Track.liveState state)) state
    else state in
  (* Protective close: when PnL drops to <= 0 *)
  let '(state, ev1) :=
    if LivePos_eqb (Live.state (Track.liveState state)) POSITION
       && isSome (Live.openTrade (Track.liveState state))
       && Qle_bool totalPnl CLOSE_THRESHOLD
    then
      let '(state, ev) :=
        closeLiveTrade direction now state currentPrice "Protective" in
      (Track.set_liveState
         (Live.set_blockedAtMs (Some now) (Track.liveState state)) state, ev)
    else (state, []) in
  (* Activate: when PnL > 0 and not blocked *)
  let '(state, ev2) :=
    if LivePos_eqb (Live.state (Track.liveState state)) NO_POSITION
       && isSome (Live.pendingPaperTrade (Track.liveState state))
       && negb (truthyStamp (Live.blockedAtMs (Track.liveState state)))
       && Qgtb totalPnl OPEN_THRESHOLD
    then openLiveTrade direction now state currentPrice symbol
    else (state, []) in
  (* Update unrealized for live state *)
  let state :=
    match Live.openTrade (Track.liveState state) with
    | Some openTrade =>
        Track.set_liveState
          (Live.set_unrealizedPnl
             (liveUnrealized direction currentPrice openTrade)
             (Track.liveState state)) state
    | None => state
    end in
  (state, ev1 ++ ev2).

(** ** Paper trades *)

(** [POSITION_SIZE / entryPrice]; a zero entry price, for which JavaScript
    yields an infinity, is outside the model. *)
Definition openPaperTrade (direction : Direction) (now : N) (state : Track.t)
    (symbol : string) (entryPrice : Q) : Track.t :=
  match Track.paperTrade state with
  | Some _ => state
  | None =>
      let trade :=
        PaperTrade.mk symbol direction entryPrice entryPrice
          (POSITION_SIZE / entryPrice) 0 now in
      let state := Track.set_paperTrade (Some trade) state in
      Track.set_liveState
        (Live.set_pendingPaperTrade
           (Some (Pending.mk entryPrice (PaperTrade.quantity trade) 1 now))
           (Track.liveState state)) state
  end.

Definition paperRealized (direction : Direction) (exitPrice : Q)
    (trade : PaperTrade.t) : Q :=
  match direction with
  | LONG => (exitPrice - PaperTrade.entryPrice trade) * PaperTrade.quantity trade
  | SHORT => (PaperTrade.entryPrice trade - exitPrice) * PaperTrade.quantity trade
  end.

Definition closePaperTrade (direction : Direction) (now : N) (state : Track.t)
    (exitPrice : Q) (reason : string) : Track.t * list Event :=
  match Track.paperTrade state with
  | None => (state, [])
  | Some trade =>
      let realizedPnl := paperRealized direction exitPrice trade in
      let state :=
        Track.set_liveState
          (Live.set_cumulativePnl
             (Live.cumulativePnl (Track.liveState state) + realizedPnl)
             (Track.liveState state)) state in
      (* Save to paper trade history *)
      let state :=
        Track.set_paperTrades
          (ClosedPaperTrade.mk trade exitPrice realizedPnl reason now
             :: Track.paperTrades state) state in
      (* Save final peak to history (if there was one) *)
      let state :=
        match Track.currentPeakPnl state with
        | Some peak =>
            if Qgtb peak 0
            then Track.set_peakPnlHistory
                   (PeakRecord.mk peak now :: Track.peakPnlHistory state) state
            else state
        | None => state
        end in
      (* Close live trade if open *)
      let '(state, ev) :=
        if isSome (Live.openTrade (Track.liveState state))
        then closeLiveTrade direction now state exitPrice reason
        else (state, []) in
      let state := Track.set_paperTrade None state in
      let state :=
        Track.set_liveState
          (Live.set_pendingPaperTrade None (Track.liveState state)) state in
      let state := Track.set_currentPeakPnl None state in
      (* Save state immediately after trade closes *)
      (state, ev ++ [SaveState])
  end.

(** ** Price updates (FSM transitions) *)

(** The peak is raised when the new unrealized PnL is positive and the peak
    is [null] or lower. *)
Definition updatePeak (currentPnl : Q) (peak : option Q) : option Q :=
  if Qgtb currentPnl 0
     && match peak with None => true | Some p => Qgtb currentPnl p end
  then Some currentPnl
  else peak.

(** Lines 307-329 of [processLongTickTransition]: the safety check and the
    PnL update of the open paper trade. *)
Definition longTickUpdate (symbol : string) (ltp : Q) (now : N)
    (state : Track.t) : Track.t * list Event :=
  (* Safety check: Reset FSM if trade is missing *)
  let state :=
    if FsmState_eqb (Track.fsmState state) BUYPOSITION
       && negb (isSome (Track.paperTrade state))
    then Track.set_currentPeakPnl None
           (Track.set_threshold JNull (Track.set_fsmState NOPOSITION state))
    else state in
  (* Update existing position PnL *)
  match Track.paperTrade state with
  | Some trade =>
      if String.eqb (PaperTrade.symbol trade) symbol
      then
        let currentPnl :=
          (ltp - PaperTrade.entryPrice trade) * PaperTrade.quantity trade in
        let trade :=
          PaperTrade.mk (PaperTrade.symbol trade) (PaperTrade.direction trade)
            (PaperTrade.entryPrice trade) ltp (PaperTrade.quantity trade)
            currentPnl (PaperTrade.enteredAt trade) in
        let state := Track.set_paperTrade (Some trade) state in
        let state :=
          Track.set_currentPeakPnl
            (updatePeak currentPnl (Track.currentPeakPnl state)) state in
        let totalPnl :=
          Live.cumulativePnl (Track.liveState state)
          + PaperTrade.unrealizedPnl trade in
        checkLiveTrade LONG now state totalPnl ltp symbol
      else (state, [])
  | None => (state, [])
  end.

(** The [switch] of [processLongTickTransition]. *)
Definition longTickSwitch (symbol : string) (ltp : Q) (now : N)
    (state : Track.t) : Track.t * list Event :=
  match Track.fsmState state with
  | NOPOSITION_SIGNAL =>
      if gtJs ltp (Track.threshold state)
      then (openPaperTrade LONG now (Track.set_fsmState BUYPOSITION state)
              symbol ltp, [])
      else (Track.set_lastBlockedAtMs (Some now)
              (Track.set_fsmState NOPOSITION_BLOCKED state), [])
  | BUYPOSITION =>
      if ltJs ltp (Track.threshold state)
      then
        let '(state, ev) := closePaperTrade LONG now state ltp "Stop Loss" in
        (Track.set_lastBlockedAtMs (Some now)
           (Track.set_fsmState NOPOSITION_BLOCKED state), ev)
      else (state, [])
  | NOPOSITION_BLOCKED =>
      if lockExpired (Track.lastBlockedAtMs state) now
      then
        if gtJs ltp (Track.threshold state)
        then (openPaperTrade LONG now (Track.set_fsmState BUYPOSITION state)
                symbol ltp, [])
        else (Track.set_lastBlockedAtMs (Some now) state, [])
      else (state, [])
  | _ => (state, [])
  end.

(** What [processLongTickTransition] does to [this.longState]. *)
Definition longTick (symbol : string) (ltp : Q) (now : N) (state : Track.t)
    : Track.t * list Event :=
  let '(state, ev1) := longTickUpdate symbol ltp now state in
  if isNull (Track.threshold state) then (state, ev1)
  else
    let '(state, ev2) := longTickSwitch symbol ltp now state in
    (state, ev1 ++ ev2).

Definition processLongTickTransition (symbol : string) (ltp : Q) (now : N)
    (e : Engine.t) : Engine.t * list Event :=
  let '(state, ev1) := longTickUpdate symbol ltp now (Engine.longState e) in
  if isNull (Track.threshold state)
  then (Engine.set_longState state e, ev1)
  else
    let '(state, ev2) := longTickSwitch symbol ltp now state in
    let e := Engine.set_longState state e in
    (* Update FSM display *)
    (Engine.set_fsmBySymbol
       (<[symbol +:+ "_LONG" := (Track.fsmState state, Track.threshold state)]>
          (Engine.fsmBySymbol e)) e,
     ev1 ++ ev2).

Definition shortTickUpdate (symbol : string) (ltp : Q) (now : N)
    (state : Track.t) : Track.t * list Event :=
  let state :=
    if FsmState_eqb (Track.fsmState state) SELLPOSITION
       && negb (isSome (Track.paperTrade state))
    then Track.set_currentPeakPnl None
           (Track.set_threshold JNull (Track.set_fsmState NOPOSITION state))
    else state in
  match Track.paperTrade state with
  | Some trade =>
      if String.eqb (PaperTrade.symbol trade) symbol
      then
        let currentPnl :=
          (PaperTrade.entryPrice trade - ltp) * PaperTrade.quantity trade in
        let trade :=
          PaperTrade.mk (PaperTrade.symbol trade) (PaperTrade.direction trade)
            (PaperTrade.entryPrice trade) ltp (PaperTrade.quantity trade)
            currentPnl (PaperTrade.enteredAt trade) in
        let state := Track.set_paperTrade (Some trade) state in
        let state :=
          Track.set_currentPeakPnl
            (updatePeak currentPnl (Track.currentPeakPnl state)) state in
        let totalPnl :=
          Live.cumulativePnl (Track.liveState state)
          + PaperTrade.unrealizedPnl trade in
        checkLiveTrade SHORT now state totalPnl ltp symbol
      else (state, [])
  | None => (state, [])
  end.

Definition shortTickSwitch (symbol : string) (ltp : Q) (now : N)
    (state : Track.t) : Track.t * list Event :=
  match Track.fsmState state with
  | NOPOSITION_SIGNAL =>
      if ltJs ltp (Track.threshold state)
      then (openPaperTrade SHORT now (Track.set_fsmState SELLPOSITION state)
              symbol ltp, [])
      else (Track.set_lastBlockedAtMs (Some now)
              (Track.set_fsmState NOPOSITION_BLOCKED state), [])
  | SELLPOSITION =>
      if gtJs ltp (Track.threshold state)
      then
        let '(state, ev) := closePaperTrade SHORT now state ltp "Stop Loss" in
        (Track.set_lastBlockedAtMs (Some now)
           (Track.set_fsmState NOPOSITION_BLOCKED state), ev)
      else (state, [])
  | NOPOSITION_BLOCKED =>
      if lockExpired (Track.lastBlockedAtMs state) now
      then
        if ltJs ltp (Track.threshold state)
        then (openPaperTrade SHORT now (Track.set_fsmState SELLPOSITION state)
                symbol ltp, [])
        else (Track.set_lastBlockedAtMs (Some now) state, [])
      else (state, [])
  | _ => (state, [])
  end.

Definition shortTick (symbol : string) (ltp : Q) (now : N) (state : Track.t)
    : Track.t * list Event :=
  let '(state, ev1) := shortTickUpdate symbol ltp now state in
  if isNull (Track.threshold state) then (state, ev1)
  else
    let '(state, ev2) := shortTickSwitch symbol ltp now state in
    (state, ev1 ++ ev2).

Definition processShortTickTransition (symbol : string) (ltp : Q) (now : N)
    (e : Engine.t) : Engine.t * list Event :=
  let '(state, ev1) := shortTickUpdate symbol ltp now (Engine.shortState e) in
  if isNull (Track.threshold state)
  then (Engine.set_shortState state e, ev1)
  else
    let '(state, ev2) := shortTickSwitch symbol ltp now state in
    let e := Engine.set_shortState state e in
    (Engine.set_fsmBySymbol
       (<[symbol +:+ "_SHORT" := (Track.fsmState state, Track.threshold state)]>
          (Engine.fsmBySymbol e)) e,
     ev1 ++ ev2).

(** ** Symbols *)

Definition upperAscii (c : ascii) : ascii :=
  let n := nat_of_ascii c in
  if (97 <=? n)%nat && (n <=? 122)%nat then ascii_of_nat (n - 32) else c.

Fixpoint toUpperCase (s : string) : string :=
  match s with
  | EmptyString => EmptyString
  | String c s' => String (upperAscii c) (toUpperCase s')
  end.

Fixpoint includes (needle s : string) : bool :=
  String.prefix needle s
  || match s with
     | EmptyString => false
     | String _ s' => includes needle s'
     end.

(** [upperSymbol.includes('BTC')] *)
Definition isBtc (symbol : string) : bool :=
  includes "BTC" (toUpperCase symbol).

Definition updateLtp (symbol : string) (price : Q) (now : N) (e : Engine.t)
    : Engine.t * list Event :=
  let e := Engine.set_ltpBySymbol (<[symbol := price]> (Engine.ltpBySymbol e)) e in
  (* Only process FSM transitions for BTC symbols *)
  if negb (isBtc symbol) then (e, [])
  else
    let '(e, ev1) := processLongTickTransition symbol price now e in
    let '(e, ev2) := processShortTickTransition symbol price now e in
    (e, ev1 ++ ev2).

(** ** Webhook signal processing *)

Module Signal.
Record t : Type := mk {
  symbol : option string;
  intent : option Action;
  stoppx : option Q;
  side : option Side
}.
End Signal.

Definition sideIs (v : Side) (side : option Side) : bool :=
  match side, v with
  | Some BUY, BUY | Some SELL, SELL => true
  | _, _ => false
  end.

Definition intentIs (v : Action) (intent : option Action) : bool :=
  match intent with Some a => Action_eqb a v | None => false end.

(** [side === 'BUY' || (side !== 'SELL' && intent === 'ENTRY')] *)
Definition isBuy (signal : Signal.t) : bool :=
  sideIs BUY (Signal.side signal)
  || (negb (sideIs SELL (Signal.side signal))
      && intentIs ENTRY (Signal.intent signal)).

(** [side === 'SELL' || (side !== 'BUY' && intent === 'EXIT')] *)
Definition isSell (signal : Signal.t) : bool :=
  sideIs SELL (Signal.side signal)
  || (negb (sideIs BUY (Signal.side signal))
      && intentIs EXIT (Signal.intent signal)).

(** [ltp || null] *)
Definition orNull (ltp : option Q) : option Q :=
  match ltp with
  | Some p => if truthyQ p then Some p else None
  | None => None
  end.

(** A signal moves a flat or blocked track to [NOPOSITION_SIGNAL]. *)
Definition armTrack (state : Track.t) : Track.t :=
  match Track.fsmState state with
  | NOPOSITION | NOPOSITION_BLOCKED => Track.set_fsmState NOPOSITION_SIGNAL state
  | _ => state
  end.

Definition processWebhookSignal (signal : Signal.t) (now : N) (e : Engine.t)
    : Engine.t * list Event :=
  match Signal.symbol signal with
  | None => (e, [])
  | Some EmptyString => (e, [])
  | Some symbol =>
      let normalizedSymbol := toUpperCase symbol in
      if negb (includes "BTC" normalizedSymbol) then (e, [])
      else
        let ltp := Engine.ltpBySymbol e !! normalizedSymbol in
        let signalRecord :=
          SignalRecord.mk (if isBuy signal then BUY else SELL)
            (Signal.stoppx signal) (orNull ltp) now in
        if isBuy signal then
          let state := Engine.longState e in
          let state :=
            Track.set_signals (take 50 (signalRecord :: Track.signals state))
              state in
          (* Set threshold from stoppx (or LTP if no stoppx) *)
          let state :=
            Track.set_threshold (orLtp (Signal.stoppx signal) ltp) state in
          let state := Track.set_lastSignalAtMs (Some now) state in
          let state := armTrack state in
          (Engine.set_longState state e, [BroadcastState])
        else if isSell signal then
          let state := Engine.shortState e in
          let state :=
            Track.set_signals (take 50 (signalRecord :: Track.signals state))
              state in
          (* For SELL: Always use current LTP as threshold (ignore stoppx) *)
          let state := Track.set_threshold (ofLookup ltp) state in
          let state := Track.set_lastSignalAtMs (Some now) state in
          let state := armTrack state in
          (Engine.set_shortState state e, [BroadcastState])
        else (e, [BroadcastState])
  end.

(** ** Daily reset *)

(** [this.ltpBySymbol.get(trade.symbol) || trade.currentPrice] *)
Definition resetExitPrice (ltps : gmap string Q) (trade : PaperTrade.t) : Q :=
  match ltps !! PaperTrade.symbol trade with
  | Some p => if truthyQ p then p else PaperTrade.currentPrice trade
  | None => PaperTrade.currentPrice trade
  end.

(** The assignments of [performDailyReset] to one track: history is kept,
    active state and PnL are reset. *)
Definition resetTrack (state : Track.t) : Track.t :=
  let state := Track.set_fsmState NOPOSITION state in
  let state := Track.set_threshold JNull state in
  let state := Track.set_currentPeakPnl None state in
  let state := Track.set_signals [] state in
  let liveState := Track.liveState state in
  let liveState := Live.set_state NO_POSITION liveState in
  let liveState := Live.set_cumulativePnl 0 liveState in
  let liveState := Live.set_unrealizedPnl 0 liveState in
  let liveState := Live.set_blockedAtMs None liveState in
  let liveState := Live.set_openTrade None liveState in
  let liveState := Live.set_pendingPaperTrade None liveState in
  let state := Track.set_liveState liveState state in
  let state := Track.set_lastSignalAtMs None state in
  Track.set_lastBlockedAtMs None state.

Definition performDailyReset (now : N) (e : Engine.t) : Engine.t * list Event :=
  (* Close any open positions first *)
  let '(long, ev1) :=
    match Track.paperTrade (Engine.longState e) with
    | Some trade =>
        closePaperTrade LONG now (Engine.longState e)
          (resetExitPrice (Engine.ltpBySymbol e) trade) "Daily Reset"
    | None => (Engine.longState e, [])
    end in
  let '(short, ev2) :=
    match Track.paperTrade (Engine.shortState e) with
    | Some trade =>
        closePaperTrade SHORT now (Engine.shortState e)
          (resetExitPrice (Engine.ltpBySymbol e) trade) "Daily Reset"
    | None => (Engine.shortState e, [])
    end in
  let e := Engine.set_longState (resetTrack long) e in
  let e := Engine.set_shortState (resetTrack short) e in
  let e := Engine.set_fsmBySymbol ∅ e in
  let e := Engine.set_lastResetTimestamp now e in
  (e, ev1 ++ ev2 ++ [ScheduleAutoSignals]).

(** The wall clock of [checkDailyReset]. [tzOffset] is
    [now.getTimezoneOffset()] of the host, in minutes. The shifted instant
    [utc + istOffset] is read back with [getHours] / [getMinutes], which
    are local-time accessors, and with [toISOString], which prints the UTC
    calendar date; that date string is represented by its day number. *)
Definition istShifted (tzOffset : Z) (now : N) : Z :=
  (Z.of_N now + tzOffset * 60000 + 19800000)%Z.

Definition istHours (tzOffset : Z) (now : N) : Z :=
  (((istShifted tzOffset now - tzOffset * 60000) / 3600000) mod 24)%Z.

Definition istMinutes (tzOffset : Z) (now : N) : Z :=
  (((istShifted tzOffset now - tzOffset * 60000) / 60000) mod 60)%Z.

Definition istDateStr (tzOffset : Z) (now : N) : Z :=
  (istShifted tzOffset now / 86400000)%Z.

Definition inResetWindow (tzOffset : Z) (now : N) : bool :=
  (istHours tzOffset now =? 5)%Z
  && (30 <=? istMinutes tzOffset now)%Z
  && (istMinutes tzOffset now <? 31)%Z.

Definition sameDate (last : option Z) (dateStr : Z) : bool :=
  match last with Some d => (d =? dateStr)%Z | None => false end.

Definition checkDailyReset (tzOffset : Z) (now : N) (e : Engine.t)
    : Engine.t * list Event :=
  let dateStr := istDateStr tzOffset now in
  if inResetWindow tzOffset now && negb (sameDate (Engine.lastResetDate e) dateStr)
  then
    let '(e, ev) := performDailyReset now e in
    (Engine.set_lastResetDate (Some dateStr) e, ev)
  else (e, []).

(** Runs from the timer that [performDailyReset] sets. *)
Definition generateAutoSignals (now : N) (e : Engine.t) : Engine.t * list Event :=
  match Engine.ltpBySymbol e !! "BTCUSDT" with
  | None => (e, [])
  | Some ltp =>
      if negb (truthyQ ltp) then (e, [])
      else
        let buySignal :=
          Signal.mk (Some "BTCUSDT") (Some ENTRY) (Some (ltp - 50)) (Some BUY) in
        let '(e, ev1) := processWebhookSignal buySignal now e in
        let sellSignal :=
          Signal.mk (Some "BTCUSDT") (Some ENTRY) (Some ltp) (Some SELL) in
        let '(e, ev2) := processWebhookSignal sellSignal now e in
        (e, ev1 ++ ev2)
  end.

(** ** State getters *)

Definition getCumPaperPnl (lastResetTimestamp : N) (state : Track.t) : Q :=
  let unrealized :=
    match Track.paperTrade state with
    | Some trade => PaperTrade.unrealizedPnl trade
    | None => 0
    end in
  let realized :=
    fold_left
      (fun sum t =>
         if truthyN (ClosedPaperTrade.closedAt t)
            && (lastResetTimestamp <? ClosedPaperTrade.closedAt t)%N
         then sum + ClosedPaperTrade.realizedPnl t
         else sum)
      (Track.paperTrades state) 0 in
  unrealized + realized.

(** The test of the reducer in [getCumLivePnl]:
    [t.action === 'EXIT' && t.realizedPnl !== null && t.closedAt &&
     t.closedAt > this.lastResetTimestamp]. *)
Definition countsAsLivePnl (lastResetTimestamp : N) (t : TradeRow.t) : bool :=
  Action_eqb (TradeRow.action t) EXIT
  && isSome (TradeRow.realizedPnl t)
  && truthyStamp (TradeRow.closedAt t)
  && match TradeRow.closedAt t with
     | Some c => (lastResetTimestamp <? c)%N
     | None => false
     end.

Definition getCumLivePnl (lastResetTimestamp : N) (liveState : Live.t) : Q :=
  fold_left
    (fun sum t =>
       if countsAsLivePnl lastResetTimestamp t
       then match TradeRow.realizedPnl t with
            | Some r => sum + r
            | None => sum
            end
       else sum)
    (Live.trades liveState) 0.

(** ** State persistence *)

(** The JSON record of one track in the state file. A key that is missing,
    [null] or otherwise falsy reads as [None]. *)
Module PersistedTrack.
Record t : Type := mk {
  fsmState : option FsmState;
  threshold : JsNum;
  paperTrades : option (list ClosedPaperTrade.t);
  peakPnlHistory : option (list PeakRecord.t);
  currentPeakPnl : option Q;
  signals : option (list SignalRecord.t);
  liveStateTrades : option (list TradeRow.t);
  liveStateCumulativePnl : option Q
}.
End PersistedTrack.

Module Persisted.
Record t : Type := mk {
  savedAt : N;
  lastResetDate : option Z;
  lastResetTimestamp : option N;
  long : option PersistedTrack.t;
  short : option PersistedTrack.t
}.
End Persisted.

Definition saveTrack (state : Track.t) : PersistedTrack.t :=
  PersistedTrack.mk (Some (Track.fsmState state)) (Track.threshold state)
    (Some (Track.paperTrades state)) (Some (Track.peakPnlHistory state))
    (Track.currentPeakPnl state) (Some (Track.signals state))
    (Some (Live.trades (Track.liveState state)))
    (Some (Live.cumulativePnl (Track.liveState state))).

(** The record [saveState] writes to the state file. *)
Definition saveState (now : N) (e : Engine.t) : Persisted.t :=
  Persisted.mk now (Engine.lastResetDate e) (Some (Engine.lastResetTimestamp e))
    (Some (saveTrack (Engine.longState e)))
    (Some (saveTrack (Engine.shortState e))).

Definition restoreTrack (saved : PersistedTrack.t) (state : Track.t) : Track.t :=
  let state :=
    Track.set_fsmState (default NOPOSITION (PersistedTrack.fsmState saved))
      state in
  let state := Track.set_threshold (PersistedTrack.threshold saved) state in
  let state :=
    Track.set_paperTrades (default [] (PersistedTrack.paperTrades saved))
      state in
  let state :=
    Track.set_peakPnlHistory (default [] (PersistedTrack.peakPnlHistory saved))
      state in
  let state :=
    Track.set_currentPeakPnl (PersistedTrack.currentPeakPnl saved) state in
  let state :=
    Track.set_signals (default [] (PersistedTrack.signals saved)) state in
  let liveState := Track.liveState state in
  let liveState :=
    Live.set_trades (default [] (PersistedTrack.liveStateTrades saved))
      liveState in
  let liveState :=
    Live.set_cumulativePnl
      (default 0 (PersistedTrack.liveStateCumulativePnl saved)) liveState in
  Track.set_liveState liveState state.

(** [file] is the parsed content of the state file, [None] when the file
    is missing or cannot be read. *)
Definition loadState (file : option Persisted.t) (now : N) (e : Engine.t)
    : Engine.t :=
  match file with
  | None => e
  | Some saved =>
      let e := Engine.set_lastResetDate (Persisted.lastResetDate saved) e in
      let e :=
        Engine.set_lastResetTimestamp
          (match Persisted.lastResetTimestamp saved with
           | Some ts => if truthyN ts then ts else now
           | None => now
           end) e in
      let e :=
        match Persisted.long saved with
        | Some l => Engine.set_longState (restoreTrack l (Engine.longState e)) e
        | None => e
        end in
      match Persisted.short saved with
      | Some s => Engine.set_shortState (restoreTrack s (Engine.shortState e)) e
      | None => e
      end
  end.

Definition initialTrack : Track.t :=
  Track.mk NOPOSITION JNull None [] [] None createLiveState [] None None.

(** The constructor: fresh tracks, then [loadState]. *)
Definition newEngine (file : option Persisted.t) (now : N) : Engine.t :=
  loadState file now (Engine.mk initialTrack initialTrack ∅ ∅ None now).

(** ** Entry points and traces *)

Definition track (d : Direction) (e : Engine.t) : Track.t :=
  match d with LONG => Engine.longState e | SHORT => Engine.shortState e end.

(** [unrealizedPnl] of a paper trade at [ltp]. *)
Definition paperUnrealized (d : Direction) (ltp : Q) (trade : PaperTrade.t) : Q :=
  match d with
  | LONG => (ltp - PaperTrade.entryPrice trade) * PaperTrade.quantity trade
  | SHORT => (PaperTrade.entryPrice trade - ltp) * PaperTrade.quantity trade
  end.

(** The state in which the track of a direction holds its position. *)
Definition positionState (d : Direction) : FsmState :=
  match d with LONG => BUYPOSITION | SHORT => SELLPOSITION end.

(** The entry condition of a direction: above the threshold for LONG, below
    it for SHORT. *)
Definition breakout (d : Direction) (ltp : Q) (threshold : JsNum) : bool :=
  match d with LONG => gtJs ltp threshold | SHORT => ltJs ltp threshold end.

(** The stop condition of a direction. *)
Definition stopHit (d : Direction) (ltp : Q) (threshold : JsNum) : bool :=
  match d with LONG => ltJs ltp threshold | SHORT => gtJs ltp threshold end.

(** The paper trade after a tick at [ltp]. *)
Definition repriced (d : Direction) (ltp : Q) (trade : PaperTrade.t)
    : PaperTrade.t :=
  PaperTrade.mk (PaperTrade.symbol trade) (PaperTrade.direction trade)
    (PaperTrade.entryPrice trade) ltp (PaperTrade.quantity trade)
    (paperUnrealized d ltp trade) (PaperTrade.enteredAt trade).

(** [longTickUpdate] and [shortTickUpdate] as one function of the
    direction; [tickUpdate_long] and [tickUpdate_short] below show that it
    is them. *)
Definition tickUpdate (d : Direction) (symbol : string) (ltp : Q) (now : N)
    (state : Track.t) : Track.t * list Event :=
  let state :=
    if FsmState_eqb (Track.fsmState state) (positionState d)
       && negb (isSome (Track.paperTrade state))
    then Track.set_currentPeakPnl None
           (Track.set_threshold JNull (Track.set_fsmState NOPOSITION state))
    else state in
  match Track.paperTrade state with
  | Some trade =>
      if String.eqb (PaperTrade.symbol trade) symbol
      then
        let state := Track.set_paperTrade (Some (repriced d ltp trade)) state in
        let state :=
          Track.set_currentPeakPnl
            (updatePeak (paperUnrealized d ltp trade)
               (Track.currentPeakPnl state)) state in
        checkLiveTrade d now state
          (Live.cumulativePnl (Track.liveState state)
           + paperUnrealized d ltp trade) ltp symbol
      else (state, [])
  | None => (state, [])
  end.

(** The two [switch] statements as one function of the direction. *)
Definition tickSwitch (d : Direction) (symbol : string) (ltp : Q) (now : N)
    (state : Track.t) : Track.t * list Event :=
  if FsmState_eqb (Track.fsmState state) NOPOSITION_SIGNAL then
    if breakout d ltp (Track.threshold state)
    then (openPaperTrade d now (Track.set_fsmState (positionState d) state)
            symbol ltp, [])
    else (Track.set_lastBlockedAtMs (Some now)
            (Track.set_fsmState NOPOSITION_BLOCKED state), [])
  else if FsmState_eqb (Track.fsmState state) (positionState d) then
    if stopHit d ltp (Track.threshold state)
    then
      let '(state, ev) := closePaperTrade d now state ltp "Stop Loss" in
      (Track.set_lastBlockedAtMs (Some now)
         (Track.set_fsmState NOPOSITION_BLOCKED state), ev)
    else (state, [])
  else if FsmState_eqb (Track.fsmState state) NOPOSITION_BLOCKED then
    if lockExpired (Track.lastBlockedAtMs state) now
    then
      if breakout d ltp (Track.threshold state)
      then (openPaperTrade d now (Track.set_fsmState (positionState d) state)
              symbol ltp, [])
      else (Track.set_lastBlockedAtMs (Some now) state, [])
    else (state, [])
  else (state, []).

(** What a tick does to the track of a direction. *)
Definition trackTick (d : Direction) (symbol : string) (ltp : Q) (now : N)
    (state : Track.t) : Track.t * list Event :=
  let '(state, ev1) := tickUpdate d symbol ltp now state in
  if isNull (Track.threshold state) then (state, ev1)
  else
    let '(state, ev2) := tickSwitch d symbol ltp now state in
    (state, ev1 ++ ev2).

Definition processTickTransition (d : Direction) :=
  match d with
  | LONG => processLongTickTransition
  | SHORT => processShortTickTransition
  end.

Module Tick.
Record t : Type := mk {
  symbol : string;
  price : Q;
  at_ms : N
}.
End Tick.

(** Ticks delivered to the tick handler of one track. *)
Fixpoint processTicks (d : Direction) (ticks : list Tick.t) (e : Engine.t)
    : Engine.t * list Event :=
  match ticks with
  | [] => (e, [])
  | t :: rest =>
      let '(e, ev1) :=
        processTickTransition d (Tick.symbol t) (Tick.price t) (Tick.at_ms t) e in
      let '(e, ev2) := processTicks d rest e in
      (e, ev1 ++ ev2)
  end.

(** Ticks delivered to [updateLtp] one after the other. *)
Fixpoint feedTicks (ticks : list Tick.t) (e : Engine.t) : Engine.t * list Event :=
  match ticks with
  | [] => (e, [])
  | t :: rest =>
      let '(e, ev1) := updateLtp (Tick.symbol t) (Tick.price t) (Tick.at_ms t) e in
      let '(e, ev2) := feedTicks rest e in
      (e, ev1 ++ ev2)
  end.

(** The paper trade of a track is still open after each of the ticks. *)
Fixpoint heldThroughout (d : Direction) (ticks : list Tick.t) (e : Engine.t)
    : Prop :=
  match ticks with
  | [] => True
  | t :: rest =>
      let e' :=
        (processTickTransition d (Tick.symbol t) (Tick.price t)
           (Tick.at_ms t) e).1 in
      is_Some (Track.paperTrade (track d e')) /\ heldThroughout d rest e'
  end.

(** The calls through which the running engine changes state: ticks from
    the feeds, webhook signals, the one-second reset check and the timer
    set by the daily reset. *)
Inductive Call : Type :=
| CallUpdateLtp (symbol : string) (price : Q) (now : N)
| CallWebhookSignal (signal : Signal.t) (now : N)
| CallCheckDailyReset (tzOffset : Z) (now : N)
| CallGenerateAutoSignals (now : N).

Definition run (c : Call) (e : Engine.t) : Engine.t * list Event :=
  match c with
  | CallUpdateLtp symbol price now => updateLtp symbol price now e
  | CallWebhookSignal signal now => processWebhookSignal signal now e
  | CallCheckDailyReset tzOffset now => checkDailyReset tzOffset now e
  | CallGenerateAutoSignals now => generateAutoSignals now e
  end.

(** Engine states that arise from a constructor call followed by calls. *)
Inductive reachable : Engine.t -> Prop :=
| reachable_new file now : reachable (newEngine file now)
| reachable_run c e : reachable e -> reachable (run c e).1.

(** The minute of a timestamp: [Math.floor(t / 60000)]. *)
Definition minuteOf (t : N) : N := (t / 60000)%N.

Definition other (d : Direction) : Direction :=
  match d with LONG => SHORT | SHORT => LONG end.

(** The fields of the closed paper trade pushed on [paperTrades]. *)
Definition closedRow (d : Direction) (now : N) (exitPrice : Q)
    (reason : string) (trade : PaperTrade.t) : ClosedPaperTrade.t :=
  ClosedPaperTrade.mk trade exitPrice (paperRealized d exitPrice trade) reason
    now.

(** [peakPnlHistory] after a close at [now] with the peak [peak]. *)
Definition archivedPeaks (now : N) (peak : option Q)
    (history : list PeakRecord.t) : list PeakRecord.t :=
  match peak with
  | Some p => if Qgtb p 0 then PeakRecord.mk p now :: history else history
  | None => history
  end.

(** ** Invariants *)

(** [openTrade] is present iff [state == POSITION]. *)
Definition live_inv (l : Live.t) : Prop :=
  is_Some (Live.openTrade l) <-> Live.state l = POSITION.

Definition engine_live_inv (e : Engine.t) : Prop :=
  live_inv (Track.liveState (Engine.longState e))
  /\ live_inv (Track.liveState (Engine.shortState e)).

(** A paper trade is open only while the track is in its position state. *)
Definition paper_inv (d : Direction) (s : Track.t) : Prop :=
  Track.paperTrade s = None \/ Track.fsmState s = positionState d.

(** ** Counting events *)

Definition isSend (kind : Action) (ev : Event) : bool :=
  match ev with
  | SendLiveSignal k _ _ _ => Action_eqb k kind
  | _ => false
  end.

Definition countSends (kind : Action) (evs : list Event) : nat :=
  length (List.filter (isSend kind) evs).

(** The console line of a live close. *)
Definition isCloseLog (ev : Event) : bool :=
  match ev with
  | LogLiveClosed _ _ _ _ => true
  | _ => false
  end.

(** The rows [openLiveTrade] and [closeLiveTrade] put on the ledger. *)
Definition entryRow (symbol : string) (entryPrice : Q) (pending : Pending.t)
    (cumulativePnl : Q) : TradeRow.t :=
  TradeRow.mk ENTRY symbol entryPrice None (Pending.quantity pending) None
    cumulativePnl None.

Definition exitRow (d : Direction) (now : N) (exitPrice : Q)
    (openTrade : OpenTrade.t) (cumulativePnl : Q) : TradeRow.t :=
  TradeRow.mk EXIT (OpenTrade.symbol openTrade)
    (OpenTrade.entryPrice openTrade) (Some exitPrice)
    (OpenTrade.quantity openTrade)
    (Some (liveUnrealized d exitPrice openTrade))
    (cumulativePnl + liveUnrealized d exitPrice openTrade) (Some now).

(** A tick for [symbol] that keeps the total PnL of the open paper trade
    positive and does not hit the stop. *)
Definition keepsPositive (d : Direction) (symbol : string) (cum : Q)
    (trade : PaperTrade.t) (threshold : JsNum) (t : Tick.t) : Prop :=
  Tick.symbol t = symbol
  /\ 0 < cum + paperUnrealized d (Tick.price t) trade
  /\ stopHit d (Tick.price t) threshold = false.

(** A track that holds a paper trade on [symbol] (entered at [entry] with
    quantity [qty]) and the live trade [ot]. *)
Definition holding (symbol : string) (entry qty : Q) (threshold : JsNum)
    (ot : OpenTrade.t) (cum : Q) (rows : list TradeRow.t) (s : Track.t)
    : Prop :=
  (exists tr,
      Track.paperTrade s = Some tr
      /\ PaperTrade.symbol tr = symbol
      /\ PaperTrade.entryPrice tr = entry
      /\ PaperTrade.quantity tr = qty)
  /\ Track.threshold s = threshold
  /\ Live.state (Track.liveState s) = POSITION
  /\ Live.openTrade (Track.liveState s) = Some ot
  /\ Live.cumulativePnl (Track.liveState s) = cum
  /\ Live.trades (Track.liveState s) = rows.

(** ** The live cumulative PnL as the specification words it *)

Fixpoint sumQ (l : list Q) : Q :=
  match l with
  | [] => 0
  | x :: l' => x + sumQ l'
  end.

(** An EXIT row closed strictly after the last reset. *)
Definition isExitAfter (lastResetTimestamp : N) (t : TradeRow.t) : bool :=
  match TradeRow.action t, TradeRow.closedAt t with
  | EXIT, Some c => (lastResetTimestamp <? c)%N
  | _, _ => false
  end.

Definition realizedOrZero (t : TradeRow.t) : Q :=
  default 0 (TradeRow.realizedPnl t).

Definition specCumLivePnl (lastResetTimestamp : N) (rows : list TradeRow.t) : Q :=
  sumQ (map realizedOrZero (List.filter (isExitAfter lastResetTimestamp) rows)).

(** The order on peaks: [null] is below every recorded peak. *)
Definition peak_le (a b : option Q) : Prop :=
  match a, b with
  | None, _ => True
  | Some _, None => False
  | Some x, Some y => x <= y
  end.

(** ** Concrete engines for the examples *)

Definition btc : string := "BTCUSDT".

(** A BUY signal with stop price 100 on a fresh engine: the LONG track waits
    in [NOPOSITION_SIGNAL] with threshold 100. *)
Definition armedEngine : Engine.t :=
  (processWebhookSignal
     (Signal.mk (Some btc) (Some ENTRY) (Some 100) (Some BUY)) 500
     (newEngine None 1)).1.

(** Then 100 (which blocks the track) and, a minute later, 101: the LONG
    track holds a paper trade entered at 101. *)
Definition enteredEngine : Engine.t :=
  (feedTicks [Tick.mk btc 100 1000; Tick.mk btc 101 61000] armedEngine).1.

Definition enteredTrade : PaperTrade.t :=
  PaperTrade.mk btc LONG 101 101 (POSITION_SIZE / 101) 0 61000.

Definition enteredPending : Pending.t :=
  Pending.mk 101 (POSITION_SIZE / 101) 1 61000.

(** Then 102: the paper trade is in profit and is promoted to a live
    trade. *)
Definition promotedEngine : Engine.t :=
  (updateLtp btc 102 62000 enteredEngine).1.

Definition promotedOpenTrade : OpenTrade.t :=
  OpenTrade.mk 62000 btc 102 (POSITION_SIZE / 101) 1.

(** A fresh engine that has seen the price 60. *)
Definition pricedEngine : Engine.t :=
  (updateLtp btc 60 1000 (newEngine None 1)).1.

(** A ledger with an exit after the reset, an entry, and an exit before
    the reset. *)
Definition sampleLedger : Live.t :=
  Live.mk NO_POSITION 12 0 None None None
    [TradeRow.mk EXIT btc 100 (Some 105) 1 (Some 5) 12 (Some 2000%N);
     TradeRow.mk ENTRY btc 100 None 1 None 7 None;
     TradeRow.mk EXIT btc 90 (Some 97) 1 (Some 7) 7 (Some 500%N)].

(** ** Runs of calls *)

Fixpoint runCalls (cs : list Call) (e : Engine.t) : Engine.t * list Event :=
  match cs with
  | [] => (e, [])
  | c :: rest =>
      let '(e, ev1) := run c e in
      let '(e, ev2) := runCalls rest e in
      (e, ev1 ++ ev2)
  end.

Definition Direction_eqb (a b : Direction) : bool :=
  match a, b with
  | LONG, LONG | SHORT, SHORT => true
  | _, _ => false
  end.

(** What goes to the executor, or is logged as a live close, for the track
    of direction [d]. *)
Definition isLiveEventOf (d : Direction) (ev : Event) : bool :=
  match ev with
  | SendLiveSignal _ _ _ d' | LogLiveClosed d' _ _ _ => Direction_eqb d d'
  | _ => false
  end.

(** The signal is processed and resolves to the track of direction [d]. *)
Definition signalFor (d : Direction) (signal : Signal.t) : bool :=
  match Signal.symbol signal with
  | Some symbol =>
      isBtc symbol
      && match d with
         | LONG => isBuy signal
         | SHORT => negb (isBuy signal) && isSell signal
         end
  | None => false
  end.

(** The test of [checkDailyReset]: the clock is in the reset window and the
    reset of that date has not been done. *)
Definition resetDue (tzOffset : Z) (now : N) (e : Engine.t) : bool :=
  inResetWindow tzOffset now
  && negb (sameDate (Engine.lastResetDate e) (istDateStr tzOffset now)).

(** [generateAutoSignals] has a price to generate its signals from. *)
Definition autoSignalsDue (e : Engine.t) : bool :=
  match Engine.ltpBySymbol e !! "BTCUSDT" with
  | Some ltp => truthyQ ltp
  | None => false
  end.

(** A call that a track blocked at [b] sits out: a tick that is not for a
    BTC symbol or whose minute is not later than that of [b], a signal that
    is not for the track, a reset check that does not reset, a run of
    [generateAutoSignals] that generates nothing. *)
Definition waitingCall (d : Direction) (b : N) (c : Call) (e : Engine.t)
    : Prop :=
  match c with
  | CallUpdateLtp symbol _ now =>
      isBtc symbol = false \/ (minuteOf now <= minuteOf b)%N
  | CallWebhookSignal signal _ => signalFor d signal = false
  | CallCheckDailyReset tzOffset now => resetDue tzOffset now e = false
  | CallGenerateAutoSignals _ => autoSignalsDue e = false
  end.

Fixpoint waiting (d : Direction) (b : N) (cs : list Call) (e : Engine.t)
    : Prop :=
  match cs with
  | [] => True
  | c :: rest => waitingCall d b c e /\ waiting d b rest (run c e).1
  end.



(** ** Concrete runs for the examples *)

(** Calls that the LONG track, blocked at 06:30:01 IST (3601000), sits
    out. *)
Definition sitOutCalls : list Call :=
  [CallUpdateLtp btc 101 3602000;
   CallWebhookSignal (Signal.mk (Some btc) None None (Some SELL)) 3603000;
   CallCheckDailyReset 0 3604000;
   CallUpdateLtp "ETHUSDT" 7 3670000].





(** ** Bounded rings *)

(** The signal ring and the live ledger of a track hold at most 50
    entries. *)
Definition ring_ok (s : Track.t) : Prop :=
  (length (Track.signals s) <= 50)%nat
  /\ (length (Live.trades (Track.liveState s)) <= 50)%nat.

(** An engine restarted from the state file that [saveState] writes for
    [e]. *)
Definition restarted (savedAt now : N) (e : Engine.t) : Engine.t :=
  newEngine (Some (saveState savedAt e)) now.

(** A live trade is open only while a paper trade is, and the pending
    reference is present exactly while a paper trade is open. *)
Definition live_within_paper (s : Track.t) : Prop :=
  (is_Some (Live.openTrade (Track.liveState s)) ->
   is_Some (Track.paperTrade s))
  /\ (is_Some (Live.pendingPaperTrade (Track.liveState s))
      <-> is_Some (Track.paperTrade s)).

(** No row of the paper history or of the live ledger was closed after
    [now]. *)
Definition closed_by (now : N) (s : Track.t) : Prop :=
  Forall (fun c => (ClosedPaperTrade.closedAt c <= now)%N) (Track.paperTrades s)
  /\ Forall (fun r => forall c, TradeRow.closedAt r = Some c -> (c <= now)%N)
       (Live.trades (Track.liveState s)).

Definition isSchedule (ev : Event) : bool :=
  match ev with ScheduleAutoSignals => true | _ => false end.

(** [paperTradeCount] of the snapshot ([getFullState]): the closed paper
    trades plus the open one. *)
Definition paperTradeCount (s : Track.t) : nat :=
  (length (Track.paperTrades s)
   + (if isSome (Track.paperTrade s) then 1 else 0))%nat.

(** Between [s] and [s'] both histories only received entries in front, at
    most one each, and the trade count of the snapshot did not go down. *)
Definition history_kept (s s' : Track.t) : Prop :=
  (exists pre,
      Track.paperTrades s' = pre ++ Track.paperTrades s
      /\ (length pre <= 1)%nat)
  /\ (exists pre,
        Track.peakPnlHistory s' = pre ++ Track.peakPnlHistory s
        /\ (length pre <= 1)%nat)
  /\ (paperTradeCount s <= paperTradeCount s' <= paperTradeCount s + 1)%nat.

(** ** Reconnection of the feed sockets (binance-ws.js, delta-ws.js)

    [startBinanceWs] and [startDeltaWs] keep two variables for
    reconnecting: [reconnectDelayMs] and [reconnectTimer]. The timer is
    modelled by the delay it was set with. *)
Module Reconnect.
Record t : Type := mk {
  reconnectDelayMs : N;
  reconnectTimer : option N
}.

Inductive Ev : Type :=
| SocketOpen
| SocketClose
| SocketError
| TimerFires.

(** [let reconnectTimer = null; let reconnectDelayMs = 1000;] *)
Definition initial : t := mk 1000 None.

(** [socket.on("open")]: [reconnectDelayMs = 1000]. *)
Definition onOpen (s : t) : t := mk 1000 (reconnectTimer s).

(** [scheduleReconnect()], called by [socket.on("close")]: nothing when a
    timer is pending, else a timer of [reconnectDelayMs]. The second
    component is the delay of the timer that is set. *)
Definition scheduleReconnect (s : t) : t * list N :=
  match reconnectTimer s with
  | Some _ => (s, [])
  | None =>
      (mk (reconnectDelayMs s) (Some (reconnectDelayMs s)),
       [reconnectDelayMs s])
  end.

(** The timer callback: [reconnectTimer = null;
    reconnectDelayMs = Math.min(reconnectDelayMs * 2, 30000); connect()]. *)
Definition onTimer (s : t) : t :=
  mk (N.min (reconnectDelayMs s * 2) 30000) None.

(** One event of the socket or the timer. [socket.on("error")] only closes
    the socket, whose close event follows; a timer fires only when one is
    pending. *)
Definition step (ev : Ev) (s : t) : t * list N :=
  match ev with
  | SocketOpen => (onOpen s, [])
  | SocketClose => scheduleReconnect s
  | SocketError => (s, [])
  | TimerFires =>
      match reconnectTimer s with
      | Some _ => (onTimer s, [])
      | None => (s, [])
      end
  end.

Fixpoint steps (evs : list Ev) (s : t) : t * list N :=
  match evs with
  | [] => (s, [])
  | ev :: rest =>
      let '(s, t1) := step ev s in
      let '(s, t2) := steps rest s in
      (s, t1 ++ t2)
  end.

(** [n] failed attempts in a row: the socket closes, the timer fires. *)
Fixpoint failures (n : nat) : list Ev :=
  match n with
  | O => []
  | S n' => SocketClose :: TimerFires :: failures n'
  end.

Definition in_range (d : N) : Prop := (1000 <= d <= 30000)%N.

Definition ok (s : t) : Prop :=
  in_range (reconnectDelayMs s)
  /\ match reconnectTimer s with
     | Some d => in_range d
     | None => True
     end.
End Reconnect.

(** ** Webhook payloads (index.js, [extractTradeSignal])

    A payload is an object whose fields are strings or booleans: the
    key=value fallback of [normalizeWebhookPayload] yields strings, JSON
    bodies may carry [true] / [false]. [Number] applied to a string is a
    parameter of the model: it gives the finite number the string denotes,
    or [None] (NaN and the infinities). *)
Inductive PVal : Type :=
| PStr (s : string)
| PBool (b : bool).

(** [!!v] for a field that may be absent. *)
Definition truthyP (v : option PVal) : bool :=
  match v with
  | Some (PStr s) => negb (String.eqb s "")
  | Some (PBool b) => b
  | None => false
  end.

(** [a || b] *)
Definition orP (a b : option PVal) : option PVal :=
  if truthyP a then a else b.

(** [String(v || "")] *)
Definition stringOr (v : option PVal) : string :=
  match v with
  | Some (PStr s) => s
  | Some (PBool true) => "true"
  | _ => ""
  end.

Definition isWhite (c : ascii) : bool :=
  let n := nat_of_ascii c in
  (n =? 32)%nat || ((9 <=? n)%nat && (n <=? 13)%nat).

Fixpoint trimStart (s : string) : string :=
  match s with
  | String c s' => if isWhite c then trimStart s' else s
  | EmptyString => EmptyString
  end.

Fixpoint trimEnd (s : string) : string :=
  match s with
  | String c s' =>
      match trimEnd s' with
      | EmptyString => if isWhite c then EmptyString else String c EmptyString
      | t => String c t
      end
  | EmptyString => EmptyString
  end.

(** [s.trim()] on ASCII white space. *)
Definition trim (s : string) : string := trimEnd (trimStart s).

Definition lowerAscii (c : ascii) : ascii :=
  let n := nat_of_ascii c in
  if (65 <=? n)%nat && (n <=? 90)%nat then ascii_of_nat (n + 32) else c.

Fixpoint toLowerCase (s : string) : string :=
  match s with
  | EmptyString => EmptyString
  | String c s' => String (lowerAscii c) (toLowerCase s')
  end.

(** [v === true] *)
Definition isTrue (v : option PVal) : bool :=
  match v with Some (PBool true) => true | _ => false end.

Module Extracted.
Record t : Type := mk {
  symbol : option PVal;
  stoppx : option Q;
  intent : option Action;
  side : option Side
}.
End Extracted.

(** [String(payload.action || payload.side || payload.signal ||
    payload.order_type || payload.type || "").trim().toUpperCase()] *)
Definition actionRaw (payload : gmap string PVal) : string :=
  toUpperCase
    (trim
       (stringOr
          (orP (payload !! "action")
             (orP (payload !! "side")
                (orP (payload !! "signal")
                   (orP (payload !! "order_type")
                      (orP (payload !! "type") None))))))).

(** The shared shape of [isEntry] and [isExit]. *)
Definition flagged (word : string) (k1 k2 : string)
    (payload : gmap string PVal) : bool :=
  includes word (actionRaw payload)
  || isTrue (payload !! k1)
  || isTrue (payload !! k2)
  || includes "true"
       (toLowerCase (stringOr (orP (payload !! k1) (orP (payload !! k2) None)))).

Definition isEntry (payload : gmap string PVal) : bool :=
  flagged "ENTRY" "entry" "isEntry" payload.

Definition isExit (payload : gmap string PVal) : bool :=
  flagged "EXIT" "exit" "isExit" payload.

Definition extractSide (payload : gmap string PVal) : option Side :=
  let side :=
    if includes "BUY" (actionRaw payload) || includes "LONG" (actionRaw payload)
    then Some BUY
    else if includes "SELL" (actionRaw payload)
            || includes "SHORT" (actionRaw payload)
         then Some SELL
         else None in
  match side with
  | Some s => Some s
  | None =>
      if isEntry payload then Some BUY
      else if isExit payload then Some SELL
      else None
  end.

Definition extractTradeSignal (Number_ : string -> option Q)
    (payload : gmap string PVal) : Extracted.t :=
  let symbol :=
    orP (payload !! "symbol")
      (orP (payload !! "ticker") (orP (payload !! "sym") None)) in
  let stopPxRaw :=
    orP (payload !! "stoppx")
      (orP (payload !! "stopPx")
         (orP (payload !! "stop_price") (orP (payload !! "stopPrice") None))) in
  let stoppx :=
    match stopPxRaw with
    | Some (PStr s) => Number_ s
    | Some (PBool true) => Some 1
    | Some (PBool false) => Some 0
    | None => None
    end in
  Extracted.mk symbol stoppx
    (if isEntry payload then Some ENTRY
     else if isExit payload then Some EXIT else None)
    (extractSide payload).

(** The signal as [processWebhookSignal] reads it, for a symbol that is a
    string or absent (on a boolean symbol [symbol.toUpperCase()] throws). *)
Definition engineSignal (x : Extracted.t) : option Signal.t :=
  match Extracted.symbol x with
  | Some (PStr s) =>
      Some (Signal.mk (Some s) (Extracted.intent x) (Extracted.stoppx x)
              (Extracted.side x))
  | None =>
      Some (Signal.mk None (Extracted.intent x) (Extracted.stoppx x)
              (Extracted.side x))
  | Some (PBool _) => None
  end.

(** A payload that closes a long position. *)
Definition exitLongPayload : gmap string PVal :=
  <["action" := PStr " exit long "]> (<["symbol" := PStr "BTCUSDT"]> ∅).

(** ** More concrete engines *)

(** The armed engine after the tick 100: the LONG track is blocked. *)
Definition blockedEngine : Engine.t :=
  (updateLtp btc 100 1000 armedEngine).1.

(** The promoted engine after the tick 100: the live trade is closed and
    the live sub-track is locked. *)
Definition protectedEngine : Engine.t :=
  (updateLtp btc 100 63000 promotedEngine).1.

(** The promoted engine after the tick 99: the paper trade is stopped. *)
Definition stoppedEngine : Engine.t :=
  (updateLtp btc 99 63000 promotedEngine).1.

(** The calls that lead to the promoted engine. *)
Definition promotedCalls : list Call :=
  [CallWebhookSignal (Signal.mk (Some btc) (Some ENTRY) (Some 100) (Some BUY))
     500;
   CallUpdateLtp btc 100 1000;
   CallUpdateLtp btc 101 61000;
   CallUpdateLtp btc 102 62000].

Fixpoint runAll (cs : list Call) (e : Engine.t) : Engine.t :=
  match cs with
  | [] => e
  | c :: cs' => runAll cs' (run c e).1
  end.

(** A track that waits for its first signal: no threshold, no paper trade,
    state [NOPOSITION]. *)
Definition idle (s : Track.t) : Prop :=
  Track.threshold s = JNull
  /\ Track.paperTrade s = None
  /\ Track.fsmState s = NOPOSITION.

(** * Proofs *)

(** ** Comparisons *)

Lemma Qltb_lt x y : Qltb x y = true <-> x < y.
Proof.
  unfold Qltb. rewrite negb_true_iff. split.
  - intros H. apply Qnot_le_lt. intros Hle.
    apply Qle_bool_iff in Hle. congruence.
  - intros H. destruct (Qle_bool y x) eqn:E; [|done].
    apply Qle_bool_iff in E. exfalso. exact (Qlt_not_le _ _ H E).
Qed.

Lemma Qltb_ge x y : Qltb x y = false <-> y <= x.
Proof. unfold Qltb. rewrite negb_false_iff. apply Qle_bool_iff. Qed.

Lemma truthyN_pos n : (0 < n)%N -> truthyN n = true.
Proof. unfold truthyN. intros H. destruct (N.eqb_spec n 0); [lia|done]. Qed.

Lemma isFirstSecondNextMinute_spec a t :
  isFirstSecondNextMinute a t = true <-> (minuteOf a < minuteOf t)%N.
Proof. unfold isFirstSecondNextMinute, minuteOf. apply N.ltb_lt. Qed.

Lemma lockExpired_le b t :
  (minuteOf t <= minuteOf b)%N -> lockExpired (Some b) t = false.
Proof.
  intros H. simpl. apply andb_false_iff. right.
  unfold isFirstSecondNextMinute, minuteOf in *. apply N.ltb_ge. exact H.
Qed.

Lemma lockExpired_gt b t :
  (0 < b)%N -> (minuteOf b < minuteOf t)%N -> lockExpired (Some b) t = true.
Proof.
  intros Hb H. simpl. rewrite truthyN_pos by done. simpl.
  by apply isFirstSecondNextMinute_spec.
Qed.

(** ** The two tick handlers as one *)

Lemma tickUpdate_long symbol ltp now state :
  longTickUpdate symbol ltp now state = tickUpdate LONG symbol ltp now state.
Proof. reflexivity. Qed.

Lemma tickUpdate_short symbol ltp now state :
  shortTickUpdate symbol ltp now state = tickUpdate SHORT symbol ltp now state.
Proof. reflexivity. Qed.

Lemma tickSwitch_long symbol ltp now state :
  longTickSwitch symbol ltp now state = tickSwitch LONG symbol ltp now state.
Proof. unfold longTickSwitch, tickSwitch. by destruct (Track.fsmState state). Qed.

Lemma tickSwitch_short symbol ltp now state :
  shortTickSwitch symbol ltp now state = tickSwitch SHORT symbol ltp now state.
Proof. unfold shortTickSwitch, tickSwitch. by destruct (Track.fsmState state). Qed.

Lemma trackTick_long symbol ltp now state :
  longTick symbol ltp now state = trackTick LONG symbol ltp now state.
Proof.
  unfold longTick, trackTick. rewrite tickUpdate_long.
  destruct (tickUpdate _ _ _ _ _) as [s ev]. by rewrite tickSwitch_long.
Qed.

Lemma trackTick_short symbol ltp now state :
  shortTick symbol ltp now state = trackTick SHORT symbol ltp now state.
Proof.
  unfold shortTick, trackTick. rewrite tickUpdate_short.
  destruct (tickUpdate _ _ _ _ _) as [s ev]. by rewrite tickSwitch_short.
Qed.

Lemma processTickTransition_track d symbol ltp now e :
  track d (processTickTransition d symbol ltp now e).1
  = (trackTick d symbol ltp now (track d e)).1
  /\ (processTickTransition d symbol ltp now e).2
     = (trackTick d symbol ltp now (track d e)).2.
Proof.
  destruct d; simpl.
  - unfold processLongTickTransition, trackTick.
    rewrite tickUpdate_long. destruct (tickUpdate _ _ _ _ _) as [s ev].
    destruct (isNull _); [done|]. rewrite tickSwitch_long.
    by destruct (tickSwitch _ _ _ _ _).
  - unfold processShortTickTransition, trackTick.
    rewrite tickUpdate_short. destruct (tickUpdate _ _ _ _ _) as [s ev].
    destruct (isNull _); [done|]. rewrite tickSwitch_short.
    by destruct (tickSwitch _ _ _ _ _).
Qed.

Lemma processTickTransition_other d symbol ltp now e :
  track (other d) (processTickTransition d symbol ltp now e).1
  = track (other d) e.
Proof.
  destruct d; simpl.
  - unfold processLongTickTransition.
    destruct (longTickUpdate _ _ _ _) as [s ev].
    destruct (isNull _); [done|]. by destruct (longTickSwitch _ _ _ _).
  - unfold processShortTickTransition.
    destruct (shortTickUpdate _ _ _ _) as [s ev].
    destruct (isNull _); [done|]. by destruct (shortTickSwitch _ _ _ _).
Qed.

Lemma updateLtp_track d symbol price now e :
  isBtc symbol = true ->
  track d (updateLtp symbol price now e).1
  = (trackTick d symbol price now (track d e)).1.
Proof.
  intros Hbtc. unfold updateLtp. rewrite Hbtc. simpl.
  set (e0 := Engine.set_ltpBySymbol _ e).
  assert (H0 : track d e0 = track d e) by (by destruct d).
  pose proof (processTickTransition_track LONG symbol price now e0) as [HL _].
  pose proof (processTickTransition_other LONG symbol price now e0) as HLo.
  simpl in HL, HLo.
  destruct (processLongTickTransition symbol price now e0) as [e1 ev1].
  pose proof (processTickTransition_track SHORT symbol price now e1) as [HS _].
  pose proof (processTickTransition_other SHORT symbol price now e1) as HSo.
  simpl in HS, HSo.
  destruct (processShortTickTransition symbol price now e1) as [e2 ev2].
  simpl in *. destruct d; simpl in *.
  - by rewrite HSo, HL.
  - by rewrite HS, HLo.
Qed.

Lemma updateLtp_not_btc d symbol price now e :
  isBtc symbol = false ->
  track d (updateLtp symbol price now e).1 = track d e
  /\ (updateLtp symbol price now e).2 = [].
Proof.
  intros Hbtc. unfold updateLtp. rewrite Hbtc. simpl. by destruct d.
Qed.

(** ** Shapes of the results *)

Ltac crunch :=
  repeat (simpl in *; try case_match; simplify_eq); simpl in *; try done.

Lemma openLiveTrade_shape d now s p sym :
  openLiveTrade d now s p sym
  = (Track.set_liveState (Track.liveState (openLiveTrade d now s p sym).1) s,
     (openLiveTrade d now s p sym).2).
Proof. unfold openLiveTrade. destruct s as [? ? ? ? ? ? []]. crunch. Qed.

Lemma closeLiveTrade_shape d now s p r :
  closeLiveTrade d now s p r
  = (Track.set_liveState (Track.liveState (closeLiveTrade d now s p r).1) s,
     (closeLiveTrade d now s p r).2).
Proof. unfold closeLiveTrade. destruct s as [? ? ? ? ? ? []]. crunch. Qed.

Lemma checkLiveTrade_shape d now s tot p sym :
  checkLiveTrade d now s tot p sym
  = (Track.set_liveState
       (Track.liveState (checkLiveTrade d now s tot p sym).1) s,
     (checkLiveTrade d now s tot p sym).2).
Proof.
  unfold checkLiveTrade, closeLiveTrade, openLiveTrade.
  destruct s as [? ? ? ? ? ? []]. crunch.
Qed.

Lemma closePaperTrade_none d now s x r :
  Track.paperTrade s = None -> closePaperTrade d now s x r = (s, []).
Proof. intros H. unfold closePaperTrade. by rewrite H. Qed.

Lemma closePaperTrade_shape d now s x r trade :
  Track.paperTrade s = Some trade ->
  closePaperTrade d now s x r
  = (Track.mk (Track.fsmState s) (Track.threshold s) None
       (closedRow d now x r trade :: Track.paperTrades s)
       (archivedPeaks now (Track.currentPeakPnl s) (Track.peakPnlHistory s))
       None (Track.liveState (closePaperTrade d now s x r).1)
       (Track.signals s) (Track.lastSignalAtMs s) (Track.lastBlockedAtMs s),
     (closePaperTrade d now s x r).2).
Proof.
  intros H. unfold closePaperTrade, closeLiveTrade, archivedPeaks, closedRow.
  rewrite H. destruct s as [? ? ? ? ? ? []]. crunch.
Qed.

(** ** The live cumulative PnL of the snapshot *)

Lemma getCumLivePnl_fold lrt rows a :
  fold_left
    (fun sum t =>
       if countsAsLivePnl lrt t
       then match TradeRow.realizedPnl t with
            | Some r => sum + r
            | None => sum
            end
       else sum) rows a
  == a + specCumLivePnl lrt rows.
Proof.
  revert a. induction rows as [|t rows IH]; intros a; simpl.
  - unfold specCumLivePnl. simpl. ring.
  - rewrite IH.
    unfold specCumLivePnl, countsAsLivePnl, isExitAfter, realizedOrZero,
      truthyStamp, truthyN.
    destruct t as [act sym ep xp q r cum cl]; simpl.
    destruct act, r, cl as [c|]; simpl; try ring.
    + destruct (N.eqb_spec c 0) as [->|_]; simpl.
      * destruct (N.ltb_spec lrt 0); [lia|ring].
      * destruct (lrt <? c)%N; simpl; ring.
    + destruct (N.eqb_spec c 0); simpl; destruct (lrt <? c)%N; simpl; ring.
Qed.

Lemma specCumLivePnl_app lrt pre post :
  specCumLivePnl lrt (pre ++ post)
  == specCumLivePnl lrt pre + specCumLivePnl lrt post.
Proof.
  unfold specCumLivePnl. induction pre as [|t pre IH]; simpl.
  - ring.
  - destruct (isExitAfter lrt t); simpl; rewrite IH; ring.
Qed.

(** C9. The live cumulative PnL of the snapshot, [getCumLivePnl], is the sum
    of [realizedPnl] over the rows of the ledger that are EXIT rows with
    [closedAt] strictly greater than [lastResetTimestamp]; a row that is an
    ENTRY row, or an EXIT row closed at or before the last reset, can be
    removed from the ledger without changing the figure. *)
Theorem getCumLivePnl_counts_exits_after_reset :
  forall (lastResetTimestamp : N) (liveState : Live.t),
    getCumLivePnl lastResetTimestamp liveState
    == specCumLivePnl lastResetTimestamp (Live.trades liveState)
    /\ forall pre row post,
         Live.trades liveState = pre ++ row :: post ->
         (TradeRow.action row = ENTRY
          \/ exists c, TradeRow.closedAt row = Some c
                       /\ (c <= lastResetTimestamp)%N) ->
         getCumLivePnl lastResetTimestamp liveState
         == getCumLivePnl lastResetTimestamp
              (Live.set_trades (pre ++ post) liveState).
Proof.
  intros lrt l. unfold getCumLivePnl. split.
  - rewrite getCumLivePnl_fold. ring.
  - intros pre row post Hrows Hrow. simpl. rewrite Hrows.
    rewrite !getCumLivePnl_fold, !specCumLivePnl_app.
    assert (Hz : specCumLivePnl lrt (row :: post) == specCumLivePnl lrt post).
    { unfold specCumLivePnl. simpl.
      replace (isExitAfter lrt row) with false; [reflexivity|].
      unfold isExitAfter. destruct Hrow as [->|(c & -> & Hc)].
      - reflexivity.
      - destruct (TradeRow.action row); [done|].
        symmetry. apply N.ltb_ge. exact Hc. }
    rewrite Hz. reflexivity.
Qed.

(** ** Signals *)

Lemma isSell_not_isBuy signal : isSell signal = true -> isBuy signal = false.
Proof.
  unfold isSell, isBuy.
  destruct (Signal.side signal) as [[]|], (Signal.intent signal) as [[]|];
    simpl; congruence.
Qed.

(** C2 (amended). For a signal on the tracked instrument: when it resolves
    to LONG, the LONG threshold becomes the signal's [stoppx] if that is
    given and not zero, and the current LTP if [stoppx] is absent or zero;
    when it resolves to SHORT, the SHORT threshold becomes the current LTP
    whatever [stoppx] is. In particular a SHORT signal with [stoppx] 50
    while the LTP is 60 sets the threshold to 60. *)
Theorem processWebhookSignal_threshold :
  forall (signal : Signal.t) (symbol : string) (now : N) (e : Engine.t),
    Signal.symbol signal = Some symbol ->
    isBtc symbol = true ->
    let ltp := Engine.ltpBySymbol e !! toUpperCase symbol in
    let e' := (processWebhookSignal signal now e).1 in
    (isBuy signal = true ->
     Track.threshold (Engine.longState e')
     = match Signal.stoppx signal with
       | Some s => if Qeq_bool s 0 then ofLookup ltp else JNum s
       | None => ofLookup ltp
       end)
    /\ (isSell signal = true ->
        Track.threshold (Engine.shortState e') = ofLookup ltp)
    /\ (isSell signal = true ->
        Signal.stoppx signal = Some 50 -> ltp = Some 60 ->
        Track.threshold (Engine.shortState e') = JNum 60).
Proof.
  intros signal symbol now e Hsym Hbtc ltp e'.
  assert (Hne : symbol <> EmptyString).
  { intros ->. discriminate Hbtc. }
  assert (Hlong : isBuy signal = true ->
    Track.threshold (Engine.longState e') = orLtp (Signal.stoppx signal) ltp).
  { intros Hbuy. subst e'. unfold processWebhookSignal. rewrite Hsym.
    destruct symbol as [|c symbol]; [done|].
    unfold isBtc in Hbtc. rewrite Hbtc, Hbuy. simpl.
    unfold armTrack. by destruct (Track.fsmState _). }
  assert (Hshort : isSell signal = true ->
    Track.threshold (Engine.shortState e') = ofLookup ltp).
  { intros Hsell. subst e'. unfold processWebhookSignal. rewrite Hsym.
    destruct symbol as [|c symbol]; [done|].
    unfold isBtc in Hbtc. rewrite Hbtc, Hsell, (isSell_not_isBuy _ Hsell).
    simpl. unfold armTrack. by destruct (Track.fsmState _). }
  split; [|split].
  - intros Hbuy. rewrite (Hlong Hbuy). unfold orLtp, truthyQ.
    destruct (Signal.stoppx signal) as [s|]; [|done].
    by destruct (Qeq_bool s 0).
  - exact Hshort.
  - intros Hsell _ Hltp. rewrite (Hshort Hsell), Hltp. done.
Qed.

(** ** Daily reset *)

(** C7. Two reset checks in the 05:30 window of one calendar day leave the
    engine as one check does: the second one changes nothing and emits
    nothing (no trade is closed again, [lastResetTimestamp] and the
    cumulative PnL stay as the first check left them). *)
Theorem checkDailyReset_idempotent :
  forall (tzOffset : Z) (t1 t2 : N) (e : Engine.t),
    inResetWindow tzOffset t1 = true ->
    inResetWindow tzOffset t2 = true ->
    istDateStr tzOffset t1 = istDateStr tzOffset t2 ->
    checkDailyReset tzOffset t2 (checkDailyReset tzOffset t1 e).1
    = ((checkDailyReset tzOffset t1 e).1, []).
Proof.
  intros tz t1 t2 e H1 H2 Hd.
  assert (Hlast : sameDate
            (Engine.lastResetDate (checkDailyReset tz t1 e).1)
            (istDateStr tz t2) = true).
  { unfold checkDailyReset. rewrite H1. simpl.
    destruct (sameDate (Engine.lastResetDate e) (istDateStr tz t1)) eqn:E;
      simpl.
    - by rewrite <- Hd.
    - destruct (performDailyReset t1 e) as [e1 ev]. simpl.
      apply Z.eqb_eq. exact Hd. }
  unfold checkDailyReset at 1. rewrite H2, Hlast. reflexivity.
Qed.

(** ** The invariant of the live sub-track *)

Lemma live_inv_bool l :
  live_inv l
  <-> isSome (Live.openTrade l) = LivePos_eqb (Live.state l) POSITION.
Proof.
  unfold live_inv.
  destruct (Live.openTrade l), (Live.state l); simpl; split; try done.
  all: try (intros [H _]; by specialize (H (mk_is_Some _ _ eq_refl))).
  all: try (intros [_ H]; by destruct (H eq_refl)).
  all: intros _; split; [by intros []|done].
Qed.

Lemma createLiveState_live_inv : live_inv createLiveState.
Proof. by apply live_inv_bool. Qed.

Lemma openLiveTrade_live_inv d now s p sym :
  live_inv (Track.liveState s) ->
  live_inv (Track.liveState (openLiveTrade d now s p sym).1).
Proof.
  rewrite !live_inv_bool. unfold openLiveTrade.
  destruct s as [? ? ? ? ? ? []]. crunch.
Qed.

Lemma closeLiveTrade_live_inv d now s p r :
  live_inv (Track.liveState s) ->
  live_inv (Track.liveState (closeLiveTrade d now s p r).1).
Proof.
  rewrite !live_inv_bool. unfold closeLiveTrade.
  destruct s as [? ? ? ? ? ? []]. crunch.
Qed.

Lemma checkLiveTrade_live_inv d now s tot p sym :
  live_inv (Track.liveState s) ->
  live_inv (Track.liveState (checkLiveTrade d now s tot p sym).1).
Proof.
  rewrite !live_inv_bool. unfold checkLiveTrade, closeLiveTrade, openLiveTrade.
  destruct s as [? ? ? ? ? ? []]. crunch.
Qed.

Lemma openPaperTrade_live_inv d now s sym p :
  live_inv (Track.liveState s) ->
  live_inv (Track.liveState (openPaperTrade d now s sym p)).
Proof.
  rewrite !live_inv_bool. unfold openPaperTrade.
  destruct s as [? ? ? ? ? ? []]. crunch.
Qed.

Lemma closePaperTrade_live_inv d now s x r :
  live_inv (Track.liveState s) ->
  live_inv (Track.liveState (closePaperTrade d now s x r).1).
Proof.
  rewrite !live_inv_bool. unfold closePaperTrade, closeLiveTrade.
  destruct s as [? ? ? ? ? ? []]. crunch.
Qed.

Lemma tickUpdate_live_inv d sym ltp now s :
  live_inv (Track.liveState s) ->
  live_inv (Track.liveState (tickUpdate d sym ltp now s).1).
Proof.
  intros H. unfold tickUpdate.
  set (s0 := if _ && _ then _ else s).
  assert (H0 : live_inv (Track.liveState s0)).
  { subst s0. by destruct (_ && _). }
  clearbody s0. destruct (Track.paperTrade s0) as [trade|]; [|done].
  destruct (String.eqb _ _); [|done].
  by apply checkLiveTrade_live_inv.
Qed.

Lemma tickSwitch_live_inv d sym ltp now s :
  live_inv (Track.liveState s) ->
  live_inv (Track.liveState (tickSwitch d sym ltp now s).1).
Proof.
  intros H. unfold tickSwitch.
  pose proof (closePaperTrade_live_inv d now s ltp "Stop Loss" H) as Hc.
  destruct (closePaperTrade d now s ltp "Stop Loss") as [sc evc].
  pose proof (openPaperTrade_live_inv d now
                (Track.set_fsmState (positionState d) s) sym ltp H) as Ho.
  repeat case_match; simpl in *; done.
Qed.

Lemma trackTick_live_inv d sym ltp now s :
  live_inv (Track.liveState s) ->
  live_inv (Track.liveState (trackTick d sym ltp now s).1).
Proof.
  intros H. unfold trackTick.
  pose proof (tickUpdate_live_inv d sym ltp now s H) as Hu.
  destruct (tickUpdate d sym ltp now s) as [su evu]. simpl in Hu.
  destruct (isNull _); [done|].
  pose proof (tickSwitch_live_inv d sym ltp now su Hu) as Hs.
  by destruct (tickSwitch d sym ltp now su).
Qed.

Lemma resetTrack_live_inv s : live_inv (Track.liveState (resetTrack s)).
Proof. by apply live_inv_bool. Qed.

Lemma restoreTrack_live_inv saved s :
  live_inv (Track.liveState s) ->
  live_inv (Track.liveState (restoreTrack saved s)).
Proof. rewrite !live_inv_bool. by destruct s as [? ? ? ? ? ? []]. Qed.

Lemma updateLtp_live_inv symbol price now e :
  engine_live_inv e -> engine_live_inv (updateLtp symbol price now e).1.
Proof.
  intros [HL HS]. unfold engine_live_inv.
  destruct (isBtc symbol) eqn:Hbtc.
  - pose proof (updateLtp_track LONG symbol price now e Hbtc) as EL.
    pose proof (updateLtp_track SHORT symbol price now e Hbtc) as ES.
    simpl in EL, ES. rewrite EL, ES.
    split; by apply trackTick_live_inv.
  - destruct (updateLtp_not_btc LONG symbol price now e Hbtc) as [EL _].
    destruct (updateLtp_not_btc SHORT symbol price now e Hbtc) as [ES _].
    simpl in EL, ES. by rewrite EL, ES.
Qed.

Lemma armTrack_liveState s : Track.liveState (armTrack s) = Track.liveState s.
Proof. unfold armTrack. by destruct (Track.fsmState s). Qed.

Lemma processWebhookSignal_liveState d signal now e :
  Track.liveState (track d (processWebhookSignal signal now e).1)
  = Track.liveState (track d e).
Proof.
  unfold processWebhookSignal.
  destruct (Signal.symbol signal) as [[|c sym]|]; [done| |done].
  destruct (negb _); [done|].
  destruct (isBuy signal); [|destruct (isSell signal)];
    destruct d; simpl; by rewrite ?armTrack_liveState.
Qed.

Lemma processWebhookSignal_live_inv signal now e :
  engine_live_inv e -> engine_live_inv (processWebhookSignal signal now e).1.
Proof.
  intros [HL HS]. unfold engine_live_inv.
  pose proof (processWebhookSignal_liveState LONG signal now e) as EL.
  pose proof (processWebhookSignal_liveState SHORT signal now e) as ES.
  simpl in EL, ES. by rewrite EL, ES.
Qed.

Lemma performDailyReset_live_inv now e :
  engine_live_inv (performDailyReset now e).1.
Proof.
  unfold performDailyReset.
  destruct (Track.paperTrade (Engine.longState e));
    [destruct (closePaperTrade LONG _ _ _ _)|];
    (destruct (Track.paperTrade (Engine.shortState e));
     [destruct (closePaperTrade SHORT _ _ _ _)|]);
    split; apply resetTrack_live_inv.
Qed.

Lemma checkDailyReset_live_inv tz now e :
  engine_live_inv e -> engine_live_inv (checkDailyReset tz now e).1.
Proof.
  intros H. unfold checkDailyReset. destruct (_ && _); [|done].
  pose proof (performDailyReset_live_inv now e) as Hp.
  by destruct (performDailyReset now e).
Qed.

Lemma generateAutoSignals_live_inv now e :
  engine_live_inv e -> engine_live_inv (generateAutoSignals now e).1.
Proof.
  intros H. unfold generateAutoSignals.
  destruct (Engine.ltpBySymbol e !! _) as [ltp|]; [|done].
  destruct (negb _); [done|].
  match goal with
  | |- context [processWebhookSignal ?sg now e] =>
      pose proof (processWebhookSignal_live_inv sg now e H) as H1;
      destruct (processWebhookSignal sg now e) as [e1 ev1]
  end.
  match goal with
  | |- context [processWebhookSignal ?sg now e1] =>
      pose proof (processWebhookSignal_live_inv sg now e1 H1) as H2;
      destruct (processWebhookSignal sg now e1) as [e2 ev2]
  end.
  done.
Qed.

Lemma loadState_live_inv file now e :
  engine_live_inv e -> engine_live_inv (loadState file now e).
Proof.
  intros [HL HS]. unfold loadState. destruct file as [saved|]; [|done].
  destruct (Persisted.long saved), (Persisted.short saved);
    split; simpl; try done; by apply restoreTrack_live_inv.
Qed.

Lemma newEngine_live_inv file now : engine_live_inv (newEngine file now).
Proof.
  apply loadState_live_inv. split; apply createLiveState_live_inv.
Qed.

Lemma run_live_inv c e : engine_live_inv e -> engine_live_inv (run c e).1.
Proof.
  destruct c; simpl.
  - apply updateLtp_live_inv.
  - apply processWebhookSignal_live_inv.
  - apply checkDailyReset_live_inv.
  - apply generateAutoSignals_live_inv.
Qed.

Lemma reachable_live_inv e : reachable e -> engine_live_inv e.
Proof.
  induction 1 as [file now|c e _ IH].
  - apply newEngine_live_inv.
  - by apply run_live_inv.
Qed.

(** C8. For the live sub-track of each track, [openTrade] is present iff
    [state] is [POSITION]: this holds for a fresh live state and for the
    engine the constructor returns (whatever state file it restores), and
    it is preserved by restoring a state file, by every call of the running
    engine (tick processing, signals, the daily reset check and the signals
    it schedules), by the daily reset itself, and by opening and closing a
    live trade. *)
Theorem live_openTrade_iff_position :
  live_inv createLiveState
  /\ (forall file now, engine_live_inv (newEngine file now))
  /\ (forall file now e,
        engine_live_inv e -> engine_live_inv (loadState file now e))
  /\ (forall c e, engine_live_inv e -> engine_live_inv (run c e).1)
  /\ (forall d symbol ltp now e,
        engine_live_inv e ->
        engine_live_inv (processTickTransition d symbol ltp now e).1)
  /\ (forall now e,
        engine_live_inv e -> engine_live_inv (performDailyReset now e).1)
  /\ (forall d now s p symbol,
        live_inv (Track.liveState s) ->
        live_inv (Track.liveState (openLiveTrade d now s p symbol).1))
  /\ (forall d now s p reason,
        live_inv (Track.liveState s) ->
        live_inv (Track.liveState (closeLiveTrade d now s p reason).1)).
Proof.
  split; [apply createLiveState_live_inv|].
  split; [apply newEngine_live_inv|].
  split; [apply loadState_live_inv|].
  split; [apply run_live_inv|].
  split.
  { intros d symbol ltp now e [HL HS].
    pose proof (processTickTransition_track d symbol ltp now e) as [Ht _].
    pose proof (processTickTransition_other d symbol ltp now e) as Ho.
    unfold engine_live_inv.
    destruct d; simpl in *; rewrite Ht, Ho;
      split; try done; by apply trackTick_live_inv. }
  split; [intros now e _; apply performDailyReset_live_inv|].
  split; [apply openLiveTrade_live_inv|apply closeLiveTrade_live_inv].
Qed.

(** ** Closing a paper trade *)

Lemma closePaperTrade_live d now s x r trade :
  Track.paperTrade s = Some trade ->
  let l := Track.liveState s in
  let res := closePaperTrade d now s x r in
  let l' := Track.liveState res.1 in
  Live.openTrade l' = None
  /\ Live.pendingPaperTrade l' = None
  /\ Live.blockedAtMs l' = Live.blockedAtMs l
  /\ Live.cumulativePnl l'
     = match Live.openTrade l with
       | Some ot =>
           Live.cumulativePnl l + paperRealized d x trade
           + liveUnrealized d x ot
       | None => Live.cumulativePnl l + paperRealized d x trade
       end
  /\ res.2
     = match Live.openTrade l with
       | Some ot =>
           [LogLiveClosed d r (OpenTrade.symbol ot) x;
            SendLiveSignal EXIT (OpenTrade.symbol ot) x d; SaveState]
       | None => [SaveState]
       end.
Proof.
  intros H. unfold closePaperTrade, closeLiveTrade. rewrite H.
  destruct s as [? ? ? ? ? ? [? ? ? ? [ot|] ? ?]]; simpl in *.
  - destruct d; crunch.
  - crunch.
Qed.

(** ** Ticks while a paper trade is open *)

Lemma openPaperTrade_open d now s sym p trade :
  Track.paperTrade s = Some trade -> openPaperTrade d now s sym p = s.
Proof. intros H. unfold openPaperTrade. by rewrite H. Qed.

Lemma openPaperTrade_flat d now s sym p :
  Track.paperTrade s = None ->
  openPaperTrade d now s sym p
  = Track.set_liveState
      (Live.set_pendingPaperTrade
         (Some (Pending.mk p (POSITION_SIZE / p) 1 now)) (Track.liveState s))
      (Track.set_paperTrade
         (Some (PaperTrade.mk sym d p p (POSITION_SIZE / p) 0 now)) s).
Proof. intros H. unfold openPaperTrade. by rewrite H. Qed.

Lemma tickUpdate_open d sym ltp now s trade :
  Track.paperTrade s = Some trade ->
  tickUpdate d sym ltp now s
  = if String.eqb (PaperTrade.symbol trade) sym
    then checkLiveTrade d now
           (Track.set_currentPeakPnl
              (updatePeak (paperUnrealized d ltp trade)
                 (Track.currentPeakPnl s))
              (Track.set_paperTrade (Some (repriced d ltp trade)) s))
           (Live.cumulativePnl (Track.liveState s)
            + paperUnrealized d ltp trade) ltp sym
    else (s, []).
Proof.
  intros H. unfold tickUpdate. rewrite H. simpl.
  rewrite andb_false_r. by rewrite H.
Qed.

Lemma tickUpdate_flat d sym ltp now s :
  Track.paperTrade s = None ->
  tickUpdate d sym ltp now s
  = (if FsmState_eqb (Track.fsmState s) (positionState d)
     then Track.set_currentPeakPnl None
            (Track.set_threshold JNull (Track.set_fsmState NOPOSITION s))
     else s, []).
Proof.
  intros H. unfold tickUpdate. rewrite H. simpl. rewrite andb_true_r.
  destruct (FsmState_eqb _ _); simpl; by rewrite H.
Qed.

(** A switch that leaves a paper trade open has not touched it, nor the
    peak. *)
Lemma tickSwitch_keeps_open d sym ltp now s trade :
  Track.paperTrade s = Some trade ->
  is_Some (Track.paperTrade (tickSwitch d sym ltp now s).1) ->
  Track.paperTrade (tickSwitch d sym ltp now s).1 = Some trade
  /\ Track.currentPeakPnl (tickSwitch d sym ltp now s).1
     = Track.currentPeakPnl s
  /\ Track.liveState (tickSwitch d sym ltp now s).1 = Track.liveState s
  /\ Track.threshold (tickSwitch d sym ltp now s).1 = Track.threshold s
  /\ (tickSwitch d sym ltp now s).2 = [].
Proof.
  intros H. unfold tickSwitch.
  rewrite (openPaperTrade_open d now (Track.set_fsmState (positionState d) s)
             sym ltp trade H).
  rewrite (closePaperTrade_shape d now s ltp "Stop Loss" trade H).
  repeat case_match; simpl; try done.
  all: by intros [? ?].
Qed.

Lemma trackTick_keeps_open d sym ltp now s trade :
  Track.paperTrade s = Some trade ->
  is_Some (Track.paperTrade (trackTick d sym ltp now s).1) ->
  if String.eqb (PaperTrade.symbol trade) sym
  then Track.paperTrade (trackTick d sym ltp now s).1
       = Some (repriced d ltp trade)
       /\ Track.currentPeakPnl (trackTick d sym ltp now s).1
          = updatePeak (paperUnrealized d ltp trade) (Track.currentPeakPnl s)
  else Track.paperTrade (trackTick d sym ltp now s).1 = Some trade
       /\ Track.currentPeakPnl (trackTick d sym ltp now s).1
          = Track.currentPeakPnl s.
Proof.
  intros H. unfold trackTick. rewrite (tickUpdate_open _ _ _ _ _ _ H).
  destruct (String.eqb _ _).
  - rewrite checkLiveTrade_shape.
    set (l' := Track.liveState _). set (ev := (checkLiveTrade _ _ _ _ _ _).2).
    clearbody l' ev. cbv zeta. simpl Track.threshold.
    destruct (isNull _); [done|].
    set (s1 := Track.set_liveState _ _).
    assert (H1 : Track.paperTrade s1 = Some (repriced d ltp trade)) by done.
    intros Hopen.
    pose proof (tickSwitch_keeps_open d sym ltp now s1 _ H1) as K.
    destruct (tickSwitch d sym ltp now s1) as [s2 ev2]. simpl in *.
    destruct (K Hopen) as (K1 & K2 & _). by rewrite K1, K2.
  - destruct (isNull _); [simpl; intros _; done|].
    intros Hopen.
    pose proof (tickSwitch_keeps_open d sym ltp now s _ H) as K.
    destruct (tickSwitch d sym ltp now s) as [s2 ev2]. simpl in *.
    destruct (K Hopen) as (K1 & K2 & _). by rewrite K1, K2.
Qed.

Lemma peak_le_refl p : peak_le p p.
Proof. destruct p; simpl; [apply Qle_refl|done]. Qed.

Lemma peak_le_trans a b c : peak_le a b -> peak_le b c -> peak_le a c.
Proof.
  destruct a, b, c; simpl; try done. apply Qle_trans.
Qed.

Lemma updatePeak_spec u p :
  peak_le p (updatePeak u p)
  /\ (updatePeak u p = p \/ (updatePeak u p = Some u /\ 0 < u)).
Proof.
  unfold updatePeak. destruct (Qgtb u 0) eqn:Hu; simpl.
  - apply Qltb_lt in Hu. destruct p as [p|]; simpl.
    + destruct (Qgtb u p) eqn:Hp; simpl.
      * apply Qltb_lt in Hp. split; [by apply Qlt_le_weak|by right].
      * split; [apply Qle_refl|by left].
    + split; [done|by right].
  - split; [apply peak_le_refl|by left].
Qed.

Lemma processTickTransition_peak d symbol ltp now e trade :
  Track.paperTrade (track d e) = Some trade ->
  let s' := track d (processTickTransition d symbol ltp now e).1 in
  is_Some (Track.paperTrade s') ->
  peak_le (Track.currentPeakPnl (track d e)) (Track.currentPeakPnl s')
  /\ (Track.currentPeakPnl s' = Track.currentPeakPnl (track d e)
      \/ exists trade',
           Track.paperTrade s' = Some trade'
           /\ Track.currentPeakPnl s' = Some (PaperTrade.unrealizedPnl trade')
           /\ 0 < PaperTrade.unrealizedPnl trade').
Proof.
  intros H s'. subst s'.
  destruct (processTickTransition_track d symbol ltp now e) as [-> _].
  intros Hopen.
  pose proof (trackTick_keeps_open d symbol ltp now _ _ H Hopen) as K.
  destruct (String.eqb _ _); destruct K as [K1 K2]; rewrite K1, K2.
  - destruct (updatePeak_spec (paperUnrealized d ltp trade)
                (Track.currentPeakPnl (track d e))) as [Hle [Heq|[Heq Hpos]]].
    + split; [done|by left].
    + split; [done|]. right. exists (repriced d ltp trade). by rewrite Heq.
  - split; [apply peak_le_refl|by left].
Qed.

(** C6. While a paper trade stays open, a tick never lowers
    [currentPeakPnl], and when it changes it, the new value is the
    unrealized PnL of the trade at that tick and is strictly positive; over
    any sequence of ticks through which the trade stays open the peak at
    the end is at least the peak at the start. When the trade is closed,
    [currentPeakPnl] is cleared, and [peakPnlHistory] receives the peak
    (as its newest, first entry) exactly when the peak is a positive
    number; otherwise the history is unchanged. *)
Theorem currentPeakPnl_monotone_and_archived :
  (forall d symbol ltp now e trade,
     Track.paperTrade (track d e) = Some trade ->
     let s' := track d (processTickTransition d symbol ltp now e).1 in
     is_Some (Track.paperTrade s') ->
     peak_le (Track.currentPeakPnl (track d e)) (Track.currentPeakPnl s')
     /\ (Track.currentPeakPnl s' = Track.currentPeakPnl (track d e)
         \/ exists trade',
              Track.paperTrade s' = Some trade'
              /\ Track.currentPeakPnl s'
                 = Some (PaperTrade.unrealizedPnl trade')
              /\ 0 < PaperTrade.unrealizedPnl trade'))
  /\ (forall d ticks e,
        is_Some (Track.paperTrade (track d e)) ->
        heldThroughout d ticks e ->
        peak_le (Track.currentPeakPnl (track d e))
          (Track.currentPeakPnl (track d (processTicks d ticks e).1)))
  /\ (forall d now s exitPrice reason trade,
        Track.paperTrade s = Some trade ->
        let s' := (closePaperTrade d now s exitPrice reason).1 in
        Track.currentPeakPnl s' = None
        /\ (forall p,
              Track.currentPeakPnl s = Some p -> 0 < p ->
              Track.peakPnlHistory s'
              = PeakRecord.mk p now :: Track.peakPnlHistory s)
        /\ (Track.currentPeakPnl s = None
            \/ (exists p, Track.currentPeakPnl s = Some p /\ p <= 0) ->
            Track.peakPnlHistory s' = Track.peakPnlHistory s)).
Proof.
  split; [exact processTickTransition_peak|]. split.
  - intros d ticks. induction ticks as [|t rest IH]; intros e Hopen Hheld.
    + apply peak_le_refl.
    + simpl in Hheld. destruct Hheld as [Hnext Hrest].
      destruct Hopen as [trade Htrade].
      pose proof (processTickTransition_peak d (Tick.symbol t) (Tick.price t)
                    (Tick.at_ms t) e trade Htrade Hnext) as [Hle _].
      specialize (IH _ Hnext Hrest). simpl.
      destruct (processTickTransition d _ _ _ e) as [e1 ev1]. simpl in *.
      destruct (processTicks d rest e1) as [e2 ev2].
      exact (peak_le_trans _ _ _ Hle IH).
  - intros d now s x r trade H s'. subst s'.
    rewrite (closePaperTrade_shape d now s x r trade H). simpl.
    split; [done|]. unfold archivedPeaks. split.
    + intros p -> Hp. apply Qltb_lt in Hp. unfold Qgtb. by rewrite Hp.
    + intros [->|(p & -> & Hp)]; [done|].
      apply Qltb_ge in Hp. unfold Qgtb. by rewrite Hp.
Qed.

(** ** The three outcomes of [checkLiveTrade] *)

Lemma checkLiveTrade_promote d now s tot p sym pd :
  Live.state (Track.liveState s) = NO_POSITION ->
  Live.pendingPaperTrade (Track.liveState s) = Some pd ->
  truthyStamp (Live.blockedAtMs (Track.liveState s)) = false
  \/ lockExpired (Live.blockedAtMs (Track.liveState s)) now = true ->
  0 < tot ->
  let r := checkLiveTrade d now s tot p sym in
  r.2 = [SendLiveSignal ENTRY sym p d]
  /\ Live.openTrade (Track.liveState r.1)
     = Some (OpenTrade.mk now sym p (Pending.quantity pd) (Pending.lot pd))
  /\ Live.state (Track.liveState r.1) = POSITION
  /\ Live.cumulativePnl (Track.liveState r.1)
     = Live.cumulativePnl (Track.liveState s)
  /\ Live.pendingPaperTrade (Track.liveState r.1) = Some pd
  /\ Live.trades (Track.liveState r.1)
     = take 50 (entryRow sym p pd (Live.cumulativePnl (Track.liveState s))
                :: Live.trades (Track.liveState s)).
Proof.
  intros Hst Hpd Hblk Htot. apply Qltb_lt in Htot.
  destruct s as [? ? ? ? ? ? [st cum unr blk ot0 pd0 rows]].
  simpl in *. subst.
  unfold checkLiveTrade, openLiveTrade, entryRow. simpl.
  destruct (lockExpired blk now) eqn:E; simpl.
  - unfold Qgtb, OPEN_THRESHOLD. rewrite Htot. by simpl.
  - destruct Hblk as [Hb|?]; [|done]. rewrite Hb. simpl.
    unfold Qgtb, OPEN_THRESHOLD. rewrite Htot. by simpl.
Qed.

Lemma checkLiveTrade_protective d now s tot p sym ot :
  Live.state (Track.liveState s) = POSITION ->
  Live.openTrade (Track.liveState s) = Some ot ->
  tot <= 0 ->
  let r := checkLiveTrade d now s tot p sym in
  r.2 = [LogLiveClosed d "Protective" (OpenTrade.symbol ot) p;
         SendLiveSignal EXIT (OpenTrade.symbol ot) p d]
  /\ Live.openTrade (Track.liveState r.1) = None
  /\ Live.state (Track.liveState r.1) = NO_POSITION
  /\ Live.blockedAtMs (Track.liveState r.1) = Some now
  /\ Live.unrealizedPnl (Track.liveState r.1) = 0
  /\ Live.cumulativePnl (Track.liveState r.1)
     = Live.cumulativePnl (Track.liveState s) + liveUnrealized d p ot
  /\ Live.trades (Track.liveState r.1)
     = take 50 (exitRow d now p ot (Live.cumulativePnl (Track.liveState s))
                :: Live.trades (Track.liveState s)).
Proof.
  intros Hst Hot Htot.
  assert (Hle : Qle_bool tot CLOSE_THRESHOLD = true) by by apply Qle_bool_iff.
  assert (Hgt : Qgtb tot OPEN_THRESHOLD = false) by by apply Qltb_ge.
  destruct s as [? ? ? ? ? ? [st cum unr blk ot0 pd0 rows]].
  simpl in *. subst.
  unfold checkLiveTrade, closeLiveTrade, exitRow, liveUnrealized. simpl.
  destruct (lockExpired blk now); simpl; rewrite Hle, Hgt; simpl;
    rewrite andb_false_r; simpl; by destruct d.
Qed.

Lemma checkLiveTrade_hold d now s tot p sym ot :
  Live.state (Track.liveState s) = POSITION ->
  Live.openTrade (Track.liveState s) = Some ot ->
  0 < tot ->
  let r := checkLiveTrade d now s tot p sym in
  r.2 = []
  /\ Live.openTrade (Track.liveState r.1) = Some ot
  /\ Live.state (Track.liveState r.1) = POSITION
  /\ Live.cumulativePnl (Track.liveState r.1)
     = Live.cumulativePnl (Track.liveState s)
  /\ Live.pendingPaperTrade (Track.liveState r.1)
     = Live.pendingPaperTrade (Track.liveState s)
  /\ Live.trades (Track.liveState r.1) = Live.trades (Track.liveState s).
Proof.
  intros Hst Hot Htot.
  assert (Hle : Qle_bool tot CLOSE_THRESHOLD = false).
  { apply Qltb_lt in Htot. unfold Qltb in Htot.
    by apply negb_true_iff in Htot. }
  destruct s as [? ? ? ? ? ? [st cum unr blk ot0 pd0 rows]].
  simpl in *. subst.
  unfold checkLiveTrade. simpl.
  destruct (lockExpired blk now); simpl; rewrite Hle; by simpl.
Qed.

Lemma closePaperTrade_no_live d now s x r trade :
  Track.paperTrade s = Some trade ->
  Live.openTrade (Track.liveState s) = None ->
  Track.liveState (closePaperTrade d now s x r).1
  = Live.set_pendingPaperTrade None
      (Live.set_cumulativePnl
         (Live.cumulativePnl (Track.liveState s) + paperRealized d x trade)
         (Track.liveState s))
  /\ (closePaperTrade d now s x r).2 = [SaveState].
Proof.
  intros H Hot. unfold closePaperTrade. rewrite H.
  destruct s as [? ? ? ? ? ? []]. simpl in *. subst. crunch.
Qed.

Lemma closePaperTrade_no_entry d now s x r :
  List.filter (isSend ENTRY) (closePaperTrade d now s x r).2 = [].
Proof.
  destruct (Track.paperTrade s) as [trade|] eqn:H.
  - destruct (closePaperTrade_live d now s x r trade H)
      as (_ & _ & _ & _ & ->).
    by destruct (Live.openTrade _).
  - by rewrite closePaperTrade_none.
Qed.

Lemma tickSwitch_no_entry d sym ltp now s :
  List.filter (isSend ENTRY) (tickSwitch d sym ltp now s).2 = [].
Proof.
  unfold tickSwitch.
  pose proof (closePaperTrade_no_entry d now s ltp "Stop Loss") as Hc.
  destruct (closePaperTrade d now s ltp "Stop Loss") as [sc evc].
  repeat case_match; simpl in *; done.
Qed.

Lemma tickSwitch_no_stop d sym ltp now s trade :
  Track.paperTrade s = Some trade ->
  stopHit d ltp (Track.threshold s) = false ->
  is_Some (Track.paperTrade (tickSwitch d sym ltp now s).1).
Proof.
  intros H Hstop. unfold tickSwitch. rewrite Hstop.
  rewrite (openPaperTrade_open d now (Track.set_fsmState (positionState d) s)
             sym ltp trade H).
  repeat case_match; simpl; by rewrite H.
Qed.

(** With no live trade open, the switch sends nothing to the executor and
    leaves the live position, its lockout and its ledger alone. *)
Lemma tickSwitch_live_closed d sym ltp now s trade :
  Track.paperTrade s = Some trade ->
  Live.openTrade (Track.liveState s) = None ->
  let r := tickSwitch d sym ltp now s in
  (r.2 = [] \/ r.2 = [SaveState])
  /\ Live.openTrade (Track.liveState r.1) = None
  /\ Live.state (Track.liveState r.1) = Live.state (Track.liveState s)
  /\ Live.blockedAtMs (Track.liveState r.1)
     = Live.blockedAtMs (Track.liveState s)
  /\ Live.trades (Track.liveState r.1) = Live.trades (Track.liveState s).
Proof.
  intros H Hot. unfold tickSwitch.
  rewrite (openPaperTrade_open d now (Track.set_fsmState (positionState d) s)
             sym ltp trade H).
  destruct (closePaperTrade_no_live d now s ltp "Stop Loss" trade H Hot)
    as [Hl Hev].
  destruct (closePaperTrade d now s ltp "Stop Loss") as [sc evc].
  simpl in Hl, Hev. subst evc.
  repeat case_match; simplify_eq; simpl; rewrite ?Hl; simpl; auto.
Qed.

(** ** Protective close *)

Lemma trackTick_protective d sym ltp now s trade ot :
  Track.paperTrade s = Some trade ->
  PaperTrade.symbol trade = sym ->
  Live.state (Track.liveState s) = POSITION ->
  Live.openTrade (Track.liveState s) = Some ot ->
  Live.cumulativePnl (Track.liveState s) + paperUnrealized d ltp trade <= 0 ->
  let r := trackTick d sym ltp now s in
  let l' := Track.liveState r.1 in
  List.filter isCloseLog r.2
  = [LogLiveClosed d "Protective" (OpenTrade.symbol ot) ltp]
  /\ List.filter (isSend EXIT) r.2
     = [SendLiveSignal EXIT (OpenTrade.symbol ot) ltp d]
  /\ List.filter (isSend ENTRY) r.2 = []
  /\ Live.openTrade l' = None
  /\ Live.state l' = NO_POSITION
  /\ Live.blockedAtMs l' = Some now
  /\ Live.trades l'
     = take 50 (exitRow d now ltp ot (Live.cumulativePnl (Track.liveState s))
                :: Live.trades (Track.liveState s)).
Proof.
  intros H Hsym Hst Hot Htot. unfold trackTick.
  rewrite (tickUpdate_open _ _ _ _ _ _ H), Hsym, String.eqb_refl.
  set (s0 := Track.set_currentPeakPnl _ _).
  set (tot := _ + _) in *.
  destruct (checkLiveTrade_protective d now s0 tot ltp sym ot Hst Hot Htot)
    as (Hev & Ho & Hs & Hb & _ & _ & Hrows).
  rewrite checkLiveTrade_shape in *. simpl in Hev, Ho, Hs, Hb, Hrows.
  set (l1 := Track.liveState (checkLiveTrade d now s0 tot ltp sym).1) in *.
  set (ev1 := (checkLiveTrade d now s0 tot ltp sym).2) in *.
  clearbody l1 ev1. subst ev1. cbv zeta.
  set (s1 := Track.set_liveState l1 s0).
  destruct (isNull (Track.threshold s1)).
  { simpl. by rewrite Ho, Hs, Hb, Hrows. }
  assert (H1 : Track.paperTrade s1 = Some (repriced d ltp trade)) by done.
  destruct (tickSwitch_live_closed d sym ltp now s1 _ H1 Ho)
    as (Hev2 & Ho2 & Hs2 & Hb2 & Hrows2).
  destruct (tickSwitch d sym ltp now s1) as [s2 ev2]. simpl in *.
  rewrite Ho2, Hs2, Hb2, Hrows2, Hs, Hb, Hrows.
  destruct Hev2 as [->| ->]; by simpl.
Qed.

(** C5. On a tick for the symbol of the open paper trade, when the live
    sub-track is in [POSITION] (with its open trade) and
    [cumulativePnl + unrealizedPnl] of the paper trade is at most 0, the tick
    closes the live trade once, with reason "Protective", at the tick's
    price: one close is logged, one EXIT is sent to the executor, no ENTRY
    is sent, the exit row is put on the ledger, the live sub-track is back in
    [NO_POSITION] without open trade, and [blockedAtMs] is the tick's
    timestamp. *)
Theorem protective_close_once :
  forall (d : Direction) (symbol : string) (ltp : Q) (now : N) (e : Engine.t)
         (trade : PaperTrade.t) (ot : OpenTrade.t),
    let l := Track.liveState (track d e) in
    Track.paperTrade (track d e) = Some trade ->
    PaperTrade.symbol trade = symbol ->
    Live.state l = POSITION ->
    Live.openTrade l = Some ot ->
    Live.cumulativePnl l + paperUnrealized d ltp trade <= 0 ->
    let r := processTickTransition d symbol ltp now e in
    let l' := Track.liveState (track d r.1) in
    List.filter isCloseLog r.2
    = [LogLiveClosed d "Protective" (OpenTrade.symbol ot) ltp]
    /\ List.filter (isSend EXIT) r.2
       = [SendLiveSignal EXIT (OpenTrade.symbol ot) ltp d]
    /\ countSends EXIT r.2 = 1%nat
    /\ countSends ENTRY r.2 = 0%nat
    /\ Live.openTrade l' = None
    /\ Live.state l' = NO_POSITION
    /\ Live.blockedAtMs l' = Some now
    /\ Live.trades l'
       = take 50 (exitRow d now ltp ot (Live.cumulativePnl l) :: Live.trades l).
Proof.
  intros d symbol ltp now e trade ot l H Hsym Hst Hot Htot r l'.
  subst r l'.
  destruct (processTickTransition_track d symbol ltp now e) as [-> ->].
  destruct (trackTick_protective d symbol ltp now _ trade ot H Hsym Hst Hot
              Htot) as (H1 & H2 & H3 & H4 & H5 & H6 & H7).
  unfold countSends. rewrite H2, H3. done.
Qed.

(** ** Promotion *)

Lemma paperUnrealized_ext d ltp tr tr' :
  PaperTrade.entryPrice tr = PaperTrade.entryPrice tr' ->
  PaperTrade.quantity tr = PaperTrade.quantity tr' ->
  paperUnrealized d ltp tr = paperUnrealized d ltp tr'.
Proof. intros H1 H2. unfold paperUnrealized. by rewrite H1, H2. Qed.

Lemma trackTick_promote d sym ltp now s trade pd :
  Track.paperTrade s = Some trade ->
  PaperTrade.symbol trade = sym ->
  Live.state (Track.liveState s) = NO_POSITION ->
  Live.pendingPaperTrade (Track.liveState s) = Some pd ->
  truthyStamp (Live.blockedAtMs (Track.liveState s)) = false
  \/ lockExpired (Live.blockedAtMs (Track.liveState s)) now = true ->
  0 < Live.cumulativePnl (Track.liveState s) + paperUnrealized d ltp trade ->
  let r := trackTick d sym ltp now s in
  List.filter (isSend ENTRY) r.2 = [SendLiveSignal ENTRY sym ltp d]
  /\ (stopHit d ltp (Track.threshold s) = false ->
      r.2 = [SendLiveSignal ENTRY sym ltp d]
      /\ holding sym (PaperTrade.entryPrice trade) (PaperTrade.quantity trade)
           (Track.threshold s)
           (OpenTrade.mk now sym ltp (Pending.quantity pd) (Pending.lot pd))
           (Live.cumulativePnl (Track.liveState s))
           (take 50 (entryRow sym ltp pd
                       (Live.cumulativePnl (Track.liveState s))
                     :: Live.trades (Track.liveState s)))
           r.1).
Proof.
  intros H Hsym Hst Hpd Hblk Htot. unfold trackTick.
  rewrite (tickUpdate_open _ _ _ _ _ _ H), Hsym, String.eqb_refl.
  set (s0 := Track.set_currentPeakPnl _ _).
  set (tot := _ + _) in *.
  destruct (checkLiveTrade_promote d now s0 tot ltp sym pd Hst Hpd Hblk Htot)
    as (Hev & Ho & Hs & Hc & _ & Hrows).
  rewrite checkLiveTrade_shape in *. simpl in Hev, Ho, Hs, Hc, Hrows.
  set (l1 := Track.liveState (checkLiveTrade d now s0 tot ltp sym).1) in *.
  set (ev1 := (checkLiveTrade d now s0 tot ltp sym).2) in *.
  clearbody l1 ev1. subst ev1. cbv zeta.
  set (s1 := Track.set_liveState l1 s0).
  assert (H1 : Track.paperTrade s1 = Some (repriced d ltp trade)) by done.
  assert (Hold1 : holding sym (PaperTrade.entryPrice trade)
            (PaperTrade.quantity trade) (Track.threshold s)
            (OpenTrade.mk now sym ltp (Pending.quantity pd) (Pending.lot pd))
            (Live.cumulativePnl (Track.liveState s))
            (take 50 (entryRow sym ltp pd
                        (Live.cumulativePnl (Track.liveState s))
                      :: Live.trades (Track.liveState s))) s1).
  { repeat split; try done. by exists (repriced d ltp trade). }
  destruct (isNull (Track.threshold s1)); [by simpl|].
  pose proof (tickSwitch_no_entry d sym ltp now s1) as Hne.
  pose proof (tickSwitch_no_stop d sym ltp now s1 _ H1) as Hns.
  pose proof (tickSwitch_keeps_open d sym ltp now s1 _ H1) as Hk.
  destruct (tickSwitch d sym ltp now s1) as [s2 ev2]. simpl in *.
  split; [by rewrite Hne|].
  intros Hstop. destruct (Hk (Hns Hstop)) as (K1 & _ & K3 & K4 & ->).
  split; [done|].
  destruct Hold1 as (_ & ? & ? & ? & ? & ?).
  unfold holding. rewrite K1, K3, K4.
  repeat split; try done. by exists (repriced d ltp trade).
Qed.

Lemma trackTick_hold d sym entry qty thr ot cum rows p now s trade :
  holding sym entry qty thr ot cum rows s ->
  PaperTrade.entryPrice trade = entry ->
  PaperTrade.quantity trade = qty ->
  0 < cum + paperUnrealized d p trade ->
  stopHit d p thr = false ->
  (trackTick d sym p now s).2 = []
  /\ holding sym entry qty thr ot cum rows (trackTick d sym p now s).1.
Proof.
  intros ((tr & H & Hsym & He & Hq) & Hthr & Hst & Hot & Hc & Hrows)
    Hentry Hqty Htot Hstop.
  unfold trackTick.
  rewrite (tickUpdate_open _ _ _ _ _ _ H), Hsym, String.eqb_refl.
  set (s0 := Track.set_currentPeakPnl _ _).
  rewrite (paperUnrealized_ext d p tr trade) by congruence.
  rewrite Hc. set (tot := _ + _) in *.
  destruct (checkLiveTrade_hold d now s0 tot p sym ot Hst Hot Htot)
    as (Hev & Ho & Hs & Hc1 & _ & Hrows1).
  rewrite checkLiveTrade_shape in *. simpl in Hev, Ho, Hs, Hc1, Hrows1.
  set (l1 := Track.liveState (checkLiveTrade d now s0 tot p sym).1) in *.
  set (ev1 := (checkLiveTrade d now s0 tot p sym).2) in *.
  clearbody l1 ev1. subst ev1. cbv zeta.
  set (s1 := Track.set_liveState l1 s0).
  assert (H1 : Track.paperTrade s1 = Some (repriced d p tr)) by done.
  assert (Hold1 : holding sym entry qty thr ot cum rows s1).
  { unfold holding. simpl. rewrite Ho, Hs, Hc1, Hrows1.
    repeat split; try done. by exists (repriced d p tr). }
  destruct (isNull (Track.threshold s1)); [by simpl|].
  assert (Hstop1 : stopHit d p (Track.threshold s1) = false)
    by (simpl; by rewrite Hthr).
  pose proof (tickSwitch_no_stop d sym p now s1 _ H1 Hstop1) as Hns.
  pose proof (tickSwitch_keeps_open d sym p now s1 _ H1 Hns) as Hk.
  destruct (tickSwitch d sym p now s1) as [s2 ev2]. simpl in *.
  destruct Hk as (K1 & _ & K3 & K4 & ->).
  split; [done|].
  unfold holding. rewrite K1, K3, K4. simpl. rewrite Ho, Hs, Hc1, Hrows1.
  repeat split; try done. by exists (repriced d p tr).
Qed.

Lemma processTicks_hold d sym entry qty thr ot cum rows trade ticks :
  PaperTrade.entryPrice trade = entry ->
  PaperTrade.quantity trade = qty ->
  Forall (keepsPositive d sym cum trade thr) ticks ->
  forall e,
    holding sym entry qty thr ot cum rows (track d e) ->
    (processTicks d ticks e).2 = []
    /\ holding sym entry qty thr ot cum rows
         (track d (processTicks d ticks e).1).
Proof.
  intros Hentry Hqty. induction 1 as [|t rest (Hs & Htot & Hstop) _ IH];
    intros e Hold.
  - done.
  - simpl.
    destruct (processTickTransition_track d (Tick.symbol t) (Tick.price t)
                (Tick.at_ms t) e) as [Ht Hev].
    rewrite Hs in *.
    destruct (trackTick_hold d sym entry qty thr ot cum rows (Tick.price t)
                (Tick.at_ms t) _ trade Hold Hentry Hqty Htot Hstop)
      as [Hnil Hold'].
    rewrite <- Ht in Hold'. rewrite <- Hev in Hnil.
    destruct (processTickTransition d sym _ _ e) as [e1 ev1]. simpl in *.
    destruct (IH e1 Hold') as [Hnil2 Hold2].
    destruct (processTicks d rest e1) as [e2 ev2]. simpl in *.
    rewrite Hnil, Hnil2. by split.
Qed.

Lemma trackTick_hold_no_entry d sym entry qty thr ot cum rows p now s trade :
  holding sym entry qty thr ot cum rows s ->
  PaperTrade.entryPrice trade = entry ->
  PaperTrade.quantity trade = qty ->
  0 < cum + paperUnrealized d p trade ->
  List.filter (isSend ENTRY) (trackTick d sym p now s).2 = [].
Proof.
  intros ((tr & H & Hsym & He & Hq) & Hthr & Hst & Hot & Hc & Hrows)
    Hentry Hqty Htot.
  unfold trackTick.
  rewrite (tickUpdate_open _ _ _ _ _ _ H), Hsym, String.eqb_refl.
  set (s0 := Track.set_currentPeakPnl _ _).
  rewrite (paperUnrealized_ext d p tr trade) by congruence.
  rewrite Hc. set (tot := _ + _) in *.
  destruct (checkLiveTrade_hold d now s0 tot p sym ot Hst Hot Htot)
    as (Hev & _).
  destruct (checkLiveTrade d now s0 tot p sym) as [s1 ev1].
  simpl in Hev. subst ev1.
  destruct (isNull (Track.threshold s1)); [done|].
  pose proof (tickSwitch_no_entry d sym p now s1) as Hne.
  by destruct (tickSwitch d sym p now s1) as [s2 ev2].
Qed.

(** C4. On a tick for the symbol of the open paper trade, when the live
    sub-track is in [NO_POSITION], a pending paper trade is recorded, no
    lockout is active (none is set, or the one set has expired at this
    tick) and [cumulativePnl + unrealizedPnl] is above 0, the tick sends
    exactly one ENTRY to the executor, at the tick's price. When the tick
    does not also hit the stop of the paper trade, the live sub-track is
    then in [POSITION] with an open trade at the tick's price that has the
    quantity and lot of the pending trade, and its entry row is on the
    ledger; further ticks for that symbol that keep the total positive and
    do not hit the stop emit nothing, and leave that open trade and the
    ledger as they are; a tick after them that keeps the total positive
    sends no ENTRY even when it hits the stop. *)
Theorem promotion_emits_one_entry :
  forall (d : Direction) (symbol : string) (ltp : Q) (now : N) (e : Engine.t)
         (trade : PaperTrade.t) (pending : Pending.t),
    let s := track d e in
    let l := Track.liveState s in
    Track.paperTrade s = Some trade ->
    PaperTrade.symbol trade = symbol ->
    Live.state l = NO_POSITION ->
    Live.pendingPaperTrade l = Some pending ->
    truthyStamp (Live.blockedAtMs l) = false
    \/ lockExpired (Live.blockedAtMs l) now = true ->
    0 < Live.cumulativePnl l + paperUnrealized d ltp trade ->
    let r := processTickTransition d symbol ltp now e in
    let ot :=
      OpenTrade.mk now symbol ltp (Pending.quantity pending)
        (Pending.lot pending) in
    List.filter (isSend ENTRY) r.2 = [SendLiveSignal ENTRY symbol ltp d]
    /\ countSends ENTRY r.2 = 1%nat
    /\ (stopHit d ltp (Track.threshold s) = false ->
        Live.state (Track.liveState (track d r.1)) = POSITION
        /\ Live.openTrade (Track.liveState (track d r.1)) = Some ot
        /\ Live.trades (Track.liveState (track d r.1))
           = take 50 (entryRow symbol ltp pending (Live.cumulativePnl l)
                      :: Live.trades l)
        /\ forall ticks,
             Forall (keepsPositive d symbol (Live.cumulativePnl l) trade
                       (Track.threshold s)) ticks ->
             let r2 := processTicks d ticks r.1 in
             r2.2 = []
             /\ countSends ENTRY r2.2 = 0%nat
             /\ Live.state (Track.liveState (track d r2.1)) = POSITION
             /\ Live.openTrade (Track.liveState (track d r2.1)) = Some ot
             /\ Live.trades (Track.liveState (track d r2.1))
                = Live.trades (Track.liveState (track d r.1))
             /\ forall p t,
                  0 < Live.cumulativePnl l + paperUnrealized d p trade ->
                  List.filter (isSend ENTRY)
                    (processTickTransition d symbol p t r2.1).2 = []).
Proof.
  intros d symbol ltp now e trade pending s l H Hsym Hst Hpd Hblk Htot r ot.
  subst r s l.
  destruct (processTickTransition_track d symbol ltp now e) as [Ht Hev].
  destruct (trackTick_promote d symbol ltp now _ trade pending H Hsym Hst Hpd
              Hblk Htot) as [Hentry Hrest].
  rewrite <- Hev in Hentry, Hrest. rewrite <- Ht in Hrest.
  split; [done|]. split; [unfold countSends; by rewrite Hentry|].
  intros Hstop. destruct (Hrest Hstop) as [_ Hold].
  pose proof Hold as (_ & _ & Hs1 & Ho1 & _ & Hrows1).
  repeat split; try done.
  all: destruct (processTicks_hold d symbol _ _ _ _ _ _ trade ticks
                   eq_refl eq_refl H0 _ Hold) as [Hnil Hold2];
    pose proof Hold2 as (_ & _ & Hs2 & Ho2 & _ & Hrows2); try done.
  - unfold countSends. by rewrite Hnil.
  - by rewrite Hrows2.
  - intros p t Hp.
    destruct (processTickTransition_track d symbol p t
                (processTicks d ticks
                   (processTickTransition d symbol ltp now e).1).1)
      as [_ ->].
    by eapply trackTick_hold_no_entry.
Qed.

(** ** The paper trade and the FSM state *)

Lemma FsmState_eqb_eq a b : FsmState_eqb a b = true <-> a = b.
Proof. destruct a, b; simpl; split; congruence. Qed.

Lemma FsmState_eqb_refl a : FsmState_eqb a a = true.
Proof. by destruct a. Qed.

Lemma tickUpdate_open_shape d sym ltp now s trade :
  Track.paperTrade s = Some trade ->
  exists tr1 pk l1 ev1,
    tickUpdate d sym ltp now s
    = (Track.mk (Track.fsmState s) (Track.threshold s) (Some tr1)
         (Track.paperTrades s) (Track.peakPnlHistory s) pk l1
         (Track.signals s) (Track.lastSignalAtMs s) (Track.lastBlockedAtMs s),
       ev1)
    /\ (tr1 = trade \/ tr1 = repriced d ltp trade).
Proof.
  intros H. rewrite (tickUpdate_open _ _ _ _ _ _ H).
  destruct (String.eqb _ _).
  - rewrite checkLiveTrade_shape. eexists _, _, _, _. split; [done|by right].
  - exists trade, (Track.currentPeakPnl s), (Track.liveState s), [].
    split; [|by left]. destruct s. simpl in *. by subst.
Qed.

Lemma trackTick_paper_inv d sym ltp now s :
  paper_inv d s -> paper_inv d (trackTick d sym ltp now s).1.
Proof.
  intros Hinv. unfold trackTick, paper_inv in *.
  destruct (Track.paperTrade s) as [trade|] eqn:Hp.
  - destruct Hinv as [?|Hfsm]; [done|].
    destruct (tickUpdate_open_shape d sym ltp now s trade Hp)
      as (tr1 & pk & l1 & ev1 & -> & _).
    cbv zeta. simpl Track.threshold. destruct (isNull _); [by right|].
    unfold tickSwitch. simpl Track.fsmState. rewrite Hfsm.
    rewrite FsmState_eqb_refl.
    replace (FsmState_eqb (positionState d) NOPOSITION_SIGNAL) with false
      by (by destruct d).
    destruct (stopHit _ _ _); [|by right].
    erewrite closePaperTrade_shape by reflexivity. by left.
  - rewrite (tickUpdate_flat _ _ _ _ _ Hp).
    destruct (FsmState_eqb (Track.fsmState s) (positionState d)) eqn:E;
      [by left|].
    cbv beta iota zeta. destruct (isNull _); [by left|].
    unfold tickSwitch. rewrite E.
    rewrite (openPaperTrade_flat d now
               (Track.set_fsmState (positionState d) s) sym ltp) by done.
    destruct (FsmState_eqb (Track.fsmState s) NOPOSITION_SIGNAL),
      (breakout d ltp (Track.threshold s)),
      (FsmState_eqb (Track.fsmState s) NOPOSITION_BLOCKED),
      (lockExpired (Track.lastBlockedAtMs s) now); simpl; auto.
Qed.

Lemma armTrack_paper_inv d s : paper_inv d s -> paper_inv d (armTrack s).
Proof.
  unfold paper_inv, armTrack. intros [H|H].
  - left. by destruct (Track.fsmState s).
  - right. rewrite H. by destruct d.
Qed.

Lemma processWebhookSignal_paper_inv d signal now e :
  paper_inv d (track d e) ->
  paper_inv d (track d (processWebhookSignal signal now e).1).
Proof.
  intros H. unfold processWebhookSignal.
  destruct (Signal.symbol signal) as [[|c sym]|]; [done| |done].
  destruct (negb _); [done|].
  destruct (isBuy signal); [|destruct (isSell signal)];
    destruct d; simpl; try done; by apply armTrack_paper_inv.
Qed.

Lemma performDailyReset_paperTrade d now e :
  Track.paperTrade (track d (performDailyReset now e).1) = None.
Proof.
  unfold performDailyReset.
  destruct (Track.paperTrade (Engine.longState e)) as [tl|] eqn:HL;
    [rewrite (closePaperTrade_shape LONG now _ _ _ tl HL)|];
    (destruct (Track.paperTrade (Engine.shortState e)) as [ts|] eqn:HS;
     [rewrite (closePaperTrade_shape SHORT now _ _ _ ts HS)|]);
    by destruct d.
Qed.

Lemma checkDailyReset_paper_inv d tz now e :
  paper_inv d (track d e) ->
  paper_inv d (track d (checkDailyReset tz now e).1).
Proof.
  intros H. unfold checkDailyReset. destruct (_ && _); [|done].
  pose proof (performDailyReset_paperTrade d now e) as Hp.
  destruct (performDailyReset now e) as [e1 ev1]. left. by destruct d.
Qed.

Lemma generateAutoSignals_paper_inv d now e :
  paper_inv d (track d e) ->
  paper_inv d (track d (generateAutoSignals now e).1).
Proof.
  intros H. unfold generateAutoSignals.
  destruct (Engine.ltpBySymbol e !! _) as [ltp|]; [|done].
  destruct (negb _); [done|].
  match goal with
  | |- context [processWebhookSignal ?sg now e] =>
      pose proof (processWebhookSignal_paper_inv d sg now e H) as H1;
      destruct (processWebhookSignal sg now e) as [e1 ev1]
  end.
  match goal with
  | |- context [processWebhookSignal ?sg now e1] =>
      pose proof (processWebhookSignal_paper_inv d sg now e1 H1) as H2;
      destruct (processWebhookSignal sg now e1) as [e2 ev2]
  end.
  done.
Qed.

Lemma updateLtp_paper_inv d symbol price now e :
  paper_inv d (track d e) ->
  paper_inv d (track d (updateLtp symbol price now e).1).
Proof.
  intros H. destruct (isBtc symbol) eqn:Hbtc.
  - rewrite (updateLtp_track d symbol price now e Hbtc).
    by apply trackTick_paper_inv.
  - by destruct (updateLtp_not_btc d symbol price now e Hbtc) as [-> _].
Qed.

Lemma newEngine_paperTrade d file now :
  Track.paperTrade (track d (newEngine file now)) = None.
Proof.
  unfold newEngine, loadState. destruct file as [saved|]; [|by destruct d].
  destruct (Persisted.long saved), (Persisted.short saved); by destruct d.
Qed.

(** In every reachable engine a paper trade is open only in the position
    state of its track. *)
Lemma reachable_paper_inv d e : reachable e -> paper_inv d (track d e).
Proof.
  induction 1 as [file now|c e _ IH].
  - left. apply newEngine_paperTrade.
  - destruct c; simpl.
    + by apply updateLtp_paper_inv.
    + by apply processWebhookSignal_paper_inv.
    + by apply checkDailyReset_paper_inv.
    + by apply generateAutoSignals_paper_inv.
Qed.

(** ** Blocking *)

Lemma positionState_not_blocked d : positionState d <> NOPOSITION_BLOCKED.
Proof. by destruct d. Qed.

(** A tick that takes the track into [NOPOSITION_BLOCKED] records its time,
    leaves no paper trade open and has a threshold to compare with. *)
Lemma trackTick_enters_blocked d sym ltp now s :
  paper_inv d s ->
  Track.fsmState s <> NOPOSITION_BLOCKED ->
  Track.fsmState (trackTick d sym ltp now s).1 = NOPOSITION_BLOCKED ->
  Track.lastBlockedAtMs (trackTick d sym ltp now s).1 = Some now
  /\ Track.paperTrade (trackTick d sym ltp now s).1 = None
  /\ isNull (Track.threshold (trackTick d sym ltp now s).1) = false.
Proof.
  intros Hinv Hnb. unfold trackTick, paper_inv in *.
  destruct (Track.paperTrade s) as [trade|] eqn:Hp.
  - destruct Hinv as [?|Hfsm]; [done|].
    destruct (tickUpdate_open_shape d sym ltp now s trade Hp)
      as (tr1 & pk & l1 & ev1 & -> & _).
    cbv zeta. simpl Track.threshold.
    destruct (isNull (Track.threshold s)) eqn:Hnull; [done|].
    unfold tickSwitch. simpl Track.fsmState. rewrite Hfsm.
    rewrite FsmState_eqb_refl.
    replace (FsmState_eqb (positionState d) NOPOSITION_SIGNAL) with false
      by (by destruct d).
    simpl Track.threshold.
    destruct (stopHit _ _ _).
    + erewrite closePaperTrade_shape by reflexivity. by simpl.
    + simpl. intros Hb. by destruct (positionState_not_blocked d).
  - rewrite (tickUpdate_flat _ _ _ _ _ Hp).
    destruct (FsmState_eqb (Track.fsmState s) (positionState d)) eqn:E;
      [done|].
    cbv beta iota zeta.
    destruct (isNull (Track.threshold s)) eqn:Hnull; [done|].
    unfold tickSwitch. rewrite E.
    rewrite (openPaperTrade_flat d now
               (Track.set_fsmState (positionState d) s) sym ltp) by done.
    destruct (FsmState_eqb (Track.fsmState s) NOPOSITION_SIGNAL) eqn:E1.
    + destruct (breakout d ltp (Track.threshold s)); simpl; [|done].
      intros Hb. by destruct (positionState_not_blocked d).
    + destruct (FsmState_eqb (Track.fsmState s) NOPOSITION_BLOCKED) eqn:E2.
      * apply FsmState_eqb_eq in E2. done.
      * done.
Qed.

(** While the minute of the block lasts, a tick changes nothing. *)
Lemma trackTick_blocked_wait d sym ltp now s b :
  Track.fsmState s = NOPOSITION_BLOCKED ->
  Track.paperTrade s = None ->
  Track.lastBlockedAtMs s = Some b ->
  (minuteOf now <= minuteOf b)%N ->
  trackTick d sym ltp now s = (s, []).
Proof.
  intros Hfsm Hp Hb Hmin. unfold trackTick.
  rewrite (tickUpdate_flat _ _ _ _ _ Hp), Hfsm.
  replace (FsmState_eqb NOPOSITION_BLOCKED (positionState d)) with false
    by (by destruct d).
  cbv beta iota zeta. destruct (isNull _); [done|].
  unfold tickSwitch. rewrite Hfsm, Hb, (lockExpired_le b now Hmin).
  replace (FsmState_eqb NOPOSITION_BLOCKED (positionState d)) with false
    by (by destruct d).
  done.
Qed.

(** In a later minute the entry condition is evaluated at the tick's
    price. *)
Lemma trackTick_blocked_retry d sym ltp now s b :
  Track.fsmState s = NOPOSITION_BLOCKED ->
  Track.paperTrade s = None ->
  Track.lastBlockedAtMs s = Some b ->
  isNull (Track.threshold s) = false ->
  (0 < b)%N ->
  (minuteOf b < minuteOf now)%N ->
  trackTick d sym ltp now s
  = (if breakout d ltp (Track.threshold s)
     then openPaperTrade d now (Track.set_fsmState (positionState d) s) sym ltp
     else Track.set_lastBlockedAtMs (Some now) s, []).
Proof.
  intros Hfsm Hp Hb Hnull Hpos Hmin. unfold trackTick.
  rewrite (tickUpdate_flat _ _ _ _ _ Hp), Hfsm.
  replace (FsmState_eqb NOPOSITION_BLOCKED (positionState d)) with false
    by (by destruct d).
  cbv beta iota zeta. rewrite Hnull.
  unfold tickSwitch. rewrite Hfsm, Hb, (lockExpired_gt b now Hpos Hmin).
  replace (FsmState_eqb NOPOSITION_BLOCKED (positionState d)) with false
    by (by destruct d).
  simpl. by destruct (breakout d ltp (Track.threshold s)).
Qed.

(** ** Events of the two handlers *)

Lemma Qle_bool_Qgtb_false tot :
  Qle_bool tot CLOSE_THRESHOLD = true -> Qgtb tot OPEN_THRESHOLD = true ->
  False.
Proof.
  unfold Qgtb, Qltb, CLOSE_THRESHOLD, OPEN_THRESHOLD. intros ->. done.
Qed.

Lemma checkLiveTrade_events d now s tot p sym :
  let r := checkLiveTrade d now s tot p sym in
  r.2 = []
  \/ r.2 = [SendLiveSignal ENTRY sym p d]
  \/ (exists osym,
        r.2 = [LogLiveClosed d "Protective" osym p;
               SendLiveSignal EXIT osym p d]
        /\ Live.openTrade (Track.liveState r.1) = None).
Proof.
  unfold checkLiveTrade, closeLiveTrade, openLiveTrade.
  destruct s as [? ? ? ? ? ? []].
  crunch; auto; try (right; right; eexists; by split); exfalso;
    repeat match goal with
           | H : _ && _ = true |- _ =>
               apply andb_true_iff in H; destruct H
           end;
    eauto using Qle_bool_Qgtb_false.
Qed.

Lemma closePaperTrade_events d now s x r :
  (closePaperTrade d now s x r).2 = []
  \/ (closePaperTrade d now s x r).2 = [SaveState]
  \/ (exists osym,
        is_Some (Live.openTrade (Track.liveState s))
        /\ (closePaperTrade d now s x r).2
           = [LogLiveClosed d r osym x; SendLiveSignal EXIT osym x d;
              SaveState]).
Proof.
  destruct (Track.paperTrade s) as [trade|] eqn:H.
  - destruct (closePaperTrade_live d now s x r trade H)
      as (_ & _ & _ & _ & ->).
    destruct (Live.openTrade _) as [ot|]; [|by right; left].
    right. right. exists (OpenTrade.symbol ot). split; [by eexists|done].
  - left. by rewrite closePaperTrade_none.
Qed.

Lemma tickSwitch_events d sym ltp now s :
  (tickSwitch d sym ltp now s).2 = []
  \/ (tickSwitch d sym ltp now s).2 = [SaveState]
  \/ (exists osym,
        is_Some (Live.openTrade (Track.liveState s))
        /\ (tickSwitch d sym ltp now s).2
           = [LogLiveClosed d "Stop Loss" osym ltp;
              SendLiveSignal EXIT osym ltp d; SaveState]).
Proof.
  unfold tickSwitch.
  pose proof (closePaperTrade_events d now s ltp "Stop Loss") as Hc.
  destruct (closePaperTrade d now s ltp "Stop Loss") as [sc evc].
  destruct (FsmState_eqb (Track.fsmState s) NOPOSITION_SIGNAL),
    (breakout d ltp (Track.threshold s)),
    (FsmState_eqb (Track.fsmState s) (positionState d)),
    (stopHit d ltp (Track.threshold s)),
    (FsmState_eqb (Track.fsmState s) NOPOSITION_BLOCKED),
    (lockExpired (Track.lastBlockedAtMs s) now); simpl in *; auto.
Qed.

(** The events of a handler carry its own direction. *)
Lemma trackTick_events_of_other d sym ltp now s :
  List.filter (isLiveEventOf (other d)) (trackTick d sym ltp now s).2 = [].
Proof.
  unfold trackTick.
  assert (Hu : List.filter (isLiveEventOf (other d))
                 (tickUpdate d sym ltp now s).2 = []).
  { unfold tickUpdate.
    destruct (Track.paperTrade _) as [trade|]; [|done].
    destruct (String.eqb _ _); [|done].
    match goal with
    | |- context [checkLiveTrade d now ?s0 ?tot ltp sym] =>
        destruct (checkLiveTrade_events d now s0 tot ltp sym)
          as [-> | [-> | (osym & -> & _)]]
    end; by destruct d. }
  destruct (tickUpdate d sym ltp now s) as [s1 ev1]. simpl in Hu.
  destruct (isNull _); [done|].
  pose proof (tickSwitch_events d sym ltp now s1) as Hs.
  destruct (tickSwitch d sym ltp now s1) as [s2 ev2]. simpl in *.
  rewrite List.filter_app, Hu.
  destruct Hs as [-> | [-> | (osym & _ & ->)]]; by destruct d.
Qed.

Lemma updateLtp_events symbol price now e :
  isBtc symbol = true ->
  (updateLtp symbol price now e).2
  = (trackTick LONG symbol price now (track LONG e)).2
    ++ (trackTick SHORT symbol price now (track SHORT e)).2.
Proof.
  intros Hbtc. unfold updateLtp. rewrite Hbtc. simpl.
  set (e0 := Engine.set_ltpBySymbol _ e).
  pose proof (processTickTransition_track LONG symbol price now e0) as [_ HL].
  pose proof (processTickTransition_other LONG symbol price now e0) as HO.
  simpl in HL, HO.
  destruct (processLongTickTransition symbol price now e0) as [e1 ev1].
  pose proof (processTickTransition_track SHORT symbol price now e1) as [_ HS].
  simpl in HL, HO, HS.
  destruct (processShortTickTransition symbol price now e1) as [e2 ev2].
  simpl in *. by rewrite HL, HS, HO.
Qed.

(** ** Calls that a blocked track sits out *)

Lemma processWebhookSignal_not_for d signal now e :
  signalFor d signal = false ->
  track d (processWebhookSignal signal now e).1 = track d e
  /\ List.filter (isLiveEventOf d) (processWebhookSignal signal now e).2 = [].
Proof.
  unfold signalFor, processWebhookSignal, isBtc.
  destruct (Signal.symbol signal) as [[|c sym]|]; [done| |done].
  destruct (includes _ _); simpl; [|done].
  destruct (isBuy signal), (isSell signal), d; simpl; done.
Qed.

Lemma run_waiting d b c e :
  Track.fsmState (track d e) = NOPOSITION_BLOCKED ->
  Track.paperTrade (track d e) = None ->
  Track.lastBlockedAtMs (track d e) = Some b ->
  waitingCall d b c e ->
  track d (run c e).1 = track d e
  /\ List.filter (isLiveEventOf d) (run c e).2 = [].
Proof.
  intros Hfsm Hp Hb Hw. destruct c; simpl in *.
  - destruct (isBtc symbol) eqn:Hbtc.
    + destruct Hw as [?|Hmin]; [done|].
      rewrite (updateLtp_track d symbol price now e Hbtc).
      rewrite (updateLtp_events symbol price now e Hbtc).
      pose proof (trackTick_blocked_wait d symbol price now _ b Hfsm Hp Hb
                    Hmin) as Hd.
      rewrite Hd. split; [done|]. rewrite List.filter_app.
      pose proof (trackTick_events_of_other (other d) symbol price now
                    (track (other d) e)) as Ho.
      destruct d; simpl in *; by rewrite ?Hd, ?Ho.
    + by destruct (updateLtp_not_btc d symbol price now e Hbtc) as [-> ->].
  - by apply processWebhookSignal_not_for.
  - unfold checkDailyReset. fold (resetDue tzOffset now e). by rewrite Hw.
  - unfold generateAutoSignals. unfold autoSignalsDue in Hw.
    destruct (Engine.ltpBySymbol e !! _) as [ltp|]; [|done].
    by rewrite Hw.
Qed.

Lemma runCalls_waiting d b cs : forall e,
  Track.fsmState (track d e) = NOPOSITION_BLOCKED ->
  Track.paperTrade (track d e) = None ->
  Track.lastBlockedAtMs (track d e) = Some b ->
  waiting d b cs e ->
  track d (runCalls cs e).1 = track d e
  /\ List.filter (isLiveEventOf d) (runCalls cs e).2 = [].
Proof.
  induction cs as [|c rest IH]; intros e Hfsm Hp Hb Hw; [done|].
  destruct Hw as [Hc Hrest]. simpl.
  destruct (run_waiting d b c e Hfsm Hp Hb Hc) as [Ht Hev].
  destruct (run c e) as [e1 ev1]. simpl in *.
  rewrite <- Ht in Hfsm, Hp, Hb.
  destruct (IH e1 Hfsm Hp Hb Hrest) as [Ht2 Hev2].
  destruct (runCalls rest e1) as [e2 ev2]. simpl in *.
  split; [congruence|]. by rewrite List.filter_app, Hev, Hev2.
Qed.

(** C3 (amended). When a tick at time [b] takes a track into
    [NOPOSITION_BLOCKED], [lastBlockedAtMs] is [b]. From then on, as long
    as the track gets no signal and no daily reset is performed (the calls
    are ticks, signals that are dropped or resolve to the other track,
    reset checks that do not reset, runs of [generateAutoSignals] that
    generate nothing), the ticks whose minute [floor(t/60000)] is not later
    than that of [b] leave the track exactly as it is, so no position is
    entered and nothing of the track goes to the executor; and the first
    tick for a BTC symbol in a later minute evaluates the entry condition
    at its own price: when it holds the track enters its position with a
    paper trade opened at that price, otherwise the track stays blocked and
    [lastBlockedAtMs] becomes the time of that tick. *)
Theorem blocked_until_next_minute :
  forall (d : Direction) (e0 : Engine.t) (sym0 : string) (p0 : Q) (b : N),
    paper_inv d (track d e0) ->
    (0 < b)%N ->
    Track.fsmState (track d e0) <> NOPOSITION_BLOCKED ->
    let e1 := (run (CallUpdateLtp sym0 p0 b) e0).1 in
    Track.fsmState (track d e1) = NOPOSITION_BLOCKED ->
    Track.lastBlockedAtMs (track d e1) = Some b
    /\ forall cs,
         waiting d b cs e1 ->
         let r := runCalls cs e1 in
         track d r.1 = track d e1
         /\ List.filter (isLiveEventOf d) r.2 = []
         /\ forall symbol ltp t,
              isBtc symbol = true ->
              (minuteOf b < minuteOf t)%N ->
              let s2 := track d (run (CallUpdateLtp symbol ltp t) r.1).1 in
              if breakout d ltp (Track.threshold (track d e1))
              then Track.fsmState s2 = positionState d
                   /\ Track.paperTrade s2
                      = Some (PaperTrade.mk symbol d ltp ltp
                                (POSITION_SIZE / ltp) 0 t)
              else Track.fsmState s2 = NOPOSITION_BLOCKED
                   /\ Track.lastBlockedAtMs s2 = Some t
                   /\ Track.paperTrade s2 = None.
Proof.
  intros d e0 sym0 p0 b Hinv Hb Hnb e1 Hfsm. subst e1. simpl in *.
  destruct (isBtc sym0) eqn:Hbtc; cycle 1.
  { destruct (updateLtp_not_btc d sym0 p0 b e0 Hbtc) as [Hsame _].
    by rewrite Hsame in Hfsm. }
  pose proof (updateLtp_track d sym0 p0 b e0 Hbtc) as Ht.
  rewrite Ht in Hfsm.
  destruct (trackTick_enters_blocked d sym0 p0 b _ Hinv Hnb Hfsm)
    as (Hlast & Hp & Hnull).
  rewrite <- Ht in Hfsm, Hlast, Hp, Hnull.
  set (e1 := (updateLtp sym0 p0 b e0).1) in *. clearbody e1.
  split; [done|]. intros cs Hw.
  destruct (runCalls_waiting d b cs e1 Hfsm Hp Hlast Hw) as [Hw1 Hw2].
  split; [done|]. split; [done|].
  intros symbol ltp t Hsym Hmin. cbv zeta. simpl run.
  rewrite (updateLtp_track d symbol ltp t _ Hsym), Hw1.
  rewrite (trackTick_blocked_retry d symbol ltp t _ b Hfsm Hp Hlast Hnull Hb
             Hmin).
  destruct (breakout d ltp (Track.threshold (track d e1))); simpl.
  - rewrite openPaperTrade_flat by done. done.
  - done.
Qed.

(** ** What changes [cumulativePnl] *)















(** ** The scenario 100, 101, 99 *)




(** ** The theorems at concrete inputs *)



(** A LONG signal whose stop price is 0: the threshold is the LTP. *)
Lemma zero_stop_price_uses_ltp :
  let signal := Signal.mk (Some btc) (Some ENTRY) (Some 0) (Some BUY) in
  let e' := (processWebhookSignal signal 2000 pricedEngine).1 in
  isBuy signal = true
  /\ Signal.stoppx signal = Some 0
  /\ Engine.ltpBySymbol pricedEngine !! btc = Some 60
  /\ Track.threshold (Engine.longState e') = JNum 60
  /\ Track.threshold (Engine.longState e') <> JNum 0.
Proof. vm_compute. repeat split; discriminate. Qed.

Lemma processWebhookSignal_threshold_witness :
  let signal := Signal.mk (Some btc) (Some EXIT) (Some 50) (Some SELL) in
  isBtc btc = true
  /\ isSell signal = true
  /\ Track.threshold
       (Engine.shortState (processWebhookSignal signal 2000 pricedEngine).1)
     = JNum 60.
Proof.
  intros signal.
  assert (H1 : isBtc btc = true) by reflexivity.
  assert (H2 : isSell signal = true) by reflexivity.
  split; [exact H1|]. split; [exact H2|].
  destruct (processWebhookSignal_threshold signal btc 2000 pricedEngine
              eq_refl H1) as (_ & _ & H).
  apply H; [exact H2|reflexivity|by vm_compute].
Defined.

(** A signal in the minute of the block re-arms the track, and the next
    tick of that minute enters the position. *)
Lemma signal_rearms_blocked_track :
  let e1 := (processTickTransition LONG btc 100 1000 armedEngine).1 in
  let e2 :=
    (processWebhookSignal
       (Signal.mk (Some btc) (Some ENTRY) (Some 100) (Some BUY)) 2000 e1).1 in
  let e3 := (processTickTransition LONG btc 101 3000 e2).1 in
  Track.fsmState (track LONG armedEngine) <> NOPOSITION_BLOCKED
  /\ Track.fsmState (track LONG e1) = NOPOSITION_BLOCKED
  /\ Track.lastBlockedAtMs (track LONG e1) = Some 1000%N
  /\ (minuteOf 3000 <= minuteOf 1000)%N
  /\ Track.fsmState (track LONG e3) = BUYPOSITION
  /\ Track.paperTrade (track LONG e3)
     = Some (PaperTrade.mk btc LONG 101 101 (POSITION_SIZE / 101) 0 3000).
Proof. vm_compute. repeat split; discriminate. Qed.

Lemma blocked_until_next_minute_witness :
  let e1 := (run (CallUpdateLtp btc 100 3601000) armedEngine).1 in
  paper_inv LONG (track LONG armedEngine)
  /\ (0 < 3601000)%N
  /\ Track.fsmState (track LONG e1) = NOPOSITION_BLOCKED
  /\ waiting LONG 3601000 sitOutCalls e1
  /\ track LONG (runCalls sitOutCalls e1).1 = track LONG e1.
Proof.
  cbv zeta.
  assert (H1 : paper_inv LONG (track LONG armedEngine)) by (left; reflexivity).
  assert (H2 : (0 < 3601000)%N) by reflexivity.
  assert (H3 : Track.fsmState (track LONG armedEngine) <> NOPOSITION_BLOCKED)
    by (vm_compute; discriminate).
  assert (H4 : Track.fsmState
                 (track LONG
                    (run (CallUpdateLtp btc 100 3601000) armedEngine).1)
               = NOPOSITION_BLOCKED) by (vm_compute; reflexivity).
  assert (H5 : waiting LONG 3601000 sitOutCalls
                 (run (CallUpdateLtp btc 100 3601000) armedEngine).1).
  { cbn [waiting sitOutCalls waitingCall].
    split; [|split; [|split; [|split; [|exact I]]]].
    - right. vm_compute. discriminate.
    - vm_compute. reflexivity.
    - vm_compute. reflexivity.
    - left. reflexivity. }
  split; [exact H1|]. split; [exact H2|]. split; [exact H4|].
  split; [exact H5|].
  pose proof (blocked_until_next_minute LONG armedEngine btc 100 3601000%N
                H1 H2 H3 H4) as Hb.
  cbv beta iota zeta in Hb. destruct Hb as [_ Hw].
  pose proof (Hw sitOutCalls H5) as Hr.
  cbv beta iota zeta in Hr. exact (proj1 Hr).
Defined.

Lemma promotion_emits_one_entry_witness :
  Track.paperTrade (track LONG enteredEngine) = Some enteredTrade
  /\ 0 < Live.cumulativePnl (Track.liveState (track LONG enteredEngine))
         + paperUnrealized LONG 102 enteredTrade
  /\ countSends ENTRY (processTickTransition LONG btc 102 62000 enteredEngine).2
     = 1%nat.
Proof.
  assert (H1 : Track.paperTrade (track LONG enteredEngine) = Some enteredTrade)
    by (vm_compute; reflexivity).
  assert (H2 : 0 < Live.cumulativePnl
                     (Track.liveState (track LONG enteredEngine))
                   + paperUnrealized LONG 102 enteredTrade)
    by (vm_compute; reflexivity).
  split; [exact H1|]. split; [exact H2|].
  destruct (promotion_emits_one_entry LONG btc 102 62000 enteredEngine
              enteredTrade enteredPending H1 eq_refl
              ltac:(vm_compute; reflexivity) ltac:(vm_compute; reflexivity)
              ltac:(left; vm_compute; reflexivity) H2) as (_ & H & _).
  exact H.
Defined.

Lemma protective_close_once_witness :
  Live.state (Track.liveState (track LONG promotedEngine)) = POSITION
  /\ Live.cumulativePnl (Track.liveState (track LONG promotedEngine))
     + paperUnrealized LONG 100 (repriced LONG 102 enteredTrade) <= 0
  /\ countSends EXIT
       (processTickTransition LONG btc 100 63000 promotedEngine).2 = 1%nat
  /\ Live.blockedAtMs
       (Track.liveState
          (track LONG
             (processTickTransition LONG btc 100 63000 promotedEngine).1))
     = Some 63000%N.
Proof.
  assert (H1 : Live.state (Track.liveState (track LONG promotedEngine))
               = POSITION) by (vm_compute; reflexivity).
  assert (H2 : Live.cumulativePnl (Track.liveState (track LONG promotedEngine))
               + paperUnrealized LONG 100 (repriced LONG 102 enteredTrade)
               <= 0) by (vm_compute; discriminate).
  split; [exact H1|]. split; [exact H2|].
  destruct (protective_close_once LONG btc 100 63000 promotedEngine
              (repriced LONG 102 enteredTrade) promotedOpenTrade
              ltac:(vm_compute; reflexivity) eq_refl H1
              ltac:(vm_compute; reflexivity) H2)
    as (_ & _ & Hx & _ & _ & _ & Hb & _).
  split; [exact Hx|exact Hb].
Defined.

Lemma currentPeakPnl_witness :
  Track.paperTrade (track LONG enteredEngine) = Some enteredTrade
  /\ is_Some
       (Track.paperTrade
          (track LONG (processTickTransition LONG btc 102 62000 enteredEngine).1))
  /\ peak_le (Track.currentPeakPnl (track LONG enteredEngine))
       (Track.currentPeakPnl
          (track LONG (processTickTransition LONG btc 102 62000 enteredEngine).1)).
Proof.
  assert (H1 : Track.paperTrade (track LONG enteredEngine) = Some enteredTrade)
    by (vm_compute; reflexivity).
  assert (H2 : is_Some
            (Track.paperTrade
               (track LONG
                  (processTickTransition LONG btc 102 62000 enteredEngine).1)))
    by (vm_compute; eexists; reflexivity).
  split; [exact H1|]. split; [exact H2|].
  exact (proj1 (proj1 currentPeakPnl_monotone_and_archived LONG btc 102 62000%N
                  enteredEngine enteredTrade H1 H2)).
Defined.

Lemma checkDailyReset_idempotent_witness :
  inResetWindow 0 86400000 = true
  /\ inResetWindow 0 86401000 = true
  /\ checkDailyReset 0 86401000 (checkDailyReset 0 86400000 promotedEngine).1
     = ((checkDailyReset 0 86400000 promotedEngine).1, []).
Proof.
  assert (H1 : inResetWindow 0 86400000 = true) by reflexivity.
  assert (H2 : inResetWindow 0 86401000 = true) by reflexivity.
  split; [exact H1|]. split; [exact H2|].
  exact (checkDailyReset_idempotent 0 86400000 86401000 promotedEngine H1 H2
           eq_refl).
Defined.

Lemma live_openTrade_iff_position_witness :
  engine_live_inv promotedEngine
  /\ engine_live_inv (run (CallUpdateLtp btc 100 63000) promotedEngine).1.
Proof.
  assert (H : engine_live_inv promotedEngine).
  { split; apply live_inv_bool; vm_compute; reflexivity. }
  split; [exact H|].
  exact (proj1 (proj2 (proj2 (proj2 live_openTrade_iff_position)))
           (CallUpdateLtp btc 100 63000) promotedEngine H).
Defined.

Lemma getCumLivePnl_witness :
  TradeRow.action (TradeRow.mk ENTRY btc 100 None 1 None 7 None) = ENTRY
  /\ getCumLivePnl 1000 sampleLedger == 5
  /\ getCumLivePnl 1000 sampleLedger
     == getCumLivePnl 1000
          (Live.set_trades
             ([TradeRow.mk EXIT btc 100 (Some 105) 1 (Some 5) 12 (Some 2000%N)]
              ++ [TradeRow.mk EXIT btc 90 (Some 97) 1 (Some 7) 7 (Some 500%N)])
             sampleLedger).
Proof.
  split; [reflexivity|]. split; [reflexivity|].
  destruct (getCumLivePnl_counts_exits_after_reset 1000 sampleLedger)
    as [_ H].
  apply (H [TradeRow.mk EXIT btc 100 (Some 105) 1 (Some 5) 12 (Some 2000%N)]
           (TradeRow.mk ENTRY btc 100 None 1 None 7 None)
           [TradeRow.mk EXIT btc 90 (Some 97) 1 (Some 7) 7 (Some 500%N)]).
  - reflexivity.
  - left. reflexivity.
Defined.



(** * Further properties of the engine *)

(** ** Persistence *)

(** X1. Saving and restarting keeps, for each track, the FSM state, the
    threshold, both histories, the peak, the signal ring, the live ledger
    and the live cumulative PnL, and the two reset fields of the engine (a
    zero [lastResetTimestamp] is replaced by the clock); it drops the open
    paper trade, the open live trade with its pending reference and
    lockout, the two timestamps of the track and the price table. *)
Theorem restart_keeps_history_drops_open_trades :
  forall (e : Engine.t) (savedAt now : N) (d : Direction),
    let s := track d e in
    let s' := track d (restarted savedAt now e) in
    (Track.fsmState s' = Track.fsmState s
     /\ Track.threshold s' = Track.threshold s
     /\ Track.paperTrades s' = Track.paperTrades s
     /\ Track.peakPnlHistory s' = Track.peakPnlHistory s
     /\ Track.currentPeakPnl s' = Track.currentPeakPnl s
     /\ Track.signals s' = Track.signals s
     /\ Live.trades (Track.liveState s') = Live.trades (Track.liveState s)
     /\ Live.cumulativePnl (Track.liveState s')
        = Live.cumulativePnl (Track.liveState s))
    /\ (Track.paperTrade s' = None
        /\ Live.openTrade (Track.liveState s') = None
        /\ Live.state (Track.liveState s') = NO_POSITION
        /\ Live.pendingPaperTrade (Track.liveState s') = None
        /\ Live.blockedAtMs (Track.liveState s') = None
        /\ Track.lastBlockedAtMs s' = None
        /\ Track.lastSignalAtMs s' = None)
    /\ Engine.lastResetDate (restarted savedAt now e) = Engine.lastResetDate e
    /\ Engine.lastResetTimestamp (restarted savedAt now e)
       = (if truthyN (Engine.lastResetTimestamp e)
          then Engine.lastResetTimestamp e else now)
    /\ Engine.ltpBySymbol (restarted savedAt now e) = ∅.
Proof.
  intros e savedAt now d. destruct d; simpl; repeat split; reflexivity.
Qed.

(** X2. A track saved in its position state comes back without its paper
    trade; the first tick it sees then puts it back to [NOPOSITION] with no
    threshold and no peak, sends nothing to the executor, and leaves the
    histories and the live sub-track as restored. *)
Theorem restart_in_position_resets_on_first_tick :
  forall (e : Engine.t) (savedAt now : N) (d : Direction)
         (symbol : string) (ltp : Q) (t : N),
    Track.fsmState (track d e) = positionState d ->
    let e' := restarted savedAt now e in
    let r := processTickTransition d symbol ltp t e' in
    Track.fsmState (track d r.1) = NOPOSITION
    /\ Track.threshold (track d r.1) = JNull
    /\ Track.currentPeakPnl (track d r.1) = None
    /\ Track.paperTrade (track d r.1) = None
    /\ Track.paperTrades (track d r.1) = Track.paperTrades (track d e)
    /\ Track.liveState (track d r.1) = Track.liveState (track d e')
    /\ r.2 = [].
Proof.
  intros e savedAt now d symbol ltp t Hfsm e' r. subst r.
  destruct (processTickTransition_track d symbol ltp t e') as [-> ->].
  assert (Hp : Track.paperTrade (track d e') = None) by (by destruct d).
  assert (Hf : Track.fsmState (track d e') = positionState d)
    by (destruct d; simpl in *; by rewrite Hfsm).
  assert (Hh : Track.paperTrades (track d e') = Track.paperTrades (track d e))
    by (by destruct d).
  unfold trackTick. rewrite (tickUpdate_flat _ _ _ _ _ Hp), Hf.
  rewrite FsmState_eqb_refl. simpl. by rewrite Hh.
Qed.

(** X3. A track saved while blocked comes back with no [lastBlockedAtMs], so no
    tick ever unblocks it: whatever ticks arrive, the track stays exactly
    as restored and nothing is emitted (only a new signal re-arms it). *)
Theorem restart_while_blocked_stays_blocked :
  forall (e : Engine.t) (savedAt now : N) (d : Direction)
         (ticks : list Tick.t),
    Track.fsmState (track d e) = NOPOSITION_BLOCKED ->
    let e' := restarted savedAt now e in
    track d (processTicks d ticks e').1 = track d e'
    /\ (processTicks d ticks e').2 = [].
Proof.
  intros e savedAt now d ticks Hfsm e'.
  assert (Hp : Track.paperTrade (track d e') = None) by (by destruct d).
  assert (Hf : Track.fsmState (track d e') = NOPOSITION_BLOCKED)
    by (destruct d; simpl in *; by rewrite Hfsm).
  assert (Hb : Track.lastBlockedAtMs (track d e') = None) by (by destruct d).
  clearbody e'. revert e' Hp Hf Hb.
  induction ticks as [|t rest IH]; intros e' Hp Hf Hb; [done|].
  simpl.
  destruct (processTickTransition_track d (Tick.symbol t) (Tick.price t)
              (Tick.at_ms t) e') as [Ht Hev].
  assert (Hsame : trackTick d (Tick.symbol t) (Tick.price t) (Tick.at_ms t)
                    (track d e') = (track d e', [])).
  { unfold trackTick. rewrite (tickUpdate_flat _ _ _ _ _ Hp), Hf.
    replace (FsmState_eqb NOPOSITION_BLOCKED (positionState d)) with false
      by (by destruct d).
    cbv beta iota zeta. destruct (isNull _); [done|].
    unfold tickSwitch. rewrite Hf, Hb.
    replace (FsmState_eqb NOPOSITION_BLOCKED (positionState d)) with false
      by (by destruct d).
    done. }
  rewrite Hsame in Ht, Hev.
  destruct (processTickTransition d _ _ _ e') as [e1 ev1]. simpl in *.
  subst ev1. rewrite <- Ht in Hp, Hf, Hb.
  destruct (IH e1 Hp Hf Hb) as [IH1 IH2].
  destruct (processTicks d rest e1) as [e2 ev2]. simpl in *.
  by rewrite IH1, IH2, Ht.
Qed.

(** ** The price table *)

Lemma processTickTransition_ltpBySymbol d symbol ltp now e :
  Engine.ltpBySymbol (processTickTransition d symbol ltp now e).1
  = Engine.ltpBySymbol e.
Proof.
  destruct d; simpl.
  - unfold processLongTickTransition.
    destruct (longTickUpdate _ _ _ _) as [s ev].
    destruct (isNull _); [done|]. by destruct (longTickSwitch _ _ _ _).
  - unfold processShortTickTransition.
    destruct (shortTickUpdate _ _ _ _) as [s ev].
    destruct (isNull _); [done|]. by destruct (shortTickSwitch _ _ _ _).
Qed.

(** X4. Every tick, for whatever symbol, is recorded in the price table: the
    last price of the tick's symbol is the tick's price and the prices of
    the other symbols are untouched. A tick whose symbol does not contain
    BTC does nothing else. *)
Theorem updateLtp_records_price :
  forall (symbol : string) (price : Q) (now : N) (e : Engine.t),
    let r := updateLtp symbol price now e in
    Engine.ltpBySymbol r.1 !! symbol = Some price
    /\ (forall other,
          other <> symbol ->
          Engine.ltpBySymbol r.1 !! other = Engine.ltpBySymbol e !! other)
    /\ (isBtc symbol = false ->
        r = (Engine.set_ltpBySymbol
               (<[symbol := price]> (Engine.ltpBySymbol e)) e, [])).
Proof.
  intros symbol price now e r.
  assert (H : Engine.ltpBySymbol r.1 = <[symbol := price]> (Engine.ltpBySymbol e)).
  { subst r. unfold updateLtp. destruct (negb (isBtc symbol)); [done|].
    set (e0 := Engine.set_ltpBySymbol _ e).
    pose proof (processTickTransition_ltpBySymbol LONG symbol price now e0)
      as HL. simpl in HL.
    destruct (processLongTickTransition symbol price now e0) as [e1 ev1].
    pose proof (processTickTransition_ltpBySymbol SHORT symbol price now e1)
      as HS. simpl in HS.
    destruct (processShortTickTransition symbol price now e1) as [e2 ev2].
    simpl in *. by rewrite HS, HL. }
  rewrite H. split; [apply lookup_insert_eq|]. split.
  - intros other Hne. by apply lookup_insert_ne.
  - intros Hbtc. subst r. unfold updateLtp. by rewrite Hbtc.
Qed.

(** ** Signals *)

(** X5. A signal without a symbol, or whose symbol does not contain BTC, is
    dropped: the engine is unchanged and nothing is emitted, not even a
    broadcast. Any other signal is broadcast once, lands on at most one
    track (LONG and SHORT are never both resolved), and leaves the price
    table and the reset fields alone. *)
Theorem processWebhookSignal_touches_one_track :
  forall (signal : Signal.t) (now : N) (e : Engine.t),
    let r := processWebhookSignal signal now e in
    (match Signal.symbol signal with
     | Some symbol => isBtc symbol = false
     | None => True
     end -> r = (e, []))
    /\ (match Signal.symbol signal with
        | Some symbol => isBtc symbol = true
        | None => False
        end -> r.2 = [BroadcastState])
    /\ isBuy signal && isSell signal = false
    /\ (isBuy signal = false -> Engine.longState r.1 = Engine.longState e)
    /\ (isBuy signal = true \/ isSell signal = false ->
        Engine.shortState r.1 = Engine.shortState e)
    /\ Engine.ltpBySymbol r.1 = Engine.ltpBySymbol e
    /\ Engine.fsmBySymbol r.1 = Engine.fsmBySymbol e
    /\ Engine.lastResetDate r.1 = Engine.lastResetDate e
    /\ Engine.lastResetTimestamp r.1 = Engine.lastResetTimestamp e.
Proof.
  intros signal now e r. subst r. unfold processWebhookSignal, isBtc.
  assert (Hex : isBuy signal && isSell signal = false).
  { destruct (isSell signal) eqn:E; [|apply andb_false_r].
    by rewrite (isSell_not_isBuy _ E). }
  destruct (Signal.symbol signal) as [[|c symbol]|]; try by repeat split.
  destruct (includes "BTC" (toUpperCase (String c symbol))); simpl;
    [|by repeat split].
  destruct (isBuy signal), (isSell signal); simpl; repeat split;
    try done; intros []; done.
Qed.

(** X6. On the track it resolves to, a signal for the tracked instrument never
    opens or closes a trade: it arms a flat or blocked track
    ([NOPOSITION_SIGNAL]) and leaves the state of a waiting or positioned
    track; the paper trade, the live sub-track, the histories, the peak and
    [lastBlockedAtMs] stay as they are; the signal is put in front of the
    ring, which is cut to 50, and [lastSignalAtMs] is its time. *)
Theorem processWebhookSignal_arms_track :
  forall (signal : Signal.t) (symbol : string) (now : N) (e : Engine.t),
    Signal.symbol signal = Some symbol ->
    isBtc symbol = true ->
    isBuy signal || isSell signal = true ->
    let d := if isBuy signal then LONG else SHORT in
    let s := track d e in
    let s' := track d (processWebhookSignal signal now e).1 in
    Track.fsmState s'
    = match Track.fsmState s with
      | NOPOSITION | NOPOSITION_BLOCKED => NOPOSITION_SIGNAL
      | other => other
      end
    /\ Track.paperTrade s' = Track.paperTrade s
    /\ Track.liveState s' = Track.liveState s
    /\ Track.paperTrades s' = Track.paperTrades s
    /\ Track.peakPnlHistory s' = Track.peakPnlHistory s
    /\ Track.currentPeakPnl s' = Track.currentPeakPnl s
    /\ Track.lastBlockedAtMs s' = Track.lastBlockedAtMs s
    /\ Track.lastSignalAtMs s' = Some now
    /\ Track.signals s'
       = take 50
           (SignalRecord.mk (if isBuy signal then BUY else SELL)
              (Signal.stoppx signal)
              (orNull (Engine.ltpBySymbol e !! toUpperCase symbol)) now
            :: Track.signals s)
    /\ (length (Track.signals s') <= 50)%nat.
Proof.
  intros signal symbol now e Hsym Hbtc Hres d s s'. subst d s s'.
  unfold processWebhookSignal. rewrite Hsym.
  destruct symbol as [|c symbol]; [done|].
  unfold isBtc in Hbtc. rewrite Hbtc. simpl negb. cbv iota.
  destruct (isBuy signal) eqn:Hb.
  - cbn -[firstn]. unfold armTrack. cbn -[firstn].
    destruct (Track.fsmState (Engine.longState e)) eqn:E; cbn -[firstn];
      rewrite ?E; repeat split; try done; rewrite length_take; lia.
  - simpl in Hres. rewrite Hres. cbn -[firstn]. unfold armTrack.
    cbn -[firstn].
    destruct (Track.fsmState (Engine.shortState e)) eqn:E; cbn -[firstn];
      rewrite ?E; repeat split; try done; rewrite length_take; lia.
Qed.

(** ** Bounded rings *)

Lemma checkLiveTrade_ledger d now s tot p sym :
  (length (Live.trades (Track.liveState s)) <= 50)%nat ->
  (length (Live.trades (Track.liveState (checkLiveTrade d now s tot p sym).1))
   <= 50)%nat.
Proof.
  unfold checkLiveTrade, closeLiveTrade, openLiveTrade.
  destruct s as [? ? ? ? ? ? []]. intros H.
  repeat (cbn -[firstn] in *; try case_match; simplify_eq);
    cbn -[firstn] in *; rewrite ?length_take; lia.
Qed.

Lemma closePaperTrade_ledger d now s x r :
  (length (Live.trades (Track.liveState s)) <= 50)%nat ->
  (length (Live.trades (Track.liveState (closePaperTrade d now s x r).1))
   <= 50)%nat.
Proof.
  unfold closePaperTrade, closeLiveTrade.
  destruct s as [? ? ? ? ? ? []]. intros H.
  repeat (cbn -[firstn] in *; try case_match; simplify_eq);
    cbn -[firstn] in *; rewrite ?length_take; lia.
Qed.

Lemma tickUpdate_ring d sym ltp now s :
  ring_ok s -> ring_ok (tickUpdate d sym ltp now s).1.
Proof.
  intros [Hs Hl]. unfold ring_ok.
  destruct (Track.paperTrade s) as [trade|] eqn:Hp.
  - rewrite (tickUpdate_open _ _ _ _ _ _ Hp).
    destruct (String.eqb _ _); [|done].
    split.
    + by rewrite checkLiveTrade_shape.
    + by apply checkLiveTrade_ledger.
  - rewrite (tickUpdate_flat _ _ _ _ _ Hp). by destruct (FsmState_eqb _ _).
Qed.

Lemma tickSwitch_ring d sym ltp now s :
  ring_ok s -> ring_ok (tickSwitch d sym ltp now s).1.
Proof.
  intros [Hs Hl]. unfold ring_ok, tickSwitch.
  assert (Ho : ring_ok (openPaperTrade d now
                          (Track.set_fsmState (positionState d) s) sym ltp)).
  { unfold openPaperTrade. by destruct (Track.paperTrade _). }
  assert (Hc : ring_ok (closePaperTrade d now s ltp "Stop Loss").1).
  { split; [|by apply closePaperTrade_ledger].
    destruct (Track.paperTrade s) as [trade|] eqn:Hp.
    - by rewrite (closePaperTrade_shape _ _ _ _ _ _ Hp).
    - by rewrite (closePaperTrade_none _ _ _ _ _ Hp). }
  destruct (closePaperTrade d now s ltp "Stop Loss") as [sc evc].
  destruct (FsmState_eqb (Track.fsmState s) NOPOSITION_SIGNAL),
    (breakout d ltp (Track.threshold s)),
    (FsmState_eqb (Track.fsmState s) (positionState d)),
    (stopHit d ltp (Track.threshold s)),
    (FsmState_eqb (Track.fsmState s) NOPOSITION_BLOCKED),
    (lockExpired (Track.lastBlockedAtMs s) now); simpl; done.
Qed.

Lemma trackTick_ring d sym ltp now s :
  ring_ok s -> ring_ok (trackTick d sym ltp now s).1.
Proof.
  intros H. unfold trackTick.
  pose proof (tickUpdate_ring d sym ltp now s H) as Hu.
  destruct (tickUpdate d sym ltp now s) as [su evu]. simpl in Hu.
  destruct (isNull _); [done|].
  pose proof (tickSwitch_ring d sym ltp now su Hu) as Hs.
  by destruct (tickSwitch d sym ltp now su).
Qed.

Lemma processWebhookSignal_ring d signal now e :
  ring_ok (track d e) ->
  ring_ok (track d (processWebhookSignal signal now e).1).
Proof.
  intros [Hs Hl]. unfold processWebhookSignal.
  destruct (Signal.symbol signal) as [[|c sym]|]; [done| |done].
  destruct (negb _); [done|].
  destruct (isBuy signal); [|destruct (isSell signal)];
    destruct d; cbn -[firstn]; try done;
    unfold ring_ok, armTrack; cbn -[firstn];
    case_match; cbn -[firstn]; (split; [rewrite length_take; lia|done]).
Qed.

Lemma generateAutoSignals_ring d now e :
  ring_ok (track d e) -> ring_ok (track d (generateAutoSignals now e).1).
Proof.
  intros H. unfold generateAutoSignals.
  destruct (Engine.ltpBySymbol e !! _) as [ltp|]; [|done].
  destruct (negb _); [done|].
  match goal with
  | |- context [processWebhookSignal ?sg now e] =>
      pose proof (processWebhookSignal_ring d sg now e H) as H1;
      destruct (processWebhookSignal sg now e) as [e1 ev1]
  end.
  match goal with
  | |- context [processWebhookSignal ?sg now e1] =>
      pose proof (processWebhookSignal_ring d sg now e1 H1) as H2;
      destruct (processWebhookSignal sg now e1) as [e2 ev2]
  end.
  done.
Qed.

Lemma resetTrack_ring s : ring_ok s -> ring_ok (resetTrack s).
Proof. intros [Hs Hl]. split; simpl; [lia|done]. Qed.

Lemma checkDailyReset_ring d tz now e :
  (forall d, ring_ok (track d e)) ->
  ring_ok (track d (checkDailyReset tz now e).1).
Proof.
  intros H. unfold checkDailyReset. destruct (_ && _); [|done].
  unfold performDailyReset.
  assert (HL : ring_ok
            (match Track.paperTrade (Engine.longState e) with
             | Some trade =>
                 closePaperTrade LONG now (Engine.longState e)
                   (resetExitPrice (Engine.ltpBySymbol e) trade) "Daily Reset"
             | None => (Engine.longState e, [])
             end).1).
  { destruct (Track.paperTrade (Engine.longState e)) as [tl|] eqn:Hp;
      [|exact (H LONG)].
    split; [|apply closePaperTrade_ledger; apply (H LONG)].
    rewrite (closePaperTrade_shape _ _ _ _ _ _ Hp). apply (H LONG). }
  assert (HS : ring_ok
            (match Track.paperTrade (Engine.shortState e) with
             | Some trade =>
                 closePaperTrade SHORT now (Engine.shortState e)
                   (resetExitPrice (Engine.ltpBySymbol e) trade) "Daily Reset"
             | None => (Engine.shortState e, [])
             end).1).
  { destruct (Track.paperTrade (Engine.shortState e)) as [ts|] eqn:Hp;
      [|exact (H SHORT)].
    split; [|apply closePaperTrade_ledger; apply (H SHORT)].
    rewrite (closePaperTrade_shape _ _ _ _ _ _ Hp). apply (H SHORT). }
  destruct (match Track.paperTrade (Engine.longState e) with
            | Some _ => _ | None => _ end) as [l evl].
  destruct (match Track.paperTrade (Engine.shortState e) with
            | Some _ => _ | None => _ end) as [sh evs].
  destruct d; simpl; by apply resetTrack_ring.
Qed.

(** X7. The signal ring and the live ledger of each track never hold more than
    50 entries: this is so in an engine started without a state file, and
    every call of the running engine (ticks, signals, the reset check, the
    signals it schedules) keeps it. *)
Theorem rings_hold_at_most_50 :
  (forall now d, ring_ok (track d (newEngine None now)))
  /\ (forall c e,
        (forall d, ring_ok (track d e)) ->
        forall d, ring_ok (track d (run c e).1)).
Proof.
  split.
  - intros now d. destruct d; split; simpl; lia.
  - intros c e H d. destruct c; simpl.
    + destruct (isBtc symbol) eqn:Hbtc.
      * rewrite (updateLtp_track d symbol price now e Hbtc).
        by apply trackTick_ring.
      * by destruct (updateLtp_not_btc d symbol price now e Hbtc) as [-> _].
    + by apply processWebhookSignal_ring.
    + by apply checkDailyReset_ring.
    + by apply generateAutoSignals_ring.
Qed.

(** ** Daily reset *)

Lemma closePaperTrade_trades d now s x r trade :
  Track.paperTrade s = Some trade ->
  Live.trades (Track.liveState (closePaperTrade d now s x r).1)
  = match Live.openTrade (Track.liveState s) with
    | Some ot =>
        take 50
          (exitRow d now x ot
             (Live.cumulativePnl (Track.liveState s) + paperRealized d x trade)
           :: Live.trades (Track.liveState s))
    | None => Live.trades (Track.liveState s)
    end.
Proof.
  intros H. unfold closePaperTrade, closeLiveTrade, exitRow, liveUnrealized.
  rewrite H. destruct s as [? ? ? ? ? [pk|] [? ? ? ? [ot|] ? ?]];
    cbn -[firstn] in *; try destruct (Qgtb pk 0); cbn -[firstn];
    by destruct d.
Qed.

Lemma closePaperTrade_no_schedule d now s x r :
  List.filter isSchedule (closePaperTrade d now s x r).2 = [].
Proof.
  destruct (Track.paperTrade s) as [trade|] eqn:H.
  - destruct (closePaperTrade_live d now s x r trade H)
      as (_ & _ & _ & _ & ->).
    by destruct (Live.openTrade _).
  - by rewrite closePaperTrade_none.
Qed.

(** What a track is after [performDailyReset], in terms of what it was. *)
Lemma performDailyReset_track d now e :
  track d (performDailyReset now e).1
  = resetTrack
      (match Track.paperTrade (track d e) with
       | Some trade =>
           closePaperTrade d now (track d e)
             (resetExitPrice (Engine.ltpBySymbol e) trade) "Daily Reset"
       | None => (track d e, [])
       end).1.
Proof.
  unfold performDailyReset.
  destruct (match Track.paperTrade (Engine.longState e) with
            | Some _ => _ | None => _ end) as [l evl] eqn:EL.
  destruct (match Track.paperTrade (Engine.shortState e) with
            | Some _ => _ | None => _ end) as [sh evs] eqn:ES.
  destruct d; simpl; [by rewrite EL|by rewrite ES].
Qed.

(** X8. The daily reset puts both tracks back to [NOPOSITION] with no
    threshold, no open paper or live trade, no pending reference, no
    lockout, an empty signal ring and a live PnL of zero; it empties the
    FSM display, sets [lastResetTimestamp] to the clock and keeps the price
    table. The histories are kept: a paper trade that was open is closed
    at the last known price of its symbol (its own current price when
    there is none) with reason "Daily Reset" and put in front of the
    history. The timer for the automatic signals is set once. *)
Theorem performDailyReset_effect :
  forall (now : N) (e : Engine.t) (d : Direction),
    let r := performDailyReset now e in
    let s := track d e in
    let s' := track d r.1 in
    (Track.fsmState s' = NOPOSITION
     /\ Track.threshold s' = JNull
     /\ Track.paperTrade s' = None
     /\ Track.currentPeakPnl s' = None
     /\ Track.signals s' = []
     /\ Track.lastSignalAtMs s' = None
     /\ Track.lastBlockedAtMs s' = None)
    /\ Track.liveState s'
       = Live.mk NO_POSITION 0 0 None None None
           (Live.trades (Track.liveState s'))
    /\ Track.paperTrades s'
       = match Track.paperTrade s with
         | Some trade =>
             closedRow d now (resetExitPrice (Engine.ltpBySymbol e) trade)
               "Daily Reset" trade :: Track.paperTrades s
         | None => Track.paperTrades s
         end
    /\ Engine.fsmBySymbol r.1 = ∅
    /\ Engine.lastResetTimestamp r.1 = now
    /\ Engine.ltpBySymbol r.1 = Engine.ltpBySymbol e
    /\ Engine.lastResetDate r.1 = Engine.lastResetDate e
    /\ List.filter isSchedule r.2 = [ScheduleAutoSignals].
Proof.
  intros now e d r s s'. subst r s s'.
  rewrite performDailyReset_track.
  split; [|split; [|split]].
  - destruct (Track.paperTrade (track d e)) as [trade|] eqn:Hp.
    + by rewrite (closePaperTrade_shape _ _ _ _ _ _ Hp).
    + by simpl.
  - done.
  - destruct (Track.paperTrade (track d e)) as [trade|] eqn:Hp.
    + by rewrite (closePaperTrade_shape _ _ _ _ _ _ Hp).
    + done.
  - unfold performDailyReset.
    pose proof (closePaperTrade_no_schedule LONG now (Engine.longState e)) as HL.
    pose proof (closePaperTrade_no_schedule SHORT now (Engine.shortState e)) as HS.
    destruct (Track.paperTrade (Engine.longState e)) as [tl|];
      [specialize (HL (resetExitPrice (Engine.ltpBySymbol e) tl) "Daily Reset");
       destruct (closePaperTrade LONG _ _ _ _) as [l evl]|];
      (destruct (Track.paperTrade (Engine.shortState e)) as [ts|];
       [specialize (HS (resetExitPrice (Engine.ltpBySymbol e) ts) "Daily Reset");
        destruct (closePaperTrade SHORT _ _ _ _) as [sh evs]|]);
      simpl in *; repeat split; try done;
      rewrite ?List.filter_app, ?HL, ?HS; done.
Qed.

Lemma specCumLivePnl_all_before lrt rows :
  Forall (fun r => forall c, TradeRow.closedAt r = Some c -> (c <= lrt)%N) rows ->
  specCumLivePnl lrt rows = 0.
Proof.
  unfold specCumLivePnl. induction 1 as [|r rows Hr _ IH]; [done|].
  simpl. replace (isExitAfter lrt r) with false; [done|].
  unfold isExitAfter. destruct (TradeRow.action r); [done|].
  destruct (TradeRow.closedAt r) as [c|]; [|done].
  symmetry. apply N.ltb_ge. by apply Hr.
Qed.

Lemma paper_fold_all_before lrt rows a :
  Forall (fun c => (ClosedPaperTrade.closedAt c <= lrt)%N) rows ->
  fold_left
    (fun sum t =>
       if truthyN (ClosedPaperTrade.closedAt t)
          && (lrt <? ClosedPaperTrade.closedAt t)%N
       then sum + ClosedPaperTrade.realizedPnl t
       else sum) rows a = a.
Proof.
  intros H. revert a. induction H as [|r rows Hr _ IH]; intros a; [done|].
  simpl. replace (lrt <? ClosedPaperTrade.closedAt r)%N with false
    by (symmetry; by apply N.ltb_ge).
  rewrite andb_false_r. apply IH.
Qed.

(** X9. Right after the daily reset, the day's cumulative figures of the
    snapshot are zero for both tracks, whatever the histories hold, as long
    as no row of them carries a closing time later than the reset: the rows
    kept from before, and the rows the reset itself writes when it closes
    open trades, are all closed at or before [lastResetTimestamp]. *)
Theorem figures_are_zero_after_reset :
  forall (now : N) (e : Engine.t) (d : Direction),
    closed_by now (track d e) ->
    let e' := (performDailyReset now e).1 in
    getCumLivePnl (Engine.lastResetTimestamp e')
      (Track.liveState (track d e')) == 0
    /\ getCumPaperPnl (Engine.lastResetTimestamp e') (track d e') == 0
    /\ closed_by now (track d e').
Proof.
  intros now e d [Hpaper Hlive] e'.
  assert (Hlrt : Engine.lastResetTimestamp e' = now).
  { subst e'. unfold performDailyReset.
    destruct (Track.paperTrade (Engine.longState e));
      [destruct (closePaperTrade LONG _ _ _ _)|];
      (destruct (Track.paperTrade (Engine.shortState e));
       [destruct (closePaperTrade SHORT _ _ _ _)|]); done. }
  assert (Hc : closed_by now (track d e')).
  { subst e'. rewrite performDailyReset_track.
    destruct (Track.paperTrade (track d e)) as [trade|] eqn:Hp; [|done].
    split.
    - rewrite (closePaperTrade_shape _ _ _ _ _ _ Hp). simpl.
      constructor; [simpl; lia|done].
    - simpl. rewrite (closePaperTrade_trades _ _ _ _ _ _ Hp).
      destruct (Live.openTrade _) as [ot|]; [|done].
      apply Forall_take. constructor; [|done].
      simpl. intros c Hceq. injection Hceq as <-. lia. }
  assert (Hnone : Track.paperTrade (track d e') = None)
    by apply performDailyReset_paperTrade.
  destruct Hc as [Hc1 Hc2]. rewrite Hlrt. split; [|split; [|done]].
  - unfold getCumLivePnl. rewrite getCumLivePnl_fold.
    rewrite (specCumLivePnl_all_before _ _ Hc2). ring.
  - unfold getCumPaperPnl. rewrite Hnone.
    rewrite (paper_fold_all_before _ _ _ Hc1). ring.
Qed.

(** ** The minute rule *)

(** X10. A lock set at [anchor] is over at [tick] only if [tick] is later, and
    it is always over 60 seconds after [anchor]: it lasts more than 0 and at
    most 60000 milliseconds. It is not over while the minute of [anchor]
    lasts. *)
Theorem isFirstSecondNextMinute_bounds :
  forall anchor tick : N,
    (isFirstSecondNextMinute anchor tick = true -> (anchor < tick)%N)
    /\ ((anchor + 60000 <= tick)%N ->
        isFirstSecondNextMinute anchor tick = true)
    /\ ((tick / 60000 = anchor / 60000)%N ->
        isFirstSecondNextMinute anchor tick = false).
Proof.
  intros anchor tick. unfold isFirstSecondNextMinute. repeat split.
  - intros H. apply N.ltb_lt in H.
    destruct (N.lt_ge_cases anchor tick) as [Hlt|Hge]; [done|].
    pose proof (N.Div0.div_le_mono tick anchor 60000 Hge). lia.
  - intros H. apply N.ltb_lt.
    pose proof (N.Div0.div_le_mono (anchor + 60000) tick 60000 H) as Hm.
    replace (anchor + 60000)%N with (anchor + 1 * 60000)%N in Hm by lia.
    rewrite N.div_add in Hm by lia. lia.
  - intros H. apply N.ltb_ge. lia.
Qed.

(** ** Live trades exist inside paper trades *)

Lemma checkLiveTrade_pending d now s tot p sym :
  Live.pendingPaperTrade (Track.liveState (checkLiveTrade d now s tot p sym).1)
  = Live.pendingPaperTrade (Track.liveState s).
Proof.
  unfold checkLiveTrade, closeLiveTrade, openLiveTrade.
  destruct s as [? ? ? ? ? ? []]. crunch.
Qed.

Lemma tickUpdate_live_within_paper d sym ltp now s :
  live_within_paper s -> live_within_paper (tickUpdate d sym ltp now s).1.
Proof.
  intros [H1 H2]. unfold live_within_paper.
  destruct (Track.paperTrade s) as [trade|] eqn:Hp.
  - rewrite (tickUpdate_open _ _ _ _ _ _ Hp).
    destruct (String.eqb _ _); [|simpl; rewrite Hp; by split].
    rewrite checkLiveTrade_pending. rewrite checkLiveTrade_shape. simpl.
    split; [by eexists|]. split; [by eexists|]. intros _. by apply H2.
  - rewrite (tickUpdate_flat _ _ _ _ _ Hp).
    destruct (FsmState_eqb _ _); simpl; by rewrite Hp.
Qed.

Lemma tickSwitch_live_within_paper d sym ltp now s :
  live_within_paper s -> live_within_paper (tickSwitch d sym ltp now s).1.
Proof.
  intros [H1 H2].
  assert (Ho : live_within_paper
                 (openPaperTrade d now
                    (Track.set_fsmState (positionState d) s) sym ltp)).
  { destruct (Track.paperTrade s) as [trade|] eqn:Hp.
    - rewrite (openPaperTrade_open _ _ _ _ _ trade) by done.
      split; simpl; by rewrite ?Hp.
    - rewrite openPaperTrade_flat by done. split; simpl.
      + by eexists.
      + split; by eexists. }
  assert (Hc : live_within_paper (closePaperTrade d now s ltp "Stop Loss").1).
  { destruct (Track.paperTrade s) as [trade|] eqn:Hp.
    - destruct (closePaperTrade_live d now s ltp "Stop Loss" trade Hp)
        as (Hot & Hpd & _).
      cbv zeta in *. unfold live_within_paper. rewrite Hot, Hpd.
      rewrite (closePaperTrade_shape _ _ _ _ _ _ Hp). simpl.
      split; [by intros []|]. split; by intros [].
    - rewrite (closePaperTrade_none _ _ _ _ _ Hp).
      unfold live_within_paper. simpl. rewrite Hp. by split. }
  unfold tickSwitch.
  destruct (closePaperTrade d now s ltp "Stop Loss") as [sc evc].
  destruct (FsmState_eqb (Track.fsmState s) NOPOSITION_SIGNAL),
    (breakout d ltp (Track.threshold s)),
    (FsmState_eqb (Track.fsmState s) (positionState d)),
    (stopHit d ltp (Track.threshold s)),
    (FsmState_eqb (Track.fsmState s) NOPOSITION_BLOCKED),
    (lockExpired (Track.lastBlockedAtMs s) now); simpl; done.
Qed.

Lemma trackTick_live_within_paper d sym ltp now s :
  live_within_paper s -> live_within_paper (trackTick d sym ltp now s).1.
Proof.
  intros H. unfold trackTick.
  pose proof (tickUpdate_live_within_paper d sym ltp now s H) as Hu.
  destruct (tickUpdate d sym ltp now s) as [su evu]. simpl in Hu.
  destruct (isNull _); [done|].
  pose proof (tickSwitch_live_within_paper d sym ltp now su Hu) as Hs.
  by destruct (tickSwitch d sym ltp now su).
Qed.

Lemma processWebhookSignal_paperTrade d signal now e :
  Track.paperTrade (track d (processWebhookSignal signal now e).1)
  = Track.paperTrade (track d e).
Proof.
  unfold processWebhookSignal.
  destruct (Signal.symbol signal) as [[|c sym]|]; [done| |done].
  destruct (negb _); [done|].
  destruct (isBuy signal); [|destruct (isSell signal)];
    destruct d; simpl; try done; unfold armTrack; by case_match.
Qed.

Lemma processWebhookSignal_live_within_paper d signal now e :
  live_within_paper (track d e) ->
  live_within_paper (track d (processWebhookSignal signal now e).1).
Proof.
  unfold live_within_paper.
  by rewrite processWebhookSignal_liveState, processWebhookSignal_paperTrade.
Qed.

Lemma generateAutoSignals_live_within_paper d now e :
  live_within_paper (track d e) ->
  live_within_paper (track d (generateAutoSignals now e).1).
Proof.
  intros H. unfold generateAutoSignals.
  destruct (Engine.ltpBySymbol e !! _) as [ltp|]; [|done].
  destruct (negb _); [done|].
  match goal with
  | |- context [processWebhookSignal ?sg now e] =>
      pose proof (processWebhookSignal_live_within_paper d sg now e H) as H1;
      destruct (processWebhookSignal sg now e) as [e1 ev1]
  end.
  match goal with
  | |- context [processWebhookSignal ?sg now e1] =>
      pose proof (processWebhookSignal_live_within_paper d sg now e1 H1) as H2;
      destruct (processWebhookSignal sg now e1) as [e2 ev2]
  end.
  done.
Qed.

Lemma performDailyReset_live_within_paper d now e :
  live_within_paper (track d (performDailyReset now e).1).
Proof.
  unfold live_within_paper. rewrite performDailyReset_paperTrade.
  rewrite performDailyReset_track. simpl.
  split; [by intros []|]. split; by intros [].
Qed.

Lemma live_within_paper_reachable e d :
  reachable e -> live_within_paper (track d e).
Proof.
  intros H. induction H as [file now|c e _ IH].
  - unfold newEngine, loadState. destruct file as [saved|].
    + destruct (Persisted.long saved), (Persisted.short saved), d; simpl;
        (split; [by intros []|]; split; by intros []).
    + destruct d; simpl; (split; [by intros []|]; split; by intros []).
  - destruct c; simpl.
    + destruct (isBtc symbol) eqn:Hbtc.
      * rewrite (updateLtp_track d symbol price now e Hbtc).
        by apply trackTick_live_within_paper.
      * by destruct (updateLtp_not_btc d symbol price now e Hbtc) as [-> _].
    + by apply processWebhookSignal_live_within_paper.
    + unfold checkDailyReset. destruct (_ && _); [|done].
      pose proof (performDailyReset_live_within_paper d now e) as Hp.
      destruct (performDailyReset now e) as [e1 ev1]. by destruct d.
    + by apply generateAutoSignals_live_within_paper.
Qed.

(** X11. In every reachable engine a live trade is open only while the paper
    trade of its track is open, and the pending reference from which a live
    trade takes its size is present exactly while a paper trade is open. *)
Theorem reachable_live_within_paper :
  forall (e : Engine.t) (d : Direction),
    reachable e -> live_within_paper (track d e).
Proof. intros e d. apply live_within_paper_reachable. Qed.

(** X12. In every reachable engine a track holds a trade only in its position
    state: when the paper trade, the live trade, or the live sub-track's
    [POSITION] is there, the LONG track is in [BUYPOSITION] and the SHORT
    track in [SELLPOSITION]. (Not the other way round: a restarted track
    can be in its position state with no trade.) *)
Theorem reachable_trades_only_in_position_state :
  forall (e : Engine.t) (d : Direction),
    reachable e ->
    (is_Some (Track.paperTrade (track d e))
     \/ is_Some (Live.openTrade (Track.liveState (track d e)))
     \/ Live.state (Track.liveState (track d e)) = POSITION) ->
    Track.fsmState (track d e) = positionState d.
Proof.
  intros e d H Ht.
  destruct (live_within_paper_reachable e d H) as [Hlp _].
  pose proof (reachable_live_inv e H) as Hli.
  assert (Hl : live_inv (Track.liveState (track d e))).
  { destruct Hli as [Hl1 Hl2]. by destruct d. }
  assert (Hp : is_Some (Track.paperTrade (track d e))).
  { destruct Ht as [Hp | [Ho | Hs]]; [done | by apply Hlp |].
    apply Hlp. by apply Hl. }
  destruct (reachable_paper_inv d e H) as [Hn | Hf]; [|done].
  rewrite Hn in Hp. by destruct Hp.
Qed.


(** ** Stops and PnL *)

Lemma Qmult_neg_pos x y : x < 0 -> 0 < y -> x * y < 0.
Proof.
  intros Hx Hy. apply Qlt_le_trans with (0 * y).
  - by apply Qmult_lt_compat_r.
  - rewrite Qmult_0_l. apply Qle_refl.
Qed.

Lemma Qminus_neg x y : x < y -> x - y < 0.
Proof.
  intros H. apply Qlt_le_trans with (y - y).
  - unfold Qminus. by apply Qplus_lt_l.
  - apply Qle_lteq. right. ring.
Qed.

Lemma Qgtb_gt x y : Qgtb x y = true <-> y < x.
Proof. unfold Qgtb. apply Qltb_lt. Qed.

(** X13. A paper trade whose entry price lies beyond the threshold on the
    breakout side is stopped at a loss: when a tick hits the stop at that
    threshold, the track goes to [NOPOSITION_BLOCKED] at the tick's time
    and the closed trade, put in front of the history with reason
    "Stop Loss" and the tick's price as exit price, has a negative
    realized PnL. (A stop in profit needs a signal that moved the threshold
    past the entry price.) *)
Theorem stop_at_breakout_threshold_is_a_loss :
  forall (d : Direction) (symbol : string) (ltp thr : Q) (now : N)
         (e : Engine.t) (trade : PaperTrade.t),
    Track.paperTrade (track d e) = Some trade ->
    Track.fsmState (track d e) = positionState d ->
    Track.threshold (track d e) = JNum thr ->
    breakout d (PaperTrade.entryPrice trade) (JNum thr) = true ->
    0 < PaperTrade.quantity trade ->
    stopHit d ltp (JNum thr) = true ->
    let s' := track d (processTickTransition d symbol ltp now e).1 in
    Track.fsmState s' = NOPOSITION_BLOCKED
    /\ Track.lastBlockedAtMs s' = Some now
    /\ Track.paperTrade s' = None
    /\ exists closed,
         Track.paperTrades s' = closed :: Track.paperTrades (track d e)
         /\ PaperTrade.entryPrice (ClosedPaperTrade.trade closed)
            = PaperTrade.entryPrice trade
         /\ ClosedPaperTrade.exitPrice closed = ltp
         /\ ClosedPaperTrade.reason closed = "Stop Loss"
         /\ ClosedPaperTrade.realizedPnl closed < 0.
Proof.
  intros d symbol ltp thr now e trade Hp Hfsm Hthr Hbreak Hq Hstop s'.
  subst s'.
  destruct (processTickTransition_track d symbol ltp now e) as [-> _].
  unfold trackTick.
  destruct (tickUpdate_open_shape d symbol ltp now _ trade Hp)
    as (tr1 & pk & l1 & ev1 & -> & Htr1).
  cbv zeta. simpl Track.threshold. rewrite Hthr. simpl isNull. cbv iota.
  unfold tickSwitch. simpl Track.fsmState. rewrite Hfsm.
  rewrite FsmState_eqb_refl.
  replace (FsmState_eqb (positionState d) NOPOSITION_SIGNAL) with false
    by (by destruct d).
  simpl Track.threshold. rewrite Hstop.
  erewrite closePaperTrade_shape by reflexivity. simpl.
  repeat split. eexists. split; [reflexivity|]. simpl.
  assert (He : PaperTrade.entryPrice tr1 = PaperTrade.entryPrice trade)
    by (by destruct Htr1 as [-> | ->]).
  assert (Hq1 : PaperTrade.quantity tr1 = PaperTrade.quantity trade)
    by (by destruct Htr1 as [-> | ->]).
  repeat split; try done.
  unfold paperRealized. rewrite He, Hq1.
  destruct d; simpl in Hbreak, Hstop;
    (apply Qmult_neg_pos; [|done]); apply Qminus_neg.
  - apply Qgtb_gt in Hbreak. apply Qltb_lt in Hstop.
    by apply Qlt_trans with thr.
  - apply Qltb_lt in Hbreak. apply Qgtb_gt in Hstop.
    by apply Qlt_trans with thr.
Qed.

Lemma Qmult_pos_sign a c :
  0 < c -> (0 < a * c <-> 0 < a) /\ (a * c < 0 <-> a < 0).
Proof.
  destruct a as [an ad], c as [cn cd]. unfold Qlt, Qmult. simpl.
  rewrite !Z.mul_1_r. intros Hc. split; split; nia.
Qed.

Lemma Qminus_pos x y : 0 < x - y <-> y < x.
Proof.
  destruct x as [xn xd], y as [yn yd].
  unfold Qlt, Qminus, Qplus, Qopp. simpl. split; nia.
Qed.

Lemma Qminus_neg_iff x y : x - y < 0 <-> x < y.
Proof.
  destruct x as [xn xd], y as [yn yd].
  unfold Qlt, Qminus, Qplus, Qopp. simpl. split; nia.
Qed.

(** X14. A paper trade opened on a flat track at a positive price [p] has
    entry price [p], a positive quantity and an unrealized PnL of 0, and
    the pending reference for the live trade has the same entry price and
    quantity, lot 1 and the clock. The PnL that a tick at price [q] gives
    the trade has the sign of the move in the trade's direction: a LONG
    trade is in profit exactly when [q] is above [p] and in loss exactly
    when it is below, a SHORT trade the other way round. *)
Theorem openPaperTrade_profit_sign :
  forall (d : Direction) (now : N) (s : Track.t) (symbol : string) (p : Q),
    Track.paperTrade s = None ->
    0 < p ->
    exists trade,
      Track.paperTrade (openPaperTrade d now s symbol p) = Some trade
      /\ PaperTrade.entryPrice trade = p
      /\ PaperTrade.unrealizedPnl trade = 0
      /\ 0 < PaperTrade.quantity trade
      /\ Live.pendingPaperTrade
           (Track.liveState (openPaperTrade d now s symbol p))
         = Some (Pending.mk p (PaperTrade.quantity trade) 1 now)
      /\ forall q,
           (0 < paperUnrealized d q trade
            <-> match d with LONG => p < q | SHORT => q < p end)
           /\ (paperUnrealized d q trade < 0
               <-> match d with LONG => q < p | SHORT => p < q end).
Proof.
  intros d now s symbol p Hp Hpos.
  rewrite openPaperTrade_flat by done. eexists. split; [reflexivity|].
  simpl.
  assert (Hq : 0 < POSITION_SIZE / p).
  { unfold Qdiv. apply Qmult_lt_0_compat; [reflexivity|].
    by apply Qinv_lt_0_compat. }
  repeat split; try done.
  all: destruct d; simpl;
    destruct (Qmult_pos_sign (q - p) _ Hq) as [H1 H2];
    destruct (Qmult_pos_sign (p - q) _ Hq) as [H3 H4];
    rewrite ?H1, ?H2, ?H3, ?H4;
    try apply Qminus_pos; try apply Qminus_neg_iff.
Qed.

(** ** The live lockout *)

(** X15. After a protective close at time [b], the live sub-track is not
    promoted again while the minute of [b] lasts, however high the total
    PnL: [checkLiveTrade] changes nothing and emits nothing. At the first
    check in a later minute with a positive total, the lockout is cleared
    and the live trade is opened (one ENTRY, at the current price). *)
Theorem live_lockout_until_next_minute :
  forall (d : Direction) (now b : N) (s : Track.t) (tot p : Q)
         (symbol : string) (pd : Pending.t),
    Live.state (Track.liveState s) = NO_POSITION ->
    Live.openTrade (Track.liveState s) = None ->
    Live.pendingPaperTrade (Track.liveState s) = Some pd ->
    Live.blockedAtMs (Track.liveState s) = Some b ->
    (0 < b)%N ->
    0 < tot ->
    let r := checkLiveTrade d now s tot p symbol in
    ((minuteOf now <= minuteOf b)%N -> r = (s, []))
    /\ ((minuteOf b < minuteOf now)%N ->
        r.2 = [SendLiveSignal ENTRY symbol p d]
        /\ Live.state (Track.liveState r.1) = POSITION
        /\ Live.openTrade (Track.liveState r.1)
           = Some (OpenTrade.mk now symbol p (Pending.quantity pd)
                     (Pending.lot pd))
        /\ Live.blockedAtMs (Track.liveState r.1) = None).
Proof.
  intros d now b s tot p symbol pd Hst Hot Hpd Hblk Hb Htot r. subst r.
  split.
  - intros Hmin.
    destruct s as [? ? ? ? ? ? [st cum unr blk ot0 pd0 rows]].
    simpl in *. subst. unfold checkLiveTrade. simpl.
    pose proof (lockExpired_le b now Hmin) as Hle. simpl in Hle.
    rewrite Hle. simpl. rewrite (truthyN_pos b Hb). simpl. done.
  - intros Hmin.
    pose proof (lockExpired_gt b now Hb Hmin) as Hgt.
    destruct (checkLiveTrade_promote d now s tot p symbol pd Hst Hpd
                ltac:(right; by rewrite Hblk) Htot)
      as (Hev & Ho & Hs & _).
    repeat split; try done.
    apply Qltb_lt in Htot.
    destruct s as [? ? ? ? ? ? [st cum unr blk ot0 pd0 rows]].
    simpl in *. subst. unfold checkLiveTrade, openLiveTrade. simpl.
    simpl in Hgt. rewrite Hgt. simpl.
    unfold Qgtb, OPEN_THRESHOLD. rewrite Htot. by simpl.
Qed.

(** ** What a tick can send *)

(** X16. Whatever the state of the engine, one tick sends at most one ENTRY and
    at most one EXIT to the executor for a track, and closes at most one
    live trade. *)
Theorem tick_sends_at_most_one_entry_and_exit :
  forall (d : Direction) (symbol : string) (ltp : Q) (now : N) (e : Engine.t),
    let r := processTickTransition d symbol ltp now e in
    (countSends ENTRY r.2 <= 1)%nat
    /\ (countSends EXIT r.2 <= 1)%nat
    /\ (length (List.filter isCloseLog r.2) <= 1)%nat.
Proof.
  intros d symbol ltp now e r. subst r.
  destruct (processTickTransition_track d symbol ltp now e) as [_ ->].
  set (s := track d e). clearbody s. unfold trackTick, countSends.
  assert (Hu : exists s1 ev1,
             tickUpdate d symbol ltp now s = (s1, ev1)
             /\ (ev1 = []
                 \/ ev1 = [SendLiveSignal ENTRY symbol ltp d]
                 \/ exists osym,
                      ev1 = [LogLiveClosed d "Protective" osym ltp;
                             SendLiveSignal EXIT osym ltp d]
                      /\ Live.openTrade (Track.liveState s1) = None)).
  { destruct (Track.paperTrade s) as [trade|] eqn:Hp.
    - rewrite (tickUpdate_open _ _ _ _ _ _ Hp).
      destruct (String.eqb _ _); [|by eexists _, _; split; [|left]].
      match goal with
      | |- context [checkLiveTrade d now ?s0 ?tot ltp symbol] =>
          pose proof (checkLiveTrade_events d now s0 tot ltp symbol) as Hc;
          destruct (checkLiveTrade d now s0 tot ltp symbol) as [s1 ev1]
      end.
      by exists s1, ev1.
    - rewrite (tickUpdate_flat _ _ _ _ _ Hp).
      eexists _, _. split; [done|by left]. }
  destruct Hu as (s1 & ev1 & -> & Hev1).
  destruct (isNull _).
  { simpl. destruct Hev1 as [->|[->|(osym & -> & _)]]; simpl; lia. }
  pose proof (tickSwitch_events d symbol ltp now s1) as Hs.
  destruct (tickSwitch d symbol ltp now s1) as [s2 ev2]. simpl in *.
  destruct Hev1 as [->|[->|(osym & -> & Hnone)]];
    destruct Hs as [->|[->|(osym2 & Hopen & ->)]]; simpl; try lia.
  rewrite Hnone in Hopen. by destruct Hopen.
Qed.

(** ** Histories *)

Ltac kept_none := exists []; split; [done | simpl; lia].
Ltac kept_one := eexists [_]; split; [done | simpl; lia].

Lemma history_kept_same s s' :
  Track.paperTrades s' = Track.paperTrades s ->
  Track.peakPnlHistory s' = Track.peakPnlHistory s ->
  isSome (Track.paperTrade s') = isSome (Track.paperTrade s) ->
  history_kept s s'.
Proof.
  intros H1 H2 H3. unfold history_kept, paperTradeCount.
  rewrite H1, H2, H3. split; [kept_none|]. split; [kept_none|lia].
Qed.

Lemma history_kept_trans a b c :
  Track.paperTrades b = Track.paperTrades a ->
  Track.peakPnlHistory b = Track.peakPnlHistory a ->
  isSome (Track.paperTrade b) = isSome (Track.paperTrade a) ->
  history_kept b c -> history_kept a c.
Proof.
  intros H1 H2 H3. unfold history_kept, paperTradeCount.
  by rewrite H1, H2, H3.
Qed.

Lemma closePaperTrade_history d now s x r :
  history_kept s (closePaperTrade d now s x r).1.
Proof.
  destruct (Track.paperTrade s) as [trade|] eqn:Hp.
  - rewrite (closePaperTrade_shape _ _ _ _ _ _ Hp).
    unfold history_kept, paperTradeCount. rewrite Hp. simpl.
    split; [kept_one|]. split; [|lia].
    unfold archivedPeaks. destruct (Track.currentPeakPnl s) as [pk|].
    + destruct (Qgtb pk 0); [kept_one|kept_none].
    + kept_none.
  - rewrite (closePaperTrade_none _ _ _ _ _ Hp). by apply history_kept_same.
Qed.

Lemma tickSwitch_history d sym ltp now s :
  history_kept s (tickSwitch d sym ltp now s).1.
Proof.
  assert (Ho : history_kept s
                 (openPaperTrade d now
                    (Track.set_fsmState (positionState d) s) sym ltp)).
  { destruct (Track.paperTrade s) as [trade|] eqn:Hp.
    - rewrite (openPaperTrade_open _ _ _ _ _ trade) by done.
      by apply history_kept_same.
    - rewrite openPaperTrade_flat by done.
      unfold history_kept, paperTradeCount. rewrite Hp. simpl.
      split; [kept_none|]. split; [kept_none|lia]. }
  pose proof (closePaperTrade_history d now s ltp "Stop Loss") as Hc.
  assert (Hr : history_kept s s) by (by apply history_kept_same).
  assert (Hb : forall t, history_kept s (Track.set_lastBlockedAtMs t s))
    by (intros t; by apply history_kept_same).
  assert (Hb2 : forall t f,
             history_kept s
               (Track.set_lastBlockedAtMs t (Track.set_fsmState f s)))
    by (intros t f; by apply history_kept_same).
  unfold tickSwitch.
  destruct (closePaperTrade d now s ltp "Stop Loss") as [sc evc].
  assert (Hc2 : forall t f,
             history_kept s
               (Track.set_lastBlockedAtMs t (Track.set_fsmState f sc)))
    by (intros t f; by apply (history_kept_trans s s)).
  destruct (FsmState_eqb (Track.fsmState s) NOPOSITION_SIGNAL),
    (breakout d ltp (Track.threshold s)),
    (FsmState_eqb (Track.fsmState s) (positionState d)),
    (stopHit d ltp (Track.threshold s)),
    (FsmState_eqb (Track.fsmState s) NOPOSITION_BLOCKED),
    (lockExpired (Track.lastBlockedAtMs s) now); simpl in *; done.
Qed.

Lemma trackTick_history d sym ltp now s :
  history_kept s (trackTick d sym ltp now s).1.
Proof.
  unfold trackTick.
  assert (Hu : exists s1 ev1,
             tickUpdate d sym ltp now s = (s1, ev1)
             /\ Track.paperTrades s1 = Track.paperTrades s
             /\ Track.peakPnlHistory s1 = Track.peakPnlHistory s
             /\ isSome (Track.paperTrade s1) = isSome (Track.paperTrade s)).
  { destruct (Track.paperTrade s) as [trade|] eqn:Hp.
    - destruct (tickUpdate_open_shape d sym ltp now s trade Hp)
        as (tr1 & pk & l1 & ev1 & -> & _).
      by eexists _, _.
    - rewrite (tickUpdate_flat _ _ _ _ _ Hp).
      eexists _, _. split; [done|].
      destruct (FsmState_eqb _ _); simpl; by rewrite Hp. }
  destruct Hu as (s1 & ev1 & -> & H1 & H2 & H3).
  destruct (isNull _); [by apply history_kept_same|].
  pose proof (tickSwitch_history d sym ltp now s1) as Hs.
  destruct (tickSwitch d sym ltp now s1) as [s2 ev2]. simpl.
  by apply (history_kept_trans s s1 s2).
Qed.

Lemma processWebhookSignal_histories d signal now e :
  Track.paperTrades (track d (processWebhookSignal signal now e).1)
  = Track.paperTrades (track d e)
  /\ Track.peakPnlHistory (track d (processWebhookSignal signal now e).1)
     = Track.peakPnlHistory (track d e).
Proof.
  unfold processWebhookSignal.
  destruct (Signal.symbol signal) as [[|c sym]|]; [done| |done].
  destruct (negb _); [done|].
  destruct (isBuy signal); [|destruct (isSell signal)];
    destruct d; simpl; try done; unfold armTrack; by case_match.
Qed.

Lemma generateAutoSignals_histories d now e :
  Track.paperTrades (track d (generateAutoSignals now e).1)
  = Track.paperTrades (track d e)
  /\ Track.peakPnlHistory (track d (generateAutoSignals now e).1)
     = Track.peakPnlHistory (track d e)
  /\ Track.paperTrade (track d (generateAutoSignals now e).1)
     = Track.paperTrade (track d e).
Proof.
  unfold generateAutoSignals.
  destruct (Engine.ltpBySymbol e !! _) as [ltp|]; [|done].
  destruct (negb _); [done|].
  match goal with
  | |- context [processWebhookSignal ?sg now e] =>
      pose proof (processWebhookSignal_histories d sg now e) as [H1 H1'];
      pose proof (processWebhookSignal_paperTrade d sg now e) as P1;
      destruct (processWebhookSignal sg now e) as [e1 ev1]
  end.
  match goal with
  | |- context [processWebhookSignal ?sg now e1] =>
      pose proof (processWebhookSignal_histories d sg now e1) as [H2 H2'];
      pose proof (processWebhookSignal_paperTrade d sg now e1) as P2;
      destruct (processWebhookSignal sg now e1) as [e2 ev2]
  end.
  simpl in *. by rewrite H2, H2', P2, H1, H1', P1.
Qed.

(** X17. The histories are only added to: whatever call the running engine
    takes (a tick, a signal, the reset check, the automatic signals), each
    track's [paperTrades] and [peakPnlHistory] afterwards are the ones
    before with at most one new entry in front, and the paper trade count
    of the snapshot (closed trades plus the open one) never goes down and
    grows by at most one. *)
Theorem histories_are_only_added_to :
  forall (c : Call) (e : Engine.t) (d : Direction),
    history_kept (track d e) (track d (run c e).1).
Proof.
  intros c e d. destruct c; simpl.
  - destruct (isBtc symbol) eqn:Hbtc.
    + rewrite (updateLtp_track d symbol price now e Hbtc).
      apply trackTick_history.
    + destruct (updateLtp_not_btc d symbol price now e Hbtc) as [-> _].
      by apply history_kept_same.
  - destruct (processWebhookSignal_histories d signal now e) as [H1 H2].
    apply history_kept_same; [done|done|].
    by rewrite processWebhookSignal_paperTrade.
  - unfold checkDailyReset. destruct (_ && _);
      [|by apply history_kept_same].
    pose proof (performDailyReset_track d now e) as Ht.
    destruct (performDailyReset now e) as [e1 ev1]. simpl in *.
    assert (Ht' : track d (Engine.set_lastResetDate
                             (Some (istDateStr tzOffset now)) e1)
                  = track d e1) by (by destruct d).
    rewrite Ht', Ht.
    destruct (Track.paperTrade (track d e)) as [trade|] eqn:Hp.
    + pose proof (closePaperTrade_history d now (track d e)
                    (resetExitPrice (Engine.ltpBySymbol e) trade)
                    "Daily Reset") as Hc.
      destruct (closePaperTrade d now (track d e) _ _) as [sc evc].
      simpl in *. unfold history_kept, paperTradeCount in *. by simpl.
    + simpl fst. apply history_kept_same; unfold resetTrack; by simpl.
  - destruct (generateAutoSignals_histories d now e) as (H1 & H2 & H3).
    apply history_kept_same; [done|done|by rewrite H3].
Qed.

(** ** Automatic signals *)

Lemma performDailyReset_flat now e d :
  Track.fsmState (track d (performDailyReset now e).1) = NOPOSITION
  /\ Engine.ltpBySymbol (performDailyReset now e).1 = Engine.ltpBySymbol e.
Proof.
  split.
  - rewrite performDailyReset_track.
    destruct (Track.paperTrade (track d e)) as [trade|] eqn:Hp.
    + by rewrite (closePaperTrade_shape _ _ _ _ _ _ Hp).
    + done.
  - unfold performDailyReset.
    destruct (Track.paperTrade (Engine.longState e)) as [tl|];
      [destruct (closePaperTrade LONG _ _ _ _) as [l evl]|];
      (destruct (Track.paperTrade (Engine.shortState e)) as [ts|];
       [destruct (closePaperTrade SHORT _ _ _ _) as [sh evs]|]); done.
Qed.

Lemma processWebhookSignal_btcusdt intent stoppx side now e :
  processWebhookSignal
    (Signal.mk (Some "BTCUSDT") intent stoppx (Some side)) now e
  = let ltp := Engine.ltpBySymbol e !! "BTCUSDT" in
    let record := SignalRecord.mk side stoppx (orNull ltp) now in
    match side with
    | BUY =>
        (Engine.set_longState
           (armTrack
              (Track.set_lastSignalAtMs (Some now)
                 (Track.set_threshold (orLtp stoppx ltp)
                    (Track.set_signals
                       (take 50 (record :: Track.signals (Engine.longState e)))
                       (Engine.longState e))))) e, [BroadcastState])
    | SELL =>
        (Engine.set_shortState
           (armTrack
              (Track.set_lastSignalAtMs (Some now)
                 (Track.set_threshold (ofLookup ltp)
                    (Track.set_signals
                       (take 50 (record :: Track.signals (Engine.shortState e)))
                       (Engine.shortState e))))) e, [BroadcastState])
    end.
Proof. by destruct side. Qed.

(** X18. The signals generated after the daily reset re-arm both tracks from the
    last price [p] of BTCUSDT: the SHORT track waits at threshold [p], the
    LONG track at [p - 50] (at [p] itself when [p - 50] is zero), and two
    broadcasts are sent. With no price for BTCUSDT, or a price of zero,
    nothing is generated. *)
Theorem auto_signals_rearm_after_reset :
  forall (now t : N) (e : Engine.t),
    let e1 := (performDailyReset now e).1 in
    let r := generateAutoSignals t e1 in
    (forall p,
       Engine.ltpBySymbol e !! "BTCUSDT" = Some p ->
       truthyQ p = true ->
       Track.fsmState (Engine.longState r.1) = NOPOSITION_SIGNAL
       /\ Track.threshold (Engine.longState r.1)
          = (if Qeq_bool (p - 50) 0 then JNum p else JNum (p - 50))
       /\ Track.fsmState (Engine.shortState r.1) = NOPOSITION_SIGNAL
       /\ Track.threshold (Engine.shortState r.1) = JNum p
       /\ r.2 = [BroadcastState; BroadcastState])
    /\ (Engine.ltpBySymbol e !! "BTCUSDT" = None
        \/ (exists p,
              Engine.ltpBySymbol e !! "BTCUSDT" = Some p
              /\ truthyQ p = false) ->
        r = (e1, [])).
Proof.
  intros now t e e1 r.
  destruct (performDailyReset_flat now e LONG) as [FL Hltp].
  destruct (performDailyReset_flat now e SHORT) as [FS _].
  simpl in FL, FS, Hltp. fold e1 in FL, FS, Hltp.
  subst r. clearbody e1. unfold generateAutoSignals. rewrite Hltp.
  split.
  - intros p Hp Ht. rewrite Hp, Ht. simpl negb. cbv iota.
    rewrite processWebhookSignal_btcusdt. cbv beta zeta iota.
    rewrite processWebhookSignal_btcusdt. cbv beta zeta iota.
    cbn [fst snd Engine.ltpBySymbol Engine.set_longState
         Engine.longState Engine.shortState Engine.set_shortState].
    rewrite Hltp, Hp. unfold armTrack.
    cbn [Track.fsmState Track.set_lastSignalAtMs Track.set_threshold
         Track.set_signals Track.threshold Track.set_fsmState].
    rewrite FL, FS.
    cbn [Track.fsmState Track.set_fsmState Track.threshold app].
    unfold orLtp, truthyQ, ofLookup.
    destruct (Qeq_bool (p - 50) 0); by simpl.
  - intros [Hn|(p & Hp & Ht)].
    + by rewrite Hn.
    + by rewrite Hp, Ht.
Qed.

(** ** Reconnecting the feed sockets *)

Lemma Reconnect_step_ok ev s :
  Reconnect.ok s ->
  Reconnect.ok (Reconnect.step ev s).1
  /\ Forall Reconnect.in_range (Reconnect.step ev s).2.
Proof.
  unfold Reconnect.ok, Reconnect.in_range.
  destruct s as [dl tm]; simpl. intros [Hd Ht].
  destruct ev; simpl.
  - split; [split; [lia | done] | constructor].
  - unfold Reconnect.scheduleReconnect; simpl.
    destruct tm; simpl.
    + split; [done | constructor].
    + split; [done | constructor; [done | constructor]].
  - split; [done | constructor].
  - destruct tm; simpl.
    + split; [split; [lia | done] | constructor].
    + split; [done | constructor].
Qed.

Lemma Reconnect_steps_ok evs : forall s,
  Reconnect.ok s ->
  Reconnect.ok (Reconnect.steps evs s).1
  /\ Forall Reconnect.in_range (Reconnect.steps evs s).2.
Proof.
  induction evs as [|ev evs IH]; intros s Hs; simpl.
  - split; [done | constructor].
  - destruct (Reconnect_step_ok ev s Hs) as [H1 H2].
    destruct (Reconnect.step ev s) as [s1 t1]; simpl in *.
    destruct (IH s1 H1) as [H3 H4].
    destruct (Reconnect.steps evs s1) as [s2 t2]; simpl in *.
    split; [done | by apply Forall_app].
Qed.

(** X19. Whatever the socket does (opens, closes, errors, in any order and any
    number of times), the reconnect delay stays between 1 and 30 seconds,
    and so does the delay of every timer that is set. *)
Theorem reconnect_delay_between_1s_and_30s :
  forall evs : list Reconnect.Ev,
    let r := Reconnect.steps evs Reconnect.initial in
    Reconnect.in_range (Reconnect.reconnectDelayMs r.1)
    /\ Forall Reconnect.in_range r.2.
Proof.
  intros evs r.
  assert (H0 : Reconnect.ok Reconnect.initial).
  { unfold Reconnect.ok, Reconnect.in_range; simpl. split; [lia | done]. }
  destruct (Reconnect_steps_ok evs _ H0) as [[H1 _] H2].
  by split.
Qed.

Lemma Reconnect_failures n : forall (d0 : N) (k : nat),
  (d0 <= 30000)%N ->
  (k < n)%nat ->
  (Reconnect.steps (Reconnect.failures n) (Reconnect.mk d0 None)).2 !! k
  = Some (N.min (d0 * 2 ^ N.of_nat k) 30000).
Proof.
  induction n as [|n IH]; intros d0 k Hd Hk; [lia|].
  simpl.
  unfold Reconnect.scheduleReconnect, Reconnect.onTimer; simpl.
  specialize (IH (N.min (d0 * 2) 30000)).
  destruct (Reconnect.steps (Reconnect.failures n)
              (Reconnect.mk (N.min (d0 * 2) 30000) None)) as [s2 t2] eqn:E.
  simpl in *.
  destruct k as [|k]; simpl.
  - f_equal. rewrite N.mul_1_r. lia.
  - rewrite (IH k) by lia. f_equal.
    replace (N.of_nat (S k)) with (N.succ (N.of_nat k)) by lia.
    rewrite N.pow_succ_r'.
    assert (Hp : (1 <= 2 ^ N.of_nat k)%N).
    { assert (2 ^ N.of_nat k <> 0)%N by (apply N.pow_nonzero; lia). lia. }
    destruct (N.le_gt_cases (d0 * 2) 30000) as [Hle | Hgt].
    + rewrite (N.min_l (d0 * 2) 30000) by done.
      f_equal. lia.
    + rewrite (N.min_r (d0 * 2) 30000) by lia.
      rewrite !N.min_r; [done | nia | nia].
Qed.

(** X20. Exponential backoff: when the connection fails [n] times in a row from
    the start (each time the socket closes and the timer fires, with no
    successful open in between), the retry number [k] (counted from 0)
    waits [min (1000 * 2^k) 30000] milliseconds: 1, 2, 4, 8, 16 seconds and
    30 seconds from then on. *)
Theorem reconnect_backoff_doubles_up_to_30s :
  forall n k : nat,
    (k < n)%nat ->
    (Reconnect.steps (Reconnect.failures n) Reconnect.initial).2 !! k
    = Some (N.min (1000 * 2 ^ N.of_nat k) 30000).
Proof.
  intros n k Hk. apply Reconnect_failures; [lia | done].
Qed.

(** ** From the webhook payload to the track *)

(** X21. How the engine resolves a signal that [extractTradeSignal] built: the
    words of the action text decide, BUY or LONG before SELL or SHORT, and
    the entry and exit flags only when none of the four words is there
    (entry before exit). A text with BUY or LONG goes to the LONG track
    even when it also says EXIT, SELL or SHORT. The engine's own fallback
    on the intent never decides: the direction is the extracted side. *)
Theorem extracted_signal_direction :
  forall (Number_ : string -> option Q) (payload : gmap string PVal)
         (sig : Signal.t),
    engineSignal (extractTradeSignal Number_ payload) = Some sig ->
    let a := actionRaw payload in
    let buyWord := includes "BUY" a || includes "LONG" a in
    let sellWord := includes "SELL" a || includes "SHORT" a in
    isBuy sig = buyWord || (negb sellWord && isEntry payload)
    /\ isSell sig
       = negb buyWord
         && (sellWord || (negb (isEntry payload) && isExit payload))
    /\ isBuy sig = sideIs BUY (Signal.side sig)
    /\ isSell sig = sideIs SELL (Signal.side sig).
Proof.
  intros Number_ payload sig H a buyWord sellWord.
  assert (Hs : Signal.side sig = extractSide payload
               /\ Signal.intent sig
                  = (if isEntry payload then Some ENTRY
                     else if isExit payload then Some EXIT else None)).
  { unfold engineSignal, extractTradeSignal in H; simpl in H.
    destruct (orP _ _) as [[?|?]|]; simplify_eq; by split. }
  destruct Hs as [Hside Hint].
  unfold isBuy, isSell. rewrite Hside, Hint.
  unfold extractSide. fold a. fold buyWord. fold sellWord.
  destruct buyWord, sellWord, (isEntry payload), (isExit payload); done.
Qed.

(** ** The cumulative paper PnL across a stop *)


(** ** Ticks before the first signal *)

Lemma longTick_idle symbol ltp now e :
  idle (Engine.longState e) ->
  processLongTickTransition symbol ltp now e = (e, []).
Proof.
  intros (Hthr & Hp & Hf). unfold processLongTickTransition, longTickUpdate.
  rewrite Hf, Hp. simpl. rewrite Hp, Hthr. simpl. by destruct e.
Qed.

Lemma shortTick_idle symbol ltp now e :
  idle (Engine.shortState e) ->
  processShortTickTransition symbol ltp now e = (e, []).
Proof.
  intros (Hthr & Hp & Hf). unfold processShortTickTransition, shortTickUpdate.
  rewrite Hf, Hp. simpl. rewrite Hp, Hthr. simpl. by destruct e.
Qed.

Lemma updateLtp_idle symbol price now e :
  (forall d, idle (track d e)) ->
  updateLtp symbol price now e
  = (Engine.set_ltpBySymbol (<[symbol := price]> (Engine.ltpBySymbol e)) e,
     []).
Proof.
  intros H. unfold updateLtp. destruct (isBtc symbol); [|done]. simpl.
  rewrite longTick_idle by apply (H LONG).
  rewrite shortTick_idle by apply (H SHORT). done.
Qed.

(** X23. Ticks alone never trade. While both tracks wait for a first signal (no
    threshold, no paper trade, state [NOPOSITION]), any number of ticks, for
    whatever symbols and prices, changes nothing but the price table:
    both tracks, the FSM display and the reset fields stay as they are and
    nothing is emitted. A new engine started without a state file is in
    that situation, and so is every engine right after the daily reset. *)
Theorem ticks_before_a_signal_do_nothing :
  (forall (ticks : list Tick.t) (e : Engine.t),
     (forall d, idle (track d e)) ->
     let r := feedTicks ticks e in
     Engine.longState r.1 = Engine.longState e
     /\ Engine.shortState r.1 = Engine.shortState e
     /\ Engine.fsmBySymbol r.1 = Engine.fsmBySymbol e
     /\ Engine.lastResetDate r.1 = Engine.lastResetDate e
     /\ Engine.lastResetTimestamp r.1 = Engine.lastResetTimestamp e
     /\ r.2 = [])
  /\ (forall now d, idle (track d (newEngine None now)))
  /\ (forall now e d, idle (track d (performDailyReset now e).1)).
Proof.
  split; [|split].
  - induction ticks as [|t rest IH]; intros e H; [done|].
    simpl. rewrite (updateLtp_idle _ _ _ e H).
    set (e1 := Engine.set_ltpBySymbol _ e).
    assert (H1 : forall d, idle (track d e1)).
    { intros d. pose proof (H d) as Hd. by destruct d. }
    specialize (IH e1 H1). destruct (feedTicks rest e1) as [e2 ev2].
    simpl in *. destruct IH as (-> & -> & -> & -> & -> & ->). done.
  - intros now d. by destruct d.
  - intros now e d. split; [|split].
    + rewrite performDailyReset_track. done.
    + apply performDailyReset_paperTrade.
    + rewrite performDailyReset_track. done.
Qed.

(** ** The theorems above at concrete inputs *)

Lemma restart_in_position_witness :
  Track.fsmState (track LONG enteredEngine) = positionState LONG
  /\ Track.fsmState
       (track LONG
          (processTickTransition LONG btc 105 90000
             (restarted 70000 80000 enteredEngine)).1)
     = NOPOSITION.
Proof.
  assert (H : Track.fsmState (track LONG enteredEngine) = positionState LONG)
    by (vm_compute; reflexivity).
  split; [exact H|].
  exact (proj1 (restart_in_position_resets_on_first_tick enteredEngine
                  70000 80000 LONG btc 105 90000 H)).
Defined.

Lemma restart_while_blocked_witness :
  Track.fsmState (track LONG blockedEngine) = NOPOSITION_BLOCKED
  /\ (processTicks LONG [Tick.mk btc 101 61000; Tick.mk btc 102 121000]
        (restarted 2000 3000 blockedEngine)).2 = [].
Proof.
  assert (H : Track.fsmState (track LONG blockedEngine) = NOPOSITION_BLOCKED)
    by (vm_compute; reflexivity).
  split; [exact H|].
  exact (proj2 (restart_while_blocked_stays_blocked blockedEngine 2000 3000
                  LONG [Tick.mk btc 101 61000; Tick.mk btc 102 121000] H)).
Defined.

Lemma updateLtp_records_price_witness :
  isBtc "ETHUSDT" = false
  /\ updateLtp "ETHUSDT" 7 1000 armedEngine
     = (Engine.set_ltpBySymbol
          (<["ETHUSDT" := 7]> (Engine.ltpBySymbol armedEngine)) armedEngine,
        []).
Proof.
  assert (H : isBtc "ETHUSDT" = false) by reflexivity.
  split; [exact H|].
  exact (proj2 (proj2 (updateLtp_records_price "ETHUSDT" 7 1000 armedEngine))
           H).
Defined.

Lemma processWebhookSignal_touches_one_track_witness :
  isBtc "NIFTY" = false
  /\ processWebhookSignal
       (Signal.mk (Some "NIFTY") (Some ENTRY) (Some 100) (Some BUY)) 500
       armedEngine
     = (armedEngine, []).
Proof.
  assert (H : isBtc "NIFTY" = false) by reflexivity.
  split; [exact H|].
  exact (proj1 (processWebhookSignal_touches_one_track
                  (Signal.mk (Some "NIFTY") (Some ENTRY) (Some 100) (Some BUY))
                  500 armedEngine) H).
Defined.

Lemma processWebhookSignal_arms_track_witness :
  isBtc btc = true
  /\ Track.fsmState
       (track SHORT
          (processWebhookSignal
             (Signal.mk (Some btc) None (Some 90) (Some SELL)) 2000
             blockedEngine).1)
     = NOPOSITION_SIGNAL.
Proof.
  assert (H : isBtc btc = true) by reflexivity.
  split; [exact H|].
  exact (proj1 (processWebhookSignal_arms_track
                  (Signal.mk (Some btc) None (Some 90) (Some SELL)) btc 2000
                  blockedEngine eq_refl H eq_refl)).
Defined.

Lemma rings_hold_at_most_50_witness :
  (forall d, ring_ok (track d armedEngine))
  /\ ring_ok (track LONG (run (CallUpdateLtp btc 100 1000) armedEngine).1).
Proof.
  assert (H : forall d, ring_ok (track d armedEngine)).
  { intros d. destruct d; split; vm_compute; lia. }
  split; [exact H|].
  exact (proj2 rings_hold_at_most_50 (CallUpdateLtp btc 100 1000) armedEngine
           H LONG).
Defined.

Lemma figures_are_zero_after_reset_witness :
  closed_by 86400000 (track LONG stoppedEngine)
  /\ getCumPaperPnl
       (Engine.lastResetTimestamp (performDailyReset 86400000 stoppedEngine).1)
       (track LONG (performDailyReset 86400000 stoppedEngine).1) == 0.
Proof.
  assert (H : closed_by 86400000 (track LONG stoppedEngine)).
  { unfold closed_by.
    set (closed := Track.paperTrades _). vm_compute in closed. subst closed.
    set (rows := Live.trades _). vm_compute in rows. subst rows.
    split.
    - constructor; [simpl; lia | constructor].
    - constructor.
      + simpl. intros c Hc. injection Hc as <-. lia.
      + constructor; [intros c Hc; discriminate | constructor]. }
  split; [exact H|].
  exact (proj1 (proj2 (figures_are_zero_after_reset 86400000 stoppedEngine
                         LONG H))).
Defined.

Lemma isFirstSecondNextMinute_bounds_witness :
  (1000 + 60000 <= 61000)%N
  /\ isFirstSecondNextMinute 1000 61000 = true.
Proof.
  assert (H : (1000 + 60000 <= 61000)%N) by lia.
  split; [exact H|].
  exact (proj1 (proj2 (isFirstSecondNextMinute_bounds 1000 61000)) H).
Defined.

Lemma reachable_promotedEngine : reachable promotedEngine.
Proof.
  assert (H : promotedEngine = runAll promotedCalls (newEngine None 1))
    by (vm_compute; reflexivity).
  rewrite H. cbv [runAll promotedCalls].
  repeat apply reachable_run. apply reachable_new.
Defined.

Lemma reachable_live_within_paper_witness :
  reachable promotedEngine
  /\ live_within_paper (track LONG promotedEngine).
Proof.
  split; [exact reachable_promotedEngine|].
  exact (reachable_live_within_paper promotedEngine LONG
           reachable_promotedEngine).
Defined.

Lemma reachable_trades_only_in_position_state_witness :
  reachable promotedEngine
  /\ Live.state (Track.liveState (track LONG promotedEngine)) = POSITION
  /\ Track.fsmState (track LONG promotedEngine) = BUYPOSITION.
Proof.
  assert (H : Live.state (Track.liveState (track LONG promotedEngine))
              = POSITION) by (vm_compute; reflexivity).
  split; [exact reachable_promotedEngine|]. split; [exact H|].
  exact (reachable_trades_only_in_position_state promotedEngine LONG
           reachable_promotedEngine (or_intror (or_intror H))).
Defined.

Lemma stop_at_breakout_threshold_witness :
  Track.paperTrade (track LONG enteredEngine) = Some enteredTrade
  /\ breakout LONG (PaperTrade.entryPrice enteredTrade) (JNum 100) = true
  /\ stopHit LONG 99 (JNum 100) = true
  /\ Track.fsmState
       (track LONG (processTickTransition LONG btc 99 62000 enteredEngine).1)
     = NOPOSITION_BLOCKED.
Proof.
  assert (H1 : Track.paperTrade (track LONG enteredEngine) = Some enteredTrade)
    by (vm_compute; reflexivity).
  assert (H2 : breakout LONG (PaperTrade.entryPrice enteredTrade) (JNum 100)
               = true) by reflexivity.
  assert (H3 : stopHit LONG 99 (JNum 100) = true) by reflexivity.
  split; [exact H1|]. split; [exact H2|]. split; [exact H3|].
  exact (proj1 (stop_at_breakout_threshold_is_a_loss LONG btc 99 100 62000
                  enteredEngine enteredTrade H1
                  ltac:(vm_compute; reflexivity)
                  ltac:(vm_compute; reflexivity) H2
                  ltac:(vm_compute; reflexivity) H3)).
Defined.

Lemma openPaperTrade_profit_sign_witness :
  Track.paperTrade (track LONG armedEngine) = None
  /\ 0 < 101
  /\ exists trade,
       Track.paperTrade (openPaperTrade LONG 61000 (track LONG armedEngine)
                           btc 101) = Some trade
       /\ 0 < PaperTrade.quantity trade
       /\ (0 < paperUnrealized LONG 102 trade <-> 101 < 102).
Proof.
  assert (H1 : Track.paperTrade (track LONG armedEngine) = None)
    by (vm_compute; reflexivity).
  assert (H2 : 0 < 101) by reflexivity.
  split; [exact H1|]. split; [exact H2|].
  destruct (openPaperTrade_profit_sign LONG 61000 (track LONG armedEngine) btc
              101 H1 H2) as (trade & Ht & _ & _ & Hq & _ & Hsign).
  exists trade. split; [exact Ht|]. split; [exact Hq|].
  exact (proj1 (Hsign 102)).
Defined.

Lemma live_lockout_witness :
  Live.blockedAtMs (Track.liveState (track LONG protectedEngine))
  = Some 63000%N
  /\ (minuteOf 63000 <= minuteOf 63000)%N
  /\ checkLiveTrade LONG 63500 (track LONG protectedEngine) 5 110 btc
     = (track LONG protectedEngine, []).
Proof.
  assert (H1 : Live.blockedAtMs (Track.liveState (track LONG protectedEngine))
               = Some 63000%N) by (vm_compute; reflexivity).
  assert (H2 : (minuteOf 63000 <= minuteOf 63000)%N) by reflexivity.
  split; [exact H1|]. split; [exact H2|].
  refine (proj1 (live_lockout_until_next_minute LONG 63500 63000
                   (track LONG protectedEngine) 5 110 btc enteredPending
                   _ _ _ H1 _ _) _).
  - vm_compute; reflexivity.
  - vm_compute; reflexivity.
  - vm_compute; reflexivity.
  - reflexivity.
  - reflexivity.
  - vm_compute. discriminate.
Defined.

Lemma auto_signals_rearm_witness :
  Engine.ltpBySymbol pricedEngine !! "BTCUSDT" = Some 60
  /\ truthyQ 60 = true
  /\ Track.threshold
       (Engine.longState
          (generateAutoSignals 86405000
             (performDailyReset 86400000 pricedEngine).1).1)
     = JNum (60 - 50).
Proof.
  assert (H1 : Engine.ltpBySymbol pricedEngine !! "BTCUSDT" = Some 60)
    by (vm_compute; reflexivity).
  assert (H2 : truthyQ 60 = true) by reflexivity.
  split; [exact H1|]. split; [exact H2|].
  exact (proj1 (proj2 (proj1 (auto_signals_rearm_after_reset 86400000
                                86405000 pricedEngine) 60 H1 H2))).
Defined.

Lemma reconnect_backoff_witness :
  (5 < 7)%nat
  /\ (Reconnect.steps (Reconnect.failures 7) Reconnect.initial).2 !! 5%nat
     = Some 30000%N.
Proof.
  assert (H : (5 < 7)%nat) by lia.
  split; [exact H|].
  exact (reconnect_backoff_doubles_up_to_30s 7 5 H).
Defined.

Lemma extracted_signal_direction_witness :
  engineSignal (extractTradeSignal (fun _ => None) exitLongPayload)
  = Some (Signal.mk (Some "BTCUSDT") (Some EXIT) None (Some BUY))
  /\ isBuy (Signal.mk (Some "BTCUSDT") (Some EXIT) None (Some BUY))
     = sideIs BUY (Some BUY).
Proof.
  assert (H : engineSignal (extractTradeSignal (fun _ => None) exitLongPayload)
              = Some (Signal.mk (Some "BTCUSDT") (Some EXIT) None (Some BUY)))
    by (vm_compute; reflexivity).
  split; [exact H|].
  exact (proj1 (proj2 (proj2 (extracted_signal_direction (fun _ => None)
                                exitLongPayload _ H)))).
Defined.

Lemma ticks_before_a_signal_witness :
  (forall d, idle (track d (newEngine None 1)))
  /\ (feedTicks [Tick.mk btc 100 1000; Tick.mk btc 200 61000]
        (newEngine None 1)).2 = [].
Proof.
  assert (H : forall d, idle (track d (newEngine None 1)))
    by (intros d; destruct d; repeat split).
  split; [exact H|].
  destruct (proj1 ticks_before_a_signal_do_nothing
              [Tick.mk btc 100 1000; Tick.mk btc 200 61000]
              (newEngine None 1) H) as (_ & _ & _ & _ & _ & Hev).
  exact Hev.
Defined.

